(** * PubCast Playwright sidecar: browser session manager and fingerprints

    A shallow embedding of [playwright-sidecar/src/fingerprint.js] and
    [playwright-sidecar/src/browser-manager.js].

    Conventions of the embedding:
    - the two module-level registries [activeBrowsers] and [loginWatchers]
      are [gmap]s keyed by the account id; they live in one [World] record
      that every operation threads explicitly;
    - [Math.random()] is a tape of rationals, [Date.now()] an explicit
      argument, and every call into Playwright is an outcome supplied by the
      caller: either a value or a thrown [Exn];
    - the [fs-extra] calls and [findFreePort] are taken to succeed; the JSON
      files of a profile directory are kept as typed values keyed by their
      path, so that [readJson] returns what [writeJson] stored;
    - [async] functions are run to completion one after the other: a timer
      tick is one atomic step of the world;
    - console lines keep their text without the leading pictographs. *)

From Stdlib Require Import ZArith QArith Qround Ascii String.
From stdpp Require Import gmap strings list pretty.

Local Open Scope Z_scope.
Local Open Scope string_scope.

(** ** JavaScript helpers *)

(** [String.prototype.includes]. *)
Fixpoint includes (hay needle : string) : bool :=
  if String.prefix needle hay then true
  else match hay with
       | EmptyString => false
       | String _ rest => includes rest needle
       end.

(** [s.split('-')[0]]: the text before the first dash. *)
Fixpoint beforeDash (s : string) : string :=
  match s with
  | EmptyString => EmptyString
  | String c rest => if Ascii.eqb c "-"%char then EmptyString
                     else String c (beforeDash rest)
  end.

(** A string is truthy unless it is empty. *)
Definition truthy (s : string) : bool := negb (String.eqb s "").

(** ** [Math.random]: a tape of draws *)

Record RNG := mkRNG { tape : nat -> Q; pos : nat }.

(** The contract of [Math.random]: every draw lies in [0, 1). *)
Definition rng_ok (g : RNG) : Prop :=
  forall n, (0 <= tape g n)%Q /\ (tape g n < 1)%Q.

(** A computation that draws from the tape. *)
Definition Rand (A : Type) : Type := RNG -> A * RNG.

Definition ret {A} (a : A) : Rand A := fun g => (a, g).
Definition bind {A B} (m : Rand A) (k : A -> Rand B) : Rand B :=
  fun g => let '(a, g') := m g in k a g'.

Notation "x <- m ;; k" := (bind m (fun x => k))
  (at level 100, m at next level, right associativity).

Definition random : Rand Q :=
  fun g => (tape g (pos g), mkRNG (tape g) (S (pos g))).

(** [Math.floor(Math.random() * n)]. *)
Definition floorTimes (r : Q) (n : Z) : Z := Qfloor (r * inject_Z n).

Module Fingerprint.

Record Resolution := mkRes { res_width : Z; res_height : Z }.
Record WebGLConfig := mkWebGL { gl_vendor : string; gl_renderer : string }.

Definition SCREEN_RESOLUTIONS : list Resolution :=
  [ mkRes 1920 1080; mkRes 1366 768; mkRes 1536 864;
    mkRes 1440 900; mkRes 1280 720; mkRes 2560 1440 ].

Definition USER_AGENTS : list string :=
  [ "Mozilla/5.0 (Macintosh; Intel Mac OS X 10_15_7) AppleWebKit/537.36 (KHTML, like Gecko) Chrome/120.0.0.0 Safari/537.36";
    "Mozilla/5.0 (Windows NT 10.0; Win64; x64) AppleWebKit/537.36 (KHTML, like Gecko) Chrome/120.0.0.0 Safari/537.36";
    "Mozilla/5.0 (Macintosh; Intel Mac OS X 10_15_7) AppleWebKit/537.36 (KHTML, like Gecko) Chrome/119.0.0.0 Safari/537.36";
    "Mozilla/5.0 (Windows NT 10.0; Win64; x64) AppleWebKit/537.36 (KHTML, like Gecko) Chrome/119.0.0.0 Safari/537.36";
    "Mozilla/5.0 (Macintosh; Intel Mac OS X 10_14_6) AppleWebKit/537.36 (KHTML, like Gecko) Chrome/120.0.0.0 Safari/537.36" ].

Definition TIMEZONES : list string :=
  [ "Asia/Shanghai"; "Asia/Hong_Kong"; "Asia/Tokyo"; "Asia/Singapore";
    "America/New_York"; "America/Los_Angeles"; "Europe/London" ].

Definition LOCALES : list string :=
  [ "zh-CN"; "zh-TW"; "en-US"; "en-GB"; "ja-JP" ].

Definition WEBGL_CONFIGS : list WebGLConfig :=
  [ mkWebGL "Google Inc. (Apple)" "ANGLE (Apple, ANGLE Metal Renderer: Apple M1, Unspecified Version)";
    mkWebGL "Google Inc. (Intel)" "ANGLE (Intel, Intel(R) UHD Graphics 630, OpenGL 4.1)";
    mkWebGL "Google Inc. (NVIDIA)" "ANGLE (NVIDIA, NVIDIA GeForce RTX 3060 Direct3D11 vs_5_0 ps_5_0, D3D11)";
    mkWebGL "Google Inc. (AMD)" "ANGLE (AMD, AMD Radeon RX 6700 XT Direct3D11 vs_5_0 ps_5_0, D3D11)" ].

Definition FONTS : list string :=
  [ "Arial"; "Arial Black"; "Comic Sans MS"; "Courier New"; "Georgia";
    "Impact"; "Times New Roman"; "Trebuchet MS"; "Verdana"; "Helvetica";
    "Microsoft YaHei"; "SimSun"; "SimHei"; "PingFang SC"; "Hiragino Sans GB" ].

(** [arr[Math.floor(Math.random() * arr.length)]]; [undef] stands for the
    [undefined] that JavaScript yields for an index outside the array. *)
Definition randomChoice {A} (undef : A) (arr : list A) : Rand A :=
  r <- random ;;
  ret (nth (Z.to_nat (floorTimes r (Z.of_nat (length arr)))) arr undef).

(** [Math.floor(Math.random() * (max - min + 1)) + min]. *)
Definition randomInt (min max : Z) : Rand Z :=
  r <- random ;;
  ret (floorTimes r (max - min + 1) + min).

Record Canvas := mkCanvas { cv_noise : Q; cv_seed : Q }.

(** The seed is [Math.random().toString(36).substring(2, 15)], a function of
    one draw; the draw itself is kept. *)
Definition generateCanvasNoise : Rand Canvas :=
  n <- randomInt 1 10 ;;
  s <- random ;;
  ret (mkCanvas (inject_Z n / 100)%Q s).

Record Screen := mkScreen {
  scr_width : Z; scr_height : Z;
  scr_availWidth : Z; scr_availHeight : Z;
  scr_colorDepth : Z; scr_pixelDepth : Z;
  scr_devicePixelRatio : Q }.

Record Navigator := mkNavigator {
  nav_userAgent : string;
  nav_platform : string;
  nav_language : string;
  nav_languages : list string;
  nav_hardwareConcurrency : Z;
  nav_deviceMemory : Z;
  nav_maxTouchPoints : Z;
  nav_vendor : string }.

Record Timezone := mkTimezone { tz_id : string; tz_offset : Z }.

Record Fingerprint := mkFingerprint {
  fp_screen : Screen;
  fp_navigator : Navigator;
  fp_timezone : Timezone;
  fp_webgl : WebGLConfig;
  fp_canvas : Canvas;
  fp_audio_noise : Q;
  fp_fonts : list string;
  fp_generatedAt : Z }.

(** The [offsets] object literal; a missing key reads [undefined]. *)
Definition offsets (timezone : string) : option Z :=
  if String.eqb timezone "Asia/Shanghai" then Some (-480)
  else if String.eqb timezone "Asia/Hong_Kong" then Some (-480)
  else if String.eqb timezone "Asia/Tokyo" then Some (-540)
  else if String.eqb timezone "Asia/Singapore" then Some (-480)
  else if String.eqb timezone "America/New_York" then Some 300
  else if String.eqb timezone "America/Los_Angeles" then Some 480
  else if String.eqb timezone "Europe/London" then Some 0
  else None.

(** [offsets[timezone] || 0]. *)
Definition getTimezoneOffset (timezone : string) : Z :=
  match offsets timezone with
  | Some o => if Z.eqb o 0 then 0 else o
  | None => 0
  end.

Record Geolocation := mkGeo { latitude : Q; longitude : Q }.

(** The [locations] object literal. *)
Definition locations (timezone : string) : option Geolocation :=
  if String.eqb timezone "Asia/Shanghai" then Some (mkGeo (312304 # 10000) (1214737 # 10000))
  else if String.eqb timezone "Asia/Hong_Kong" then Some (mkGeo (223193 # 10000) (1141694 # 10000))
  else if String.eqb timezone "Asia/Tokyo" then Some (mkGeo (356762 # 10000) (1396503 # 10000))
  else if String.eqb timezone "Asia/Singapore" then Some (mkGeo (13521 # 10000) (1038198 # 10000))
  else if String.eqb timezone "America/New_York" then Some (mkGeo (407128 # 10000) (-740060 # 10000))
  else if String.eqb timezone "America/Los_Angeles" then Some (mkGeo (340522 # 10000) (-1182437 # 10000))
  else if String.eqb timezone "Europe/London" then Some (mkGeo (515074 # 10000) (-1278 # 10000))
  else None.

(** [locations[timezone] || { latitude: 0, longitude: 0 }]. *)
Definition getGeolocationFromTimezone (timezone : string) : Geolocation :=
  match locations timezone with
  | Some loc => loc
  | None => mkGeo 0 0
  end.

(** The [options] argument of [generateFingerprint]; an absent field is
    [None]. *)
Record Options := mkOptions {
  opt_screen : option Resolution;
  opt_userAgent : option string;
  opt_timezone : option string;
  opt_locale : option string;
  opt_webgl : option WebGLConfig }.

Definition noOptions : Options := mkOptions None None None None None.

(** [o || randomChoice(arr)] for an object-valued option. *)
Definition orChoice {A} (o : option A) (undef : A) (arr : list A) : Rand A :=
  match o with
  | Some v => ret v
  | None => randomChoice undef arr
  end.

(** [s || randomChoice(arr)] for a string-valued option: the empty string is
    falsy. *)
Definition orChoiceStr (o : option string) (arr : list string) : Rand string :=
  match o with
  | Some s => if truthy s then ret s else randomChoice "" arr
  | None => randomChoice "" arr
  end.

Definition generateFingerprint (options : Options) (now : Z) : Rand Fingerprint :=
  screen <- orChoice (opt_screen options) (mkRes 0 0) SCREEN_RESOLUTIONS ;;
  userAgent <- orChoiceStr (opt_userAgent options) USER_AGENTS ;;
  timezone <- orChoiceStr (opt_timezone options) TIMEZONES ;;
  locale <- orChoiceStr (opt_locale options) LOCALES ;;
  webgl <- orChoice (opt_webgl options) (mkWebGL "" "") WEBGL_CONFIGS ;;
  let isMac := includes userAgent "Macintosh" in
  let platform := if isMac then "MacIntel" else "Win32" in
  hardwareConcurrency <-
    (if isMac then randomChoice 0 [8; 10; 12]
     else randomChoice 0 [4; 8; 12; 16]) ;;
  deviceMemory <- randomChoice 0 [4; 8; 16; 32] ;;
  nfonts <- randomInt 10 (Z.of_nat (length FONTS)) ;;
  let availableFonts := take (Z.to_nat nfonts) FONTS in
  taskbar <- randomInt 30 50 ;;
  dpr <- randomChoice 0%Q [1%Q; (125 # 100)%Q; (15 # 10)%Q; 2%Q] ;;
  maxTouchPoints <-
    (if isMac then ret 0 else randomChoice (-1) [0; 5; 10]) ;;
  canvas <- generateCanvasNoise ;;
  audio <- randomInt 1 5 ;;
  ret {| fp_screen :=
           {| scr_width := res_width screen;
              scr_height := res_height screen;
              scr_availWidth := res_width screen;
              scr_availHeight := res_height screen - taskbar;
              scr_colorDepth := 24;
              scr_pixelDepth := 24;
              scr_devicePixelRatio := dpr |};
         fp_navigator :=
           {| nav_userAgent := userAgent;
              nav_platform := platform;
              nav_language := locale;
              nav_languages := [locale; beforeDash locale];
              nav_hardwareConcurrency := hardwareConcurrency;
              nav_deviceMemory := deviceMemory;
              nav_maxTouchPoints := maxTouchPoints;
              nav_vendor := "Google Inc." |};
         fp_timezone :=
           {| tz_id := timezone; tz_offset := getTimezoneOffset timezone |};
         fp_webgl := webgl;
         fp_canvas := canvas;
         fp_audio_noise := (inject_Z audio / 1000)%Q;
         fp_fonts := availableFonts;
         fp_generatedAt := now |}.

(** The context options derived from a fingerprint. *)
Record ContextOptions := mkContextOptions {
  co_userAgent : string;
  co_viewport : option (Z * Z);
  co_deviceScaleFactor : Q;
  co_locale : string;
  co_timezoneId : string;
  co_permissions : list string;
  co_geolocation : Geolocation }.

Definition applyFingerprintToContext (fingerprint : Fingerprint) : ContextOptions :=
  {| co_userAgent := nav_userAgent (fp_navigator fingerprint);
     co_viewport := Some (scr_width (fp_screen fingerprint),
                          scr_height (fp_screen fingerprint));
     co_deviceScaleFactor := scr_devicePixelRatio (fp_screen fingerprint);
     co_locale := nav_language (fp_navigator fingerprint);
     co_timezoneId := tz_id (fp_timezone fingerprint);
     co_permissions := ["geolocation"];
     co_geolocation := getGeolocationFromTimezone (tz_id (fp_timezone fingerprint)) |}.

End Fingerprint.

(** ** The adapter registry ([adapters/index.js]) *)

Module Adapters.

Inductive PlatformType := CONTENT | AI_CHAT | SOCIAL.
Inductive ContentType := ARTICLE | IMAGE | VIDEO | SHORT_VIDEO.

Definition PlatformType_eqb (a b : PlatformType) : bool :=
  match a, b with
  | CONTENT, CONTENT | AI_CHAT, AI_CHAT | SOCIAL, SOCIAL => true
  | _, _ => false
  end.

(** What the constructor of [BasePlatformAdapter] stores; [ad_type] is
    [config.type || PlatformType.CONTENT]. *)
Record Adapter := mkAdapter {
  ad_id : string;
  ad_name : string;
  ad_type : PlatformType;
  ad_loginUrl : string;
  ad_homeUrl : string;
  ad_publishUrl : option string;
  ad_color : string;
  ad_supportedContentTypes : list ContentType }.

Definition sameId (platformId : string) (a : Adapter) : bool :=
  String.eqb (ad_id a) platformId.

(** [adapters.set(adapter.id, adapter)] on the Map kept as the list of its
    values in insertion order: a key already present keeps its place and
    takes the new value. *)
Definition setAdapter (m : list Adapter) (a : Adapter) : list Adapter :=
  if existsb (sameId (ad_id a)) m
  then List.map (fun b => if sameId (ad_id a) b then a else b) m
  else m ++ [a].

(** The registration loop over the adapter instances. *)
Definition register (instances : list Adapter) : list Adapter :=
  fold_left setAdapter instances [].

(** [adapters.get(platformId) || null]. *)
Definition getAdapter (adapters : list Adapter) (platformId : string) : option Adapter :=
  List.find (sameId platformId) adapters.

(** [Array.from(adapters.values()).map(...)]: the summary repeats the
    fields of the adapter. *)
Definition getAllPlatforms (adapters : list Adapter) : list Adapter := adapters.

Definition getContentPlatforms (adapters : list Adapter) : list Adapter :=
  List.filter (fun p => PlatformType_eqb (ad_type p) CONTENT
                        || PlatformType_eqb (ad_type p) SOCIAL)
              (getAllPlatforms adapters).

Definition getAIPlatforms (adapters : list Adapter) : list Adapter :=
  List.filter (fun p => PlatformType_eqb (ad_type p) AI_CHAT)
              (getAllPlatforms adapters).

End Adapters.

(** ** The browser manager *)

Module BrowserManager.
Import Fingerprint.

(** A thrown JavaScript error; [message] may be [undefined]. *)
Record Exn := mkExn { message : option string }.

(** What an awaited external call does: resolve with a value or throw. *)
Inductive Outcome (A : Type) : Type :=
| Returns (a : A)
| Throws (e : Exn).
Arguments Returns {A} a.
Arguments Throws {A} e.

Record Cookie := mkCookie { cookie_name : string; cookie_value : string }.

Record Proxy := mkProxy {
  protocol : option string;
  host : string;
  port : string;
  username : option string;
  password : option string }.

(** The [proxy] entry of the context options. *)
Record ProxyOptions := mkProxyOptions {
  server : string;
  po_username : option string;
  po_password : option string }.

(** [{ ...launchOptions, ...contextOptions }]. *)
Record FinalOptions := mkFinalOptions {
  channel : string;
  headless : bool;
  chromiumSandbox : bool;
  assistantMode : bool;
  cdpPort : Z;
  timeout : Z;
  args : list string;
  handleSIGINT : bool;
  handleSIGTERM : bool;
  context : ContextOptions;
  javaScriptEnabled : bool;
  ignoreHTTPSErrors : bool;
  fo_proxy : option ProxyOptions }.

(** An entry of [activeBrowsers].  [isLoggedIn] and [loginDetectedAt] are
    absent until the login watcher assigns them. *)
Record Session := mkSession {
  browserContext : nat;
  page : nat;
  fingerprint : Fingerprint;
  proxy : option Proxy;
  platformId : option string;
  userDataDir : string;
  launchedAt : Z;
  isLoggedIn : option bool;
  loginDetectedAt : option Z }.

(** The variables captured by the callback of one [setInterval] timer. *)
Record Watcher := mkWatcher {
  w_accountId : string;
  wasLoggedIn : bool;
  checkCount : nat;
  w_callback : bool;
  w_delay : Z }.

(** Calls that leave the process, in the order they are made, and two
    markers: [LoginCheck] and [SessionSave] record that [checkLoginStatus]
    and [saveSession] found their session and entered their [try] block. *)
Inductive Event :=
| EnsureDir (path : string)
| LaunchPersistentContext (dir : string) (opts : FinalOptions)
| NewPage (ctx : nat)
| AddInitScript (ctx : nat) (fp : Fingerprint)
| ContextCookies (ctx : nat)
| ContextClose (ctx : nat)
| SetTimeouts (pg : nat)
| Goto (pg : nat) (url : string)
| PageProbe (pg : nat)
| MouseMove (pg : nat)
| HumanDelay (min max : Z)
| Sleep (ms : Z)
| Screenshot (pg : nat) (path : string)
| Evaluate (pg : nat) (script : string)
| AdapterCheck (platform : string) (pg : nat)
| LoginCheck (accountId : string)
| SessionSave (accountId : string)
| OnLoginDetected (accountId : string)
| SetInterval (id : nat) (ms : Z)
| ClearInterval (id : nat).

Record World := mkWorld {
  cwd : string;
  activeBrowsers : gmap string Session;
  loginWatchers : gmap string nat;
  intervals : gmap nat Watcher;
  nextInterval : nat;
  dirs : gset string;
  fingerprintFiles : gmap string Fingerprint;
  cookieFiles : gmap string (list Cookie);
  console : list string;
  trace : list Event }.

Definition setActiveBrowsers (m : gmap string Session) (w : World) : World :=
  mkWorld (cwd w) m (loginWatchers w) (intervals w) (nextInterval w) (dirs w)
          (fingerprintFiles w) (cookieFiles w) (console w) (trace w).
Definition setLoginWatchers (m : gmap string nat) (w : World) : World :=
  mkWorld (cwd w) (activeBrowsers w) m (intervals w) (nextInterval w) (dirs w)
          (fingerprintFiles w) (cookieFiles w) (console w) (trace w).
Definition setIntervals (m : gmap nat Watcher) (w : World) : World :=
  mkWorld (cwd w) (activeBrowsers w) (loginWatchers w) m (nextInterval w) (dirs w)
          (fingerprintFiles w) (cookieFiles w) (console w) (trace w).
Definition setNextInterval (n : nat) (w : World) : World :=
  mkWorld (cwd w) (activeBrowsers w) (loginWatchers w) (intervals w) n (dirs w)
          (fingerprintFiles w) (cookieFiles w) (console w) (trace w).
Definition setDirs (d : gset string) (w : World) : World :=
  mkWorld (cwd w) (activeBrowsers w) (loginWatchers w) (intervals w) (nextInterval w) d
          (fingerprintFiles w) (cookieFiles w) (console w) (trace w).
Definition setFingerprintFiles (m : gmap string Fingerprint) (w : World) : World :=
  mkWorld (cwd w) (activeBrowsers w) (loginWatchers w) (intervals w) (nextInterval w) (dirs w)
          m (cookieFiles w) (console w) (trace w).
Definition setCookieFiles (m : gmap string (list Cookie)) (w : World) : World :=
  mkWorld (cwd w) (activeBrowsers w) (loginWatchers w) (intervals w) (nextInterval w) (dirs w)
          (fingerprintFiles w) m (console w) (trace w).

(** [console.log], [console.warn] and [console.error] append one line. *)
Definition log (line : string) (w : World) : World :=
  mkWorld (cwd w) (activeBrowsers w) (loginWatchers w) (intervals w) (nextInterval w) (dirs w)
          (fingerprintFiles w) (cookieFiles w) (console w ++ [line]) (trace w).

Definition emit (evs : list Event) (w : World) : World :=
  mkWorld (cwd w) (activeBrowsers w) (loginWatchers w) (intervals w) (nextInterval w) (dirs w)
          (fingerprintFiles w) (cookieFiles w) (console w) (trace w ++ evs).

(** The reply objects of the exported operations; an absent key is [None]. *)
Record Reply := mkReply {
  success : bool;
  r_accountId : option string;
  r_message : option string;
  r_error : option string;
  r_fingerprint : option Fingerprint;
  r_url : option string;
  r_cookieCount : option nat;
  r_path : option string;
  r_result : option string }.

(** [{ success: false, error }]. *)
Definition failure (error : option string) : Reply :=
  mkReply false None None error None None None None None.

(** [{ success: true }]. *)
Definition succeeded : Reply :=
  mkReply true None None None None None None None None.

Definition notFound : Reply :=
  failure (Some "No active browser for this account").

(** [path.join(a, b)] on components that need no normalisation. *)
Definition pathJoin (a b : string) : string := a ++ "/" ++ b.

Definition PROFILES_DIR (w : World) : string := pathJoin (cwd w) "profiles".

(** [fs.ensureDir]. *)
Definition ensureDir (path : string) (w : World) : World :=
  emit [EnsureDir path] (setDirs ({[ path ]} ∪ dirs w) w).

Definition ensureProfilesDir (w : World) : World :=
  ensureDir (PROFILES_DIR w) w.

Definition getProfilePath (w : World) (accountId : string) : string :=
  pathJoin (PROFILES_DIR w) accountId.

Definition loadOrCreateFingerprint (accountId : string) (now : Z) (g : RNG)
    (w : World) : Fingerprint * RNG * World :=
  let fingerprintPath := pathJoin (getProfilePath w accountId) "fingerprint.json" in
  match fingerprintFiles w !! fingerprintPath with
  | Some stored => (stored, g, w)
  | None =>
      let '(fingerprint, g') := generateFingerprint noOptions now g in
      let w1 := ensureDir (getProfilePath w accountId) w in
      let w2 := setFingerprintFiles (<[fingerprintPath := fingerprint]> (fingerprintFiles w1)) w1 in
      (fingerprint, g', w2)
  end.

Definition saveCookies (accountId : string) (cookies : list Cookie) (w : World) : World :=
  let cookiesPath := pathJoin (getProfilePath w accountId) "cookies.json" in
  setCookieFiles (<[cookiesPath := cookies]> (cookieFiles w)) w.


(** *** Bot-challenge handling *)

(** What [title()], [url()] and [content()] read from a page. *)
Record PageView := mkPageView {
  pv_title : string;
  pv_url : string;
  pv_content : string }.

Definition looksLikeChallenge (v : PageView) : bool :=
  let titleCheck := includes (pv_title v) "Just a moment"
                    || includes (pv_title v) "Please wait"
                    || includes (pv_title v) "Checking your browser" in
  let urlCheck := includes (pv_url v) "challenge-platform"
                  || includes (pv_url v) "cf_challenge" in
  let contentCheck := includes (pv_content v) "cf-browser-verification"
                      || includes (pv_content v) "checking your browser"
                      || includes (pv_content v) "Ray ID:" in
  titleCheck || urlCheck || contentCheck.

(** A probe that throws is answered [false]. *)
Definition isCloudflareChallenge (pg : nat) (probe : Outcome PageView)
    (w : World) : bool * World :=
  let w1 := emit [PageProbe pg] w in
  match probe with
  | Returns v => (looksLikeChallenge v, w1)
  | Throws _ => (false, w1)
  end.

(** The pause after the pointer movement is skipped when the movement
    throws; the error is ignored. *)
Definition simulateHumanBehavior (pg : nat) (move : Outcome unit) (w : World) : World :=
  match move with
  | Returns _ => emit [MouseMove pg; HumanDelay 500 1500] w
  | Throws _ => emit [MouseMove pg] w
  end.

(** The page as the challenge loop meets it: the answer to the k-th probe
    and to the k-th pointer movement. *)
Record ChallengeEnv := mkChallengeEnv {
  probes : nat -> Outcome PageView;
  moves : nat -> Outcome unit }.

Definition maxAttempts : nat := 12.

(** The [while (attempts < maxAttempts)] loop, by recursion on
    [maxAttempts - attempts]. *)
Fixpoint challengeLoop (remaining attempts nmoves : nat) (pg : nat)
    (env : ChallengeEnv) (w : World) : bool * World :=
  match remaining with
  | O => (false, w)
  | S remaining' =>
      let '(isStillChallenge, w1) := isCloudflareChallenge pg (probes env attempts) w in
      if negb isStillChallenge then
        (true, emit [HumanDelay 1000 2000] (log "Cloudflare challenge passed" w1))
      else
        let '(nmoves', w2) :=
          if (attempts mod 3 =? 0)%nat
          then (S nmoves, simulateHumanBehavior pg (moves env nmoves) w1)
          else (nmoves, w1) in
        let w3 := emit [Sleep 5000] w2 in
        let w4 := log ("Waiting for Cloudflare... (" ++ pretty (S attempts) ++ "/"
                       ++ pretty maxAttempts ++ ")") w3 in
        challengeLoop remaining' (S attempts) nmoves' pg env w4
  end.

(** Nothing inside the [try] can throw: the probe and the pointer movement
    catch their own errors. *)
Definition handleCloudflareChallenge (pg : nat) (env : ChallengeEnv)
    (w : World) : bool * World :=
  let w1 := log "Cloudflare challenge detected, waiting..." w in
  let w2 := simulateHumanBehavior pg (moves env 0%nat) w1 in
  challengeLoop (maxAttempts - 0) 0 1 pg env w2.

(** *** Login watchers *)

Definition stopLoginWatcher (accountId : string) (w : World) : World :=
  match loginWatchers w !! accountId with
  | Some intervalId =>
      let w1 := emit [ClearInterval intervalId]
                     (setIntervals (delete intervalId (intervals w)) w) in
      let w2 := setLoginWatchers (delete accountId (loginWatchers w1)) w1 in
      log ("[BrowserManager] Stopped login watcher for " ++ accountId) w2
  | None => w
  end.

Definition maxChecks : nat := 120.
Definition watcherDelay : Z := 1000.

(** Registers the timer; its callback is [tick] below. *)
Definition startLoginWatcher (accountId : string) (onLoginDetected : bool)
    (w : World) : World :=
  let w1 := stopLoginWatcher accountId w in
  let w2 := log ("[BrowserManager] Starting login watcher for " ++ accountId) w1 in
  let intervalId := nextInterval w2 in
  let w3 := setNextInterval (S intervalId) w2 in
  let w4 := emit [SetInterval intervalId watcherDelay]
                 (setIntervals
                    (<[intervalId := mkWatcher accountId false 0 onLoginDetected watcherDelay]>
                       (intervals w3)) w3) in
  setLoginWatchers (<[accountId := intervalId]> (loginWatchers w4)) w4.

(** [saveSession]: the outcome of [browserContext.cookies()] is given. *)
Definition saveSession (accountId : string) (cookies : Outcome (list Cookie))
    (w : World) : Reply * World :=
  match activeBrowsers w !! accountId with
  | None => (notFound, w)
  | Some session =>
      let w1 := emit [SessionSave accountId; ContextCookies (browserContext session)] w in
      match cookies with
      | Throws error => (failure (message error), w1)
      | Returns cs =>
          let w2 := saveCookies accountId cs w1 in
          let w3 := log ("[BrowserManager] Session saved for account " ++ accountId) w2 in
          (mkReply true None None None None None (Some (length cs)) None None, w3)
      end
  end.

(** The status object of [checkLoginStatus]; an absent [isLoggedIn] reads
    as falsy. *)
Record LoginStatus := mkLoginStatus {
  ls_success : bool;
  ls_isLoggedIn : bool;
  ls_cookieCount : option nat;
  ls_platformId : option string;
  ls_error : option string }.

(** The adapter registry seen from one call: no adapter for the platform
    (the cookie-count fallback runs) or an adapter whose check resolves or
    throws. *)
Inductive AdapterEnv :=
| NoAdapter (cookies : Outcome (list Cookie))
| HasAdapter (check : Outcome bool).

(** [session.platformId || accountId]. *)
Definition platformOf (session : Session) (accountId : string) : string :=
  match platformId session with
  | Some p => if truthy p then p else accountId
  | None => accountId
  end.

Definition checkLoginStatus (accountId : string) (env : AdapterEnv)
    (w : World) : LoginStatus * World :=
  match activeBrowsers w !! accountId with
  | None => (mkLoginStatus false false None None
               (Some "No active browser for this account"), w)
  | Some session =>
      let platform := platformOf session accountId in
      match env with
      | NoAdapter cookies =>
          let w1 := emit [LoginCheck accountId; ContextCookies (browserContext session)] w in
          match cookies with
          | Returns cs =>
              (mkLoginStatus true (5 <? length cs)%nat (Some (length cs))
                             (Some platform) None, w1)
          | Throws error => (mkLoginStatus false false None None (message error), w1)
          end
      | HasAdapter check =>
          let w1 := emit [LoginCheck accountId; AdapterCheck platform (page session)] w in
          match check with
          | Returns loggedIn =>
              (mkLoginStatus true loggedIn None (Some platform) None, w1)
          | Throws error => (mkLoginStatus false false None None (message error), w1)
          end
      end
  end.

Definition setLogin (session : Session) (flag : bool) (at_ : option Z) : Session :=
  mkSession (browserContext session) (page session) (fingerprint session)
            (proxy session) (platformId session) (userDataDir session)
            (launchedAt session) (Some flag) at_.

(** What one firing of the timer meets. *)
Record TickEnv := mkTickEnv {
  te_adapter : AdapterEnv;
  te_cookies : Outcome (list Cookie);
  te_callbackThrows : bool;
  te_now : Z }.

Definition setWatcher (id : nat) (wt : Watcher) (w : World) : World :=
  setIntervals (<[id := wt]> (intervals w)) w.

(** One firing of the timer [id].  A cleared timer never fires. *)
Definition tick (id : nat) (env : TickEnv) (w : World) : World :=
  match intervals w !! id with
  | None => w
  | Some wt =>
      let accountId := w_accountId wt in
      let count := S (checkCount wt) in
      let wt1 := mkWatcher accountId (wasLoggedIn wt) count (w_callback wt) (w_delay wt) in
      let w1 := setWatcher id wt1 w in
      if (maxChecks <? count)%nat then
        stopLoginWatcher accountId
          (log ("[BrowserManager] Login watcher timeout for " ++ accountId) w1)
      else
        match activeBrowsers w1 !! accountId with
        | None =>
            stopLoginWatcher accountId
              (log ("[BrowserManager] Browser closed, stopping watcher for " ++ accountId) w1)
        | Some session =>
            let '(status, w2) := checkLoginStatus accountId (te_adapter env) w1 in
            if ls_success status && ls_isLoggedIn status && negb (wasLoggedIn wt) then
              let w3 := log ("[BrowserManager] Login detected for " ++ accountId ++ "!") w2 in
              let w4 := setWatcher id
                          (mkWatcher accountId true count (w_callback wt) (w_delay wt)) w3 in
              let '(_, w5) := saveSession accountId (te_cookies env) w4 in
              let w6 := log ("[BrowserManager] Session auto-saved for " ++ accountId) w5 in
              let w7 := setActiveBrowsers
                          (<[accountId := setLogin session true (Some (te_now env))]>
                             (activeBrowsers w6)) w6 in
              if w_callback wt then
                let w8 := emit [OnLoginDetected accountId] w7 in
                (* an error thrown by the callback is caught and ignored *)
                if te_callbackThrows env then w8 else w8
              else w7
            else if ls_success status && negb (ls_isLoggedIn status) && wasLoggedIn wt then
              let w3 := log ("[BrowserManager] Logout detected for " ++ accountId) w2 in
              let w4 := setWatcher id
                          (mkWatcher accountId false count (w_callback wt) (w_delay wt)) w3 in
              setActiveBrowsers
                (<[accountId := setLogin session false (loginDetectedAt session)]>
                   (activeBrowsers w4)) w4
            else w2
        end
  end.


(** *** Exported session operations *)

(** The [options] argument of [launchBrowser]. *)
Record LaunchRequest := mkLaunchRequest {
  lr_accountId : string;
  lr_platformId : option string;
  lr_proxy : option Proxy;
  lr_headless : option bool }.

(** What one launch meets: the clock, the free port, and the outcomes of
    [launchPersistentContext] (a context and its first page, if any),
    [newPage] and [addInitScript]. *)
Record LaunchEnv := mkLaunchEnv {
  le_now : Z;
  le_launchedAt : Z;
  le_port : Z;
  le_launch : Outcome (nat * option nat);
  le_newPage : Outcome nat;
  le_initScript : Outcome unit }.

(** [a || b] on an optional string. *)
Definition orElse (o : option string) (d : string) : string :=
  match o with
  | Some s => if truthy s then s else d
  | None => d
  end.

Definition truthyOpt (o : option string) : bool :=
  match o with
  | Some s => truthy s
  | None => false
  end.

Definition proxyOptions (p : Proxy) : ProxyOptions :=
  let srv := orElse (protocol p) "http" ++ "://" ++ host p ++ ":" ++ port p in
  if truthyOpt (username p) && truthyOpt (password p)
  then mkProxyOptions srv (username p) (password p)
  else mkProxyOptions srv None None.

(** [{ ...fingerprintOptions, viewport: null, locale, timezoneId, ... }]:
    the keys written after the spread replace the spread ones. *)
Definition contextOptions (fp : Fingerprint) : ContextOptions :=
  let fingerprintOptions := applyFingerprintToContext fp in
  {| co_userAgent := co_userAgent fingerprintOptions;
     co_viewport := None;
     co_deviceScaleFactor := co_deviceScaleFactor fingerprintOptions;
     co_locale := orElse (Some (nav_language (fp_navigator fp))) "zh-CN";
     co_timezoneId := "Asia/Shanghai";
     co_permissions := co_permissions fingerprintOptions;
     co_geolocation := co_geolocation fingerprintOptions |}.

Definition finalOptions (req : LaunchRequest) (fp : Fingerprint) (cdp : Z) : FinalOptions :=
  {| channel := "chrome";
     headless := default false (lr_headless req);
     chromiumSandbox := true;
     assistantMode := true;
     cdpPort := cdp;
     timeout := 60000;
     args := ["--no-first-run"; "--disable-default-apps";
              "--no-default-browser-check"; "--start-maximized"];
     handleSIGINT := false;
     handleSIGTERM := false;
     context := contextOptions fp;
     javaScriptEnabled := true;
     ignoreHTTPSErrors := true;
     fo_proxy := proxyOptions <$> lr_proxy req |}.

(** The [catch] block of [launchBrowser]. *)
Definition launchFailed (accountId : string) (error : Exn) (w : World) : Reply * World :=
  let w1 := log ("[BrowserManager] Failed to launch browser for account " ++ accountId ++ ":") w in
  match message error with
  | Some m =>
      if includes m "Executable doesn't exist"
      then (mkReply false (Some accountId) None
              (Some "Chrome not installed. Please install Google Chrome.")
              None None None None None, w1)
      else (mkReply false (Some accountId) None (Some m) None None None None None, w1)
  | None => (mkReply false (Some accountId) None None None None None None None, w1)
  end.

Definition launchBrowser (req : LaunchRequest) (env : LaunchEnv) (g : RNG)
    (w : World) : Reply * RNG * World :=
  let accountId := lr_accountId req in
  let w1 := ensureProfilesDir w in
  if decide (is_Some (activeBrowsers w1 !! accountId)) then
    let w2 := log ("[BrowserManager] Browser already active for account " ++ accountId) w1 in
    (mkReply true (Some accountId) (Some "Browser already active")
             None None None None None None, g, w2)
  else
    let '(fp, g', w2) := loadOrCreateFingerprint accountId (le_now env) g w1 in
    let dir := getProfilePath w2 accountId in
    let w3 := ensureDir dir w2 in
    let w4 := log ("[BrowserManager] Launching browser for account " ++ accountId
                   ++ " (" ++ orElse (lr_platformId req) "unknown" ++ ")...") w3 in
    let w5 := log ("[BrowserManager] User data dir: " ++ dir) w4 in
    let opts := finalOptions req fp (le_port env) in
    let w6 := log "[BrowserManager] Launch config:" w5 in
    let w7 := emit [LaunchPersistentContext dir opts] w6 in
    match le_launch env with
    | Throws error => let '(r, w') := launchFailed accountId error w7 in (r, g', w')
    | Returns (ctx, firstPage) =>
        let pageOrError :=
          match firstPage with
          | Some pg => (Returns pg, w7)
          | None => (le_newPage env, emit [NewPage ctx] w7)
          end in
        match pageOrError with
        | (Throws error, w8) =>
            let '(r, w') := launchFailed accountId error w8 in (r, g', w')
        | (Returns pg, w8) =>
            let w9 := emit [AddInitScript ctx fp] w8 in
            match le_initScript env with
            | Throws error =>
                let '(r, w') := launchFailed accountId error w9 in (r, g', w')
            | Returns _ =>
                let session := mkSession ctx pg fp (lr_proxy req) (lr_platformId req)
                                         dir (le_launchedAt env) None None in
                let w10 := setActiveBrowsers
                             (<[accountId := session]> (activeBrowsers w9)) w9 in
                let w11 := log ("[BrowserManager] Browser launched successfully for account "
                                ++ accountId) w10 in
                (mkReply true (Some accountId) (Some "Browser launched successfully")
                         None (Some fp) None None None None, g', w11)
            end
        end
    end.

(** What one navigation meets. *)
Record NavEnv := mkNavEnv {
  ne_goto : Outcome unit;
  ne_detect : Outcome PageView;
  ne_challenge : ChallengeEnv;
  ne_move : Outcome unit }.

Definition navigateTo (accountId url : string) (watchLogin : option bool)
    (env : NavEnv) (w : World) : Reply * World :=
  match activeBrowsers w !! accountId with
  | None => (notFound, w)
  | Some session =>
      let w1 := emit [SetTimeouts (page session); Goto (page session) url] w in
      match ne_goto env with
      | Throws error => (failure (message error), w1)
      | Returns _ =>
          let w2 := emit [HumanDelay 1000 2000] w1 in
          let '(challenged, w3) := isCloudflareChallenge (page session) (ne_detect env) w2 in
          let w4 := if challenged
                    then snd (handleCloudflareChallenge (page session) (ne_challenge env) w3)
                    else w3 in
          let w5 := simulateHumanBehavior (page session) (ne_move env) w4 in
          let w6 := if default true watchLogin
                    then startLoginWatcher accountId false w5
                    else w5 in
          (mkReply true None None None None (Some url) None None None, w6)
      end
  end.

Definition closeBrowser (accountId : string) (saveSessionBeforeClose : option bool)
    (cookies : Outcome (list Cookie)) (closing : Outcome unit)
    (w : World) : Reply * World :=
  match activeBrowsers w !! accountId with
  | None => (notFound, w)
  | Some session =>
      let w1 := stopLoginWatcher accountId w in
      let w2 := if default true saveSessionBeforeClose
                then snd (saveSession accountId cookies w1)
                else w1 in
      let w3 := emit [ContextClose (browserContext session)] w2 in
      match closing with
      | Throws error => (failure (message error), w3)
      | Returns _ =>
          let w4 := setActiveBrowsers (delete accountId (activeBrowsers w3)) w3 in
          (succeeded, log ("[BrowserManager] Browser closed for account " ++ accountId) w4)
      end
  end.

Definition takeScreenshot (accountId : string) (now : Z) (shot : Outcome unit)
    (w : World) : Reply * World :=
  match activeBrowsers w !! accountId with
  | None => (notFound, w)
  | Some session =>
      let screenshotPath := pathJoin (getProfilePath w accountId)
                                     ("screenshot-" ++ pretty now ++ ".png") in
      let w1 := emit [Screenshot (page session) screenshotPath] w in
      match shot with
      | Throws error => (failure (message error), w1)
      | Returns _ => (mkReply true None None None None None None (Some screenshotPath) None, w1)
      end
  end.

Definition executeScript (accountId script : string) (evaluated : Outcome string)
    (w : World) : Reply * World :=
  match activeBrowsers w !! accountId with
  | None => (notFound, w)
  | Some session =>
      let w1 := emit [Evaluate (page session) script] w in
      match evaluated with
      | Throws error => (failure (message error), w1)
      | Returns v => (mkReply true None None None None None None None (Some v), w1)
      end
  end.


(** *** Further operations *)

(** [loadCookies]: the stored cookies, or the empty array when the file is
    missing. *)
Definition loadCookies (accountId : string) (w : World) : list Cookie :=
  let cookiesPath := pathJoin (getProfilePath w accountId) "cookies.json" in
  match cookieFiles w !! cookiesPath with
  | Some cookies => cookies
  | None => []
  end.

(** The reply of [getLoginState]; [gs_loginDetectedAt = None] is [null],
    and the two login fields are absent from a failure. *)
Record LoginState := mkLoginState {
  gs_success : bool;
  gs_accountId : option string;
  gs_isLoggedIn : option bool;
  gs_loginDetectedAt : option Z;
  gs_error : option string }.

(** [session.isLoggedIn || false] and [session.loginDetectedAt || null]:
    the time 0 is falsy. *)
Definition getLoginState (accountId : string) (w : World) : LoginState :=
  match activeBrowsers w !! accountId with
  | None => mkLoginState false None None None (Some "No active browser")
  | Some session =>
      mkLoginState true (Some accountId)
        (Some (default false (isLoggedIn session)))
        (match loginDetectedAt session with
         | Some t => if Z.eqb t 0 then None else Some t
         | None => None
         end)
        None
  end.

(** What the closing of one account meets. *)
Record CloseEnv := mkCloseEnv {
  ce_cookies : Outcome (list Cookie);
  ce_closing : Outcome unit }.

(** [{ accountId, ...result }]. *)
Definition withAccount (accountId : string) (r : Reply) : Reply :=
  mkReply (success r)
          (match r_accountId r with Some a => Some a | None => Some accountId end)
          (r_message r) (r_error r) (r_fingerprint r) (r_url r)
          (r_cookieCount r) (r_path r) (r_result r).

(** [closeAllBrowsers].  [keys] lists the keys of [activeBrowsers] in the
    order of the Map (its insertion order, which the world does not
    record); the iterator is live, so a key that has left the map by the
    time it is reached is passed over. *)
Fixpoint closeAllBrowsers (keys : list string) (env : string -> CloseEnv)
    (w : World) : list Reply * World :=
  match keys with
  | [] => ([], w)
  | accountId :: rest =>
      if decide (is_Some (activeBrowsers w !! accountId)) then
        let '(result, w1) :=
          closeBrowser accountId None (ce_cookies (env accountId))
                       (ce_closing (env accountId)) w in
        let '(results, w2) := closeAllBrowsers rest env w1 in
        (withAccount accountId result :: results, w2)
      else closeAllBrowsers rest env w
  end.

(** [publishContent]: the outcome of [adapter.publish] is given; the
    content only travels to the adapter. *)
Definition publishContent (adapters : list Adapters.Adapter) (accountId : string)
    (publish : Outcome Reply) (w : World) : Reply * World :=
  match activeBrowsers w !! accountId with
  | None => (notFound, w)
  | Some session =>
      match Adapters.getAdapter adapters (platformOf session accountId) with
      | None => (failure (Some "Unknown platform"), w)
      | Some adapter =>
          if negb (Adapters.PlatformType_eqb (Adapters.ad_type adapter) Adapters.CONTENT)
          then (failure (Some "Not a content platform"), w)
          else
            let w1 := log ("[BrowserManager] Publishing to "
                           ++ Adapters.ad_name adapter ++ "...") w in
            match publish with
            | Returns result => (result, w1)
            | Throws error => (failure (message error), w1)
            end
      end
  end.

(** *** Runs of the manager *)

(** The process at start-up: both registries empty. *)
Definition initial (dir : string) : World :=
  mkWorld dir ∅ ∅ ∅ 0 ∅ ∅ ∅ [] [].

(** One exported operation or one firing of a timer.  The exports left out
    ([getPageInfo], [getLoginState], the publishing and chat calls) read
    the session map and call the page or the adapter; [closeAllBrowsers] is
    a sequence of [closeBrowser] steps. *)
Inductive Step : World -> World -> Prop :=
| StepLaunch req env g w : Step w (snd (launchBrowser req env g w))
| StepNavigate a url watch env w : Step w (snd (navigateTo a url watch env w))
| StepSave a cookies w : Step w (snd (saveSession a cookies w))
| StepClose a save cookies closing w : Step w (snd (closeBrowser a save cookies closing w))
| StepScreenshot a now shot w : Step w (snd (takeScreenshot a now shot w))
| StepExecute a script v w : Step w (snd (executeScript a script v w))
| StepCheck a env w : Step w (snd (checkLoginStatus a env w))
| StepStart a cb w : Step w (startLoginWatcher a cb w)
| StepStop a w : Step w (stopLoginWatcher a w)
| StepTick id env w : Step w (tick id env w).

Definition Reachable (dir : string) (w : World) : Prop := rtc Step (initial dir) w.

(** The registry and the live timers agree: every registered id is a live
    timer of that account, every live timer is the registered one of its
    account, timer ids are never reused, and every live timer fires every
    [watcherDelay] ms and has counted at most [maxChecks] firings. *)
Record watchers_ok (w : World) : Prop := mkWatchersOk {
  registered_live : forall a id, loginWatchers w !! a = Some id ->
    exists wt, intervals w !! id = Some wt /\ w_accountId wt = a;
  live_registered : forall id wt, intervals w !! id = Some wt ->
    loginWatchers w !! w_accountId wt = Some id;
  ids_fresh : forall id, is_Some (intervals w !! id) -> (id < nextInterval w)%nat;
  counts_bounded : forall id wt, intervals w !! id = Some wt ->
    (checkCount wt <= maxChecks)%nat /\ w_delay wt = watcherDelay }.

(** Two worlds with the same registry, timers and id counter. *)
Definition sameTimers (w w' : World) : Prop :=
  loginWatchers w' = loginWatchers w /\
  intervals w' = intervals w /\
  nextInterval w' = nextInterval w.

(** Successive firings of one timer. *)
Definition runTicks (id : nat) (envs : list TickEnv) (w : World) : World :=
  foldl (fun w env => tick id env w) w envs.

Definition countEvents (p : Event -> bool) (w : World) : nat :=
  length (List.filter p (trace w)).

Definition isSave (a : string) (e : Event) : bool :=
  match e with SessionSave b => String.eqb a b | _ => false end.

Definition isCheck (a : string) (e : Event) : bool :=
  match e with LoginCheck b => String.eqb a b | _ => false end.

(** How many times the session of [a] has been saved / checked so far. *)
Definition saves (a : string) (w : World) : nat := countEvents (isSave a) w.
Definition checks (a : string) (w : World) : nat := countEvents (isCheck a) w.

(** What a tick learns about the login state: [Some b] when the check
    succeeds and reports [b], [None] when the check fails. *)
Definition reported (env : TickEnv) : option bool :=
  match te_adapter env with
  | NoAdapter (Returns cs) => Some (5 <? length cs)%nat
  | HasAdapter (Returns b) => Some b
  | NoAdapter (Throws _) | HasAdapter (Throws _) => None
  end.

(** The ticks, numbered from 1, on which the reported state goes from
    [false] to [true], starting from the state [prev]. *)
Fixpoint risingTicks (prev : bool) (n : nat) (reports : list (option bool)) : list nat :=
  match reports with
  | [] => []
  | Some true :: rest =>
      if prev then risingTicks true (S n) rest else n :: risingTicks true (S n) rest
  | Some false :: rest => risingTicks false (S n) rest
  | None :: rest => risingTicks prev (S n) rest
  end.

(** The answer of the k-th probe of a challenge. *)
Definition stillChallenge (env : ChallengeEnv) (k : nat) : bool :=
  match probes env k with
  | Returns v => looksLikeChallenge v
  | Throws _ => false
  end.

End BrowserManager.

Import Fingerprint BrowserManager.

(** ** The HTTP routes ([index.js]) *)

Module Server.

(** [res.status(code).json(body)]; [res.json(body)] answers 200.  The
    modelled manager operations do not throw, so the [catch] blocks that
    answer 500 are not reached. *)
Record Response := mkResponse { status : nat; body : Reply }.

(** [req.body] of [POST /browser/launch]. *)
Record LaunchBody := mkLaunchBody {
  lb_accountId : option string;
  lb_platformId : option string;
  lb_proxy : option Proxy;
  lb_headless : option bool }.

Definition postLaunch (b : LaunchBody) (env : LaunchEnv) (g : RNG)
    (w : World) : Response * RNG * World :=
  if negb (truthyOpt (lb_accountId b)) then
    (mkResponse 400 (failure (Some "accountId is required")), g, w)
  else
    let '(result, g', w') :=
      launchBrowser (mkLaunchRequest (default "" (lb_accountId b)) (lb_platformId b)
                       (lb_proxy b) (Some (default false (lb_headless b))))
                    env g w in
    (mkResponse 200 result, g', w').

Definition postNavigate (accountId url : option string) (env : NavEnv)
    (w : World) : Response * World :=
  if negb (truthyOpt accountId) || negb (truthyOpt url) then
    (mkResponse 400 (failure (Some "accountId and url are required")), w)
  else
    let '(result, w') := navigateTo (default "" accountId) (default "" url) None env w in
    (mkResponse 200 result, w').

Definition postExecute (accountId : string) (script : option string)
    (evaluated : Outcome string) (w : World) : Response * World :=
  if negb (truthyOpt script) then
    (mkResponse 400 (failure (Some "script is required")), w)
  else
    let '(result, w') := executeScript accountId (default "" script) evaluated w in
    (mkResponse 200 result, w').

(** [const { saveSession = true } = req.body]. *)
Definition postClose (accountId : string) (saveSession : option bool)
    (cookies : Outcome (list Cookie)) (closing : Outcome unit)
    (w : World) : Response * World :=
  let '(result, w') :=
    closeBrowser accountId (Some (default true saveSession)) cookies closing w in
  (mkResponse 200 result, w').

(** A path relative to the working directory of the process. *)
Definition resolve (w : World) (relative : string) : string :=
  pathJoin (cwd w) relative.

(** [GET /platforms/:platformId/cookies]: the cookies of the reply. *)
Definition getCookies (platformId : string) (w : World) : list Cookie :=
  let profilePath := "profiles/" ++ platformId ++ "/cookies.json" in
  match cookieFiles w !! resolve w profilePath with
  | Some cookies => cookies
  | None => []
  end.

(** [GET /platforms/:platformId/fingerprint]: the fingerprint of the
    reply, [None] for the empty object. *)
Definition getFingerprint (platformId : string) (w : World) : option Fingerprint :=
  let profilePath := "profiles/" ++ platformId ++ "/fingerprint.json" in
  fingerprintFiles w !! resolve w profilePath.

(** [POST /platforms/:platformId/restore].  [cookies] is [Some] for an
    array (the empty one included), [fingerprint] is [Some] for an object
    with at least one key. *)
Definition postRestore (platformId : string) (cookies : option (list Cookie))
    (fingerprint : option Fingerprint) (w : World) : Response * World :=
  let profileDir := "profiles/" ++ platformId in
  let w1 := ensureDir (resolve w profileDir) w in
  let w2 := match cookies with
            | Some cs =>
                setCookieFiles
                  (<[resolve w1 (pathJoin profileDir "cookies.json") := cs]>
                     (cookieFiles w1)) w1
            | None => w1
            end in
  let w3 := match fingerprint with
            | Some fp =>
                setFingerprintFiles
                  (<[resolve w2 (pathJoin profileDir "fingerprint.json") := fp]>
                     (fingerprintFiles w2)) w2
            | None => w2
            end in
  (mkResponse 200 succeeded, w3).

End Server.

(** ** Reasoning about draws *)

(** [yields m P]: on every tape that honours the contract of
    [Math.random], [m] returns a value satisfying [P] and leaves such a
    tape behind. *)
Definition yields {A} (m : Rand A) (P : A -> Prop) : Prop :=
  forall g, rng_ok g -> P (m g).1 /\ rng_ok (m g).2.

(** The derived navigator fields agree with the operating system named by
    the user agent. *)
Definition osConsistent (nav : Navigator) : Prop :=
  (includes (nav_userAgent nav) "Macintosh" = true ->
     nav_platform nav = "MacIntel" /\
     In (nav_hardwareConcurrency nav) [8; 10; 12] /\
     nav_maxTouchPoints nav = 0) /\
  (includes (nav_userAgent nav) "Macintosh" = false ->
     nav_platform nav = "Win32" /\
     In (nav_hardwareConcurrency nav) [4; 8; 12; 16] /\
     In (nav_maxTouchPoints nav) [0; 5; 10]).

(** A user agent of the table names exactly one of the two systems. *)
Definition namesOneSystem (ua : string) : bool :=
  xorb (includes ua "Macintosh") (includes ua "Windows").

(** What [generateFingerprint] promises about its result for the given
    [options]: the navigator fields agree with the user agent, a drawn user
    agent comes from the table and names one system, and a drawn timezone
    has an entry in [locations]. *)
Definition fingerprintConsistent (options : Options) (fp : Fingerprint) : Prop :=
  osConsistent (fp_navigator fp) /\
  (opt_userAgent options = None ->
     In (nav_userAgent (fp_navigator fp)) USER_AGENTS /\
     namesOneSystem (nav_userAgent (fp_navigator fp)) = true) /\
  (opt_timezone options = None ->
     In (tz_id (fp_timezone fp)) TIMEZONES /\
     locations (tz_id (fp_timezone fp))
       = Some (getGeolocationFromTimezone (tz_id (fp_timezone fp)))).

(** ** Observing the challenge wait *)

(** The events that pace the wait: probes, pointer movements and sleeps. *)
Definition paced (e : Event) : bool :=
  match e with
  | PageProbe _ | MouseMove _ | Sleep _ => true
  | _ => false
  end.

Definition isProbe (e : Event) : bool :=
  match e with PageProbe _ => true | _ => false end.

(** One unsuccessful attempt, numbered from 0: a probe, a pointer movement
    when the number is a multiple of three, and a pause of five seconds. *)
Definition waitRound (pg j : nat) : list Event :=
  PageProbe pg :: (if (j mod 3 =? 0)%nat then [MouseMove pg] else []) ++ [Sleep 5000].

(** ** Observing one tick *)

(** The reported state rises against the watcher's memory of it. *)
Definition rising (env : TickEnv) (wt : Watcher) : bool :=
  match reported env with
  | Some true => negb (wasLoggedIn wt)
  | _ => false
  end.

(** The reported state falls against the watcher's memory of it. *)
Definition falling (env : TickEnv) (wt : Watcher) : bool :=
  match reported env with
  | Some false => wasLoggedIn wt
  | _ => false
  end.

(** The watcher's memory after a tick that performed its check. *)
Definition remembered (env : TickEnv) (wt : Watcher) : bool :=
  match reported env with
  | Some b => b
  | None => wasLoggedIn wt
  end.

(** The closure of a timer after a tick that performed its check. *)
Definition ticked (env : TickEnv) (wt : Watcher) : Watcher :=
  mkWatcher (w_accountId wt) (remembered env wt) (S (checkCount wt))
            (w_callback wt) (w_delay wt).

(** The ticks of a run, numbered from [n], on which the session of [a] was
    saved. *)
Fixpoint saveTicks (a : string) (id : nat) (n : nat) (envs : list TickEnv)
    (w : World) : list nat :=
  match envs with
  | [] => []
  | env :: rest =>
      let w' := tick id env w in
      (if (saves a w <? saves a w')%nat then [n] else [])
        ++ saveTicks a id (S n) rest w'
  end.

(** The reading "a tick whose check throws is logged, and the watcher
    goes on". *)
Definition tickErrorIsLogged : Prop :=
  forall id env w wt s e,
    intervals w !! id = Some wt ->
    (checkCount wt < maxChecks)%nat ->
    activeBrowsers w !! w_accountId wt = Some s ->
    te_adapter env = HasAdapter (Throws e) ->
    console (tick id env w) <> console w /\
    is_Some (intervals (tick id env w) !! id).

(** ** Sample worlds *)

Module Examples.

Definition rng : RNG := mkRNG (fun n => (Z.of_nat (n mod 7) # 7)%Q) 0.

Definition fp : Fingerprint := (generateFingerprint noOptions 1700000000000 rng).1.

Definition session : Session :=
  mkSession 1 1 fp None (Some "netease") "/srv/profiles/acct-1"
            1700000000000 None None.

(** One session, no watcher. *)
Definition launched : World :=
  setActiveBrowsers {[ "acct-1" := session ]} (initial "/srv").

(** One session and its watcher, timer 0. *)
Definition watched : World := startLoginWatcher "acct-1" false launched.

Definition answer (b : bool) : TickEnv :=
  mkTickEnv (HasAdapter (Returns b)) (Returns []) false 1700000005000.

Definition scripted : list TickEnv := map answer [false; false; true; true; false].

Definition failing : TickEnv :=
  mkTickEnv (HasAdapter (Throws (mkExn (Some "Target closed")))) (Returns [])
            false 1700000005000.

Definition request : LaunchRequest :=
  mkLaunchRequest "acct-1" (Some "netease") None None.

Definition missingChrome : LaunchEnv :=
  mkLaunchEnv 1700000000000 1700000000100 9222
    (Throws (mkExn (Some "browserType.launchPersistentContext: Executable doesn't exist at /opt/google/chrome/chrome")))
    (Returns 1%nat) (Returns tt).

Definition challengePage : PageView :=
  mkPageView "Just a moment..." "https://example.com/" "".

Definition clearPage : PageView :=
  mkPageView "Home" "https://example.com/" "<html></html>".

(** A challenge that is gone at probe [k]. *)
Definition clearsAt (k : nat) : ChallengeEnv :=
  mkChallengeEnv (fun j => Returns (if (j <? k)%nat then challengePage else clearPage))
                 (fun _ => Returns tt).

End Examples.

(** [always m P]: whatever the tape, [m] returns a value satisfying [P]. *)
Definition always {A} (m : Rand A) (P : A -> Prop) : Prop :=
  forall g, P (m g).1.

(** An option that [generateFingerprint] takes for absent: missing, or the
    empty string. *)
Definition unset (o : option string) : Prop :=
  o = None \/ o = Some "".

(** The bounds of the drawn fields of a fingerprint. *)
Definition fingerprintInRange (options : Options) (now : Z) (fp : Fingerprint) : Prop :=
  let s := fp_screen fp in
  let n := fp_navigator fp in
  (opt_screen options = None ->
     In (mkRes (scr_width s) (scr_height s)) SCREEN_RESOLUTIONS) /\
  scr_availWidth s = scr_width s /\
  scr_height s - 50 <= scr_availHeight s <= scr_height s - 30 /\
  scr_colorDepth s = 24 /\ scr_pixelDepth s = 24 /\
  In (scr_devicePixelRatio s) [1%Q; (125 # 100)%Q; (15 # 10)%Q; 2%Q] /\
  (unset (opt_userAgent options) -> In (nav_userAgent n) USER_AGENTS) /\
  (unset (opt_timezone options) -> In (tz_id (fp_timezone fp)) TIMEZONES) /\
  (unset (opt_locale options) -> In (nav_language n) LOCALES) /\
  nav_languages n = [nav_language n; beforeDash (nav_language n)] /\
  In (nav_deviceMemory n) [4; 8; 16; 32] /\
  (exists k, (10 <= k <= 15)%nat /\ fp_fonts fp = take k FONTS
             /\ length (fp_fonts fp) = k) /\
  ((1 # 100) <= cv_noise (fp_canvas fp))%Q /\
  (cv_noise (fp_canvas fp) <= (10 # 100))%Q /\
  (0 <= cv_seed (fp_canvas fp))%Q /\ (cv_seed (fp_canvas fp) < 1)%Q /\
  ((1 # 1000) <= fp_audio_noise fp)%Q /\ (fp_audio_noise fp <= (5 # 1000))%Q /\
  tz_offset (fp_timezone fp) = getTimezoneOffset (tz_id (fp_timezone fp)) /\
  fp_generatedAt fp = now.

(** The options a caller supplied are the ones the fingerprint carries. *)
Definition optionsKept (options : Options) (fp : Fingerprint) : Prop :=
  (forall r, opt_screen options = Some r ->
     scr_width (fp_screen fp) = res_width r /\
     scr_height (fp_screen fp) = res_height r) /\
  (forall ua, opt_userAgent options = Some ua -> truthy ua = true ->
     nav_userAgent (fp_navigator fp) = ua) /\
  (forall tz, opt_timezone options = Some tz -> truthy tz = true ->
     tz_id (fp_timezone fp) = tz /\
     tz_offset (fp_timezone fp) = getTimezoneOffset tz) /\
  (forall l, opt_locale options = Some l -> truthy l = true ->
     nav_language (fp_navigator fp) = l) /\
  (forall gl, opt_webgl options = Some gl -> fp_webgl fp = gl).

(** ** Observing launches, closings and ticks *)

(** How the [try] block of [launchBrowser] ends: with the context and the
    page of the new session, or with the first error thrown by
    [launchPersistentContext], [newPage] or [addInitScript]. *)
Definition launchOutcome (env : LaunchEnv) : Outcome (nat * nat) :=
  match le_launch env with
  | Throws e => Throws e
  | Returns (ctx, firstPage) =>
      match (match firstPage with
             | Some pg => Returns pg
             | None => le_newPage env
             end) with
      | Throws e => Throws e
      | Returns pg =>
          match le_initScript env with
          | Throws e => Throws e
          | Returns _ => Returns (ctx, pg)
          end
      end
  end.

(** The path of the fingerprint file of an account. *)
Definition fingerprintPath (w : World) (a : string) : string :=
  pathJoin (getProfilePath w a) "fingerprint.json".

(** The path of the cookie file of an account. *)
Definition cookiesPath (w : World) (a : string) : string :=
  pathJoin (getProfilePath w a) "cookies.json".

(** Two worlds with the same working directory and the same files. *)
Definition sameDisk (w w' : World) : Prop :=
  cwd w' = cwd w /\
  fingerprintFiles w' = fingerprintFiles w /\
  cookieFiles w' = cookieFiles w.

(** Two sessions that differ at most in the fields the watcher writes. *)
Definition sameButLogin (s s' : Session) : Prop :=
  browserContext s' = browserContext s /\
  page s' = page s /\
  fingerprint s' = fingerprint s /\
  proxy s' = proxy s /\
  platformId s' = platformId s /\
  userDataDir s' = userDataDir s /\
  launchedAt s' = launchedAt s.

Definition isClose (e : Event) : bool :=
  match e with ContextClose _ => true | _ => false end.

(** Every session presents the fingerprint stored for its account and
    lives in the profile directory of its account. *)
Definition sessions_ok (w : World) : Prop :=
  forall a s, activeBrowsers w !! a = Some s ->
    fingerprintFiles w !! fingerprintPath w a = Some (fingerprint s) /\
    userDataDir s = getProfilePath w a.

(** The account has a session. *)
Definition present (w : World) (a : string) : bool :=
  bool_decide (is_Some (activeBrowsers w !! a)).

(** ** More sample inputs *)

Module Samples.

(** A launch that succeeds; the context comes with its first page. *)
Definition launchOk : LaunchEnv :=
  mkLaunchEnv 1700000000000 1700000000100 9222
    (Returns (1%nat, Some 1%nat)) (Returns 2%nat) (Returns tt).

(** A launch whose stealth script cannot be added. *)
Definition scriptFails : LaunchEnv :=
  mkLaunchEnv 1700000000000 1700000000100 9222
    (Returns (1%nat, Some 1%nat)) (Returns 2%nat)
    (Throws (mkExn (Some "Target page, context or browser has been closed"))).

(** The world after the sample account was launched from scratch. *)
Definition afterLaunch : World :=
  (launchBrowser Examples.request launchOk Examples.rng (initial "/srv")).2.

Definition cookies : list Cookie :=
  [mkCookie "NTES_SESS" "abc"; mkCookie "P_INFO" "user@example.com"].

(** A navigation without incident. *)
Definition navOk : NavEnv :=
  mkNavEnv (Returns tt) (Returns Examples.clearPage) (Examples.clearsAt 0)
           (Returns tt).

(** A navigation that times out. *)
Definition navFails : NavEnv :=
  mkNavEnv (Throws (mkExn (Some "Timeout 60000ms exceeded")))
           (Returns Examples.clearPage) (Examples.clearsAt 0) (Returns tt).

Definition closeOk (accountId : string) : CloseEnv :=
  mkCloseEnv (Returns cookies) (Returns tt).

Definition xiaohongshu : Adapters.Adapter :=
  Adapters.mkAdapter "xiaohongshu" "Xiaohongshu" Adapters.SOCIAL
    "https://creator.xiaohongshu.com/" "https://creator.xiaohongshu.com/creator/home"
    (Some "https://creator.xiaohongshu.com/publish/publish") "bg-red-500"
    [Adapters.IMAGE; Adapters.VIDEO].

Definition netease : Adapters.Adapter :=
  Adapters.mkAdapter "netease" "Netease" Adapters.CONTENT
    "https://mp.163.com/" "https://mp.163.com/dashboard"
    (Some "https://mp.163.com/editor/article") "bg-red-600" [Adapters.ARTICLE].

(** A session on a social platform. *)
Definition socialSession : Session :=
  mkSession 1 1 Examples.fp None (Some "xiaohongshu") "/srv/profiles/acct-2"
            1700000000000 None None.

Definition socialWorld : World :=
  setActiveBrowsers {[ "acct-2" := socialSession ]} (initial "/srv").

End Samples.

(** * Properties *)

(** ** Missing sessions *)

(** C4. For an account with no entry in [activeBrowsers], [closeBrowser],
    [navigateTo], [saveSession], [takeScreenshot] and [executeScript] each
    return the reply [{ success: false, error: 'No active browser for this
    account' }] instead of throwing, and leave the whole world, the session
    map included, as it was. *)
Theorem missing_session_not_found (w : World) (a : string) :
  activeBrowsers w !! a = None ->
  success notFound = false /\
  r_error notFound = Some "No active browser for this account" /\
  (forall save cookies closing, closeBrowser a save cookies closing w = (notFound, w)) /\
  (forall url watch env, navigateTo a url watch env w = (notFound, w)) /\
  (forall cookies, saveSession a cookies w = (notFound, w)) /\
  (forall now shot, takeScreenshot a now shot w = (notFound, w)) /\
  (forall script v, executeScript a script v w = (notFound, w)).
Proof.
  intros Hnone.
  unfold closeBrowser, navigateTo, saveSession, takeScreenshot, executeScript.
  rewrite Hnone. repeat split.
Qed.

Lemma missing_session_not_found_witness :
  activeBrowsers (initial "/srv") !! "acct-1" = None /\
  closeBrowser "acct-1" None (Returns []) (Returns tt) (initial "/srv")
    = (notFound, initial "/srv").
Proof.
  split; [reflexivity |].
  apply (missing_session_not_found (initial "/srv") "acct-1"). reflexivity.
Defined.

(** ** Launching *)

Lemma ensureProfilesDir_sessions (w : World) :
  activeBrowsers (ensureProfilesDir w) = activeBrowsers w.
Proof. reflexivity. Qed.

(** C2. When [activeBrowsers] already holds the account, [launchBrowser]
    answers [{ success: true, accountId, message: 'Browser already active' }]
    and creates nothing: the session map, the watcher registry, the timers,
    the stored fingerprints and cookies and the random tape are untouched,
    and the only call made is the [ensureDir] of the profiles root (no
    fingerprint is loaded or generated, no browser context is opened). *)
Theorem launch_existing_is_idempotent
    (req : LaunchRequest) (env : LaunchEnv) (g : RNG) (w : World) :
  is_Some (activeBrowsers w !! lr_accountId req) ->
  let '(r, g', w') := launchBrowser req env g w in
  success r = true /\
  r_accountId r = Some (lr_accountId req) /\
  r_message r = Some "Browser already active" /\
  r_fingerprint r = None /\
  g' = g /\
  activeBrowsers w' = activeBrowsers w /\
  loginWatchers w' = loginWatchers w /\
  intervals w' = intervals w /\
  fingerprintFiles w' = fingerprintFiles w /\
  cookieFiles w' = cookieFiles w /\
  trace w' = (trace w ++ [EnsureDir (PROFILES_DIR w)])%list.
Proof.
  intros Hsome. unfold launchBrowser.
  rewrite ensureProfilesDir_sessions.
  destruct (decide (is_Some (activeBrowsers w !! lr_accountId req))) as [_ | Hno];
    [| contradiction].
  repeat split.
Qed.

(** Every path through the [catch] block leaves the session map alone and
    reports failure. *)
Lemma launchFailed_spec (a : string) (e : Exn) (w : World) :
  success (launchFailed a e w).1 = false /\
  r_accountId (launchFailed a e w).1 = Some a /\
  activeBrowsers (launchFailed a e w).2 = activeBrowsers w /\
  r_error (launchFailed a e w).1 =
    match message e with
    | Some m => if includes m "Executable doesn't exist"
                then Some "Chrome not installed. Please install Google Chrome."
                else Some m
    | None => None
    end.
Proof.
  unfold launchFailed. destruct (message e) as [m |]; [| done].
  destruct (includes m "Executable doesn't exist"); done.
Qed.

Lemma loadOrCreateFingerprint_sessions a now g w :
  activeBrowsers (loadOrCreateFingerprint a now g w).2 = activeBrowsers w.
Proof.
  unfold loadOrCreateFingerprint.
  destruct (fingerprintFiles w !! _); [done |].
  destruct (generateFingerprint noOptions now g). done.
Qed.

(** C8. When the account has no session and [launchPersistentContext]
    throws, [launchBrowser] returns a failure reply and adds nothing to the
    session map.  If the message of the error contains "Executable doesn't
    exist", the reply carries the fixed text 'Chrome not installed. Please
    install Google Chrome.'; for any other error it carries that error's own
    message. *)
Theorem launch_failure_reported
    (req : LaunchRequest) (env : LaunchEnv) (g : RNG) (w : World) (e : Exn) :
  activeBrowsers w !! lr_accountId req = None ->
  le_launch env = Throws e ->
  let '(r, _, w') := launchBrowser req env g w in
  success r = false /\
  activeBrowsers w' = activeBrowsers w /\
  (forall m, message e = Some m -> includes m "Executable doesn't exist" = true ->
     r_error r = Some "Chrome not installed. Please install Google Chrome.") /\
  ((forall m, message e = Some m -> includes m "Executable doesn't exist" = false) ->
     r_error r = message e).
Proof.
  intros Hnone Hthrow. unfold launchBrowser.
  rewrite ensureProfilesDir_sessions.
  destruct (decide (is_Some (activeBrowsers w !! lr_accountId req))) as [Hsome | _].
  { rewrite Hnone in Hsome. by destruct Hsome. }
  pose proof (loadOrCreateFingerprint_sessions
                (lr_accountId req) (le_now env) g (ensureProfilesDir w)) as Hfp.
  destruct (loadOrCreateFingerprint _ _ _ _) as [[fp g'] w2]. simpl in Hfp.
  rewrite Hthrow.
  match goal with |- context [launchFailed ?a ?e ?w0] =>
    pose proof (launchFailed_spec a e w0) as (Hs & _ & Hm & He);
    destruct (launchFailed a e w0) as [r w'] end.
  simpl in *. repeat split.
  - done.
  - by rewrite Hm.
  - intros m Hmsg Hinc. by rewrite He, Hmsg, Hinc.
  - intros Hother. rewrite He. destruct (message e) as [m |]; [| done].
    by rewrite (Hother m eq_refl).
Qed.

(** ** Stored fingerprints *)

(** C3. [loadOrCreateFingerprint] returns the stored fingerprint of the
    account unchanged, drawing nothing and writing nothing, when the file
    exists; otherwise it returns a freshly generated fingerprint and stores
    it under the account's path.  In both cases any later call for the same
    account, whatever the clock and the random tape, returns that very
    fingerprint and changes nothing. *)
Theorem loadOrCreateFingerprint_idempotent
    (a : string) (now : Z) (g : RNG) (w : World) :
  let path := pathJoin (getProfilePath w a) "fingerprint.json" in
  let '(fp, g1, w1) := loadOrCreateFingerprint a now g w in
  match fingerprintFiles w !! path with
  | Some stored => fp = stored /\ g1 = g /\ w1 = w
  | None => (fp, g1) = generateFingerprint noOptions now g /\
            fingerprintFiles w1 !! path = Some fp
  end /\
  forall now2 g2, loadOrCreateFingerprint a now2 g2 w1 = (fp, g2, w1).
Proof.
  unfold loadOrCreateFingerprint. cbv zeta.
  destruct (fingerprintFiles w !! pathJoin (getProfilePath w a) "fingerprint.json")
    as [stored |] eqn:Hfile.
  - split; [done |]. intros now2 g2. by rewrite Hfile.
  - destruct (generateFingerprint noOptions now g) as [fp g1].
    split.
    + split; [done |]. simpl. apply lookup_insert_eq.
    + intros now2 g2.
      change (getProfilePath (setFingerprintFiles _ _) a) with (getProfilePath w a).
      simpl. by rewrite lookup_insert_eq.
Qed.

(** ** Generated fingerprints *)

Section Draws.

Lemma yields_ret {A} (a : A) (P : A -> Prop) : P a -> yields (ret a) P.
Proof. intros Ha g Hg. by split. Qed.

Lemma yields_bind {A B} (m : Rand A) (k : A -> Rand B) (P : A -> Prop) (Q : B -> Prop) :
  yields m P -> (forall a, P a -> yields (k a) Q) -> yields (bind m k) Q.
Proof.
  intros Hm Hk g Hg. unfold bind.
  destruct (Hm g Hg) as [Ha Hg']. destruct (m g) as [a g']. simpl in *.
  by apply Hk.
Qed.

Lemma yields_random : yields random (fun r => (0 <= r)%Q /\ (r < 1)%Q).
Proof. intros g Hg. split; [apply Hg |]. intros n. apply Hg. Qed.

Lemma floorTimes_range (r : Q) (n : Z) :
  (0 <= r)%Q -> (r < 1)%Q -> 0 < n -> 0 <= floorTimes r n < n.
Proof.
  intros H0 H1 Hn. unfold floorTimes.
  assert (Hpos : (0 < inject_Z n)%Q) by (rewrite (Zlt_Qlt 0 n) in Hn; exact Hn).
  split.
  - change 0 with (Qfloor 0). apply Qfloor_resp_le.
    apply Qmult_le_0_compat; [exact H0 | by apply Qlt_le_weak].
  - rewrite Zlt_Qlt.
    apply Qle_lt_trans with (y := (r * inject_Z n)%Q); [apply Qfloor_le |].
    apply Qlt_le_trans with (y := (1 * inject_Z n)%Q).
    + by apply Qmult_lt_compat_r.
    + rewrite Qmult_1_l. apply Qle_refl.
Qed.

Lemma yields_randomChoice {A} (undef : A) (arr : list A) :
  arr <> [] -> yields (randomChoice undef arr) (fun x => In x arr).
Proof.
  intros Hne. unfold randomChoice.
  eapply yields_bind; [apply yields_random |].
  intros r [H0 H1]. apply yields_ret.
  assert (Hlen : 0 < Z.of_nat (length arr)) by (destruct arr; [done | simpl; lia]).
  pose proof (floorTimes_range r _ H0 H1 Hlen) as Hidx.
  apply nth_In. lia.
Qed.

Lemma yields_randomInt (min max : Z) :
  min <= max -> yields (randomInt min max) (fun x => min <= x <= max).
Proof.
  intros Hle. unfold randomInt.
  eapply yields_bind; [apply yields_random |].
  intros r [H0 H1]. apply yields_ret.
  pose proof (floorTimes_range r (max - min + 1) H0 H1 ltac:(lia)). lia.
Qed.

Lemma yields_weaken {A} (m : Rand A) (P Q : A -> Prop) :
  yields m P -> (forall a, P a -> Q a) -> yields m Q.
Proof. intros Hm HPQ g Hg. destruct (Hm g Hg). split; auto. Qed.

Lemma yields_orChoice {A} (o : option A) (undef : A) (arr : list A) :
  arr <> [] -> yields (orChoice o undef arr) (fun x => o = None -> In x arr).
Proof.
  intros Hne. destruct o as [v |]; simpl.
  - by apply yields_ret.
  - eapply yields_weaken; [by apply yields_randomChoice | auto].
Qed.

Lemma yields_orChoiceStr (o : option string) (arr : list string) :
  arr <> [] -> yields (orChoiceStr o arr) (fun x => o = None -> In x arr).
Proof.
  intros Hne. destruct o as [s |]; simpl.
  - destruct (truthy s).
    + by apply yields_ret.
    + eapply yields_weaken; [by apply yields_randomChoice | done].
  - eapply yields_weaken; [by apply yields_randomChoice | auto].
Qed.

Lemma yields_generateCanvasNoise : yields generateCanvasNoise (fun _ => True).
Proof.
  unfold generateCanvasNoise.
  eapply yields_bind; [apply (yields_randomInt 1 10); lia |]. intros n _.
  eapply yields_bind; [apply yields_random |]. intros s _.
  by apply yields_ret.
Qed.

End Draws.

Lemma table_user_agents_name_one_system (ua : string) :
  In ua USER_AGENTS -> namesOneSystem ua = true.
Proof.
  unfold USER_AGENTS. simpl.
  intros [<- | [<- | [<- | [<- | [<- | []]]]]]; vm_compute; reflexivity.
Qed.

Lemma table_timezones_located (tz : string) :
  In tz TIMEZONES -> locations tz = Some (getGeolocationFromTimezone tz).
Proof.
  unfold TIMEZONES. simpl.
  intros [<- | [<- | [<- | [<- | [<- | [<- | [<- | []]]]]]]]; reflexivity.
Qed.

Lemma generateFingerprint_yields (options : Options) (now : Z) :
  yields (generateFingerprint options now) (fingerprintConsistent options).
Proof.
  unfold generateFingerprint.
  eapply yields_bind; [apply (yields_orChoice _ _ SCREEN_RESOLUTIONS); done |].
  intros screen _.
  eapply yields_bind; [apply (yields_orChoiceStr _ USER_AGENTS); done |].
  intros userAgent Hua.
  eapply yields_bind; [apply (yields_orChoiceStr _ TIMEZONES); done |].
  intros timezone Htz.
  eapply yields_bind; [apply (yields_orChoiceStr _ LOCALES); done |].
  intros locale _.
  eapply yields_bind; [apply (yields_orChoice _ _ WEBGL_CONFIGS); done |].
  intros webgl _. cbv zeta.
  eapply yields_bind with
    (P := fun hc => if includes userAgent "Macintosh"
                    then In hc [8; 10; 12] else In hc [4; 8; 12; 16]).
  { destruct (includes userAgent "Macintosh"); by apply yields_randomChoice. }
  intros hc Hhc.
  eapply yields_bind; [apply (yields_randomChoice 0 [4; 8; 16; 32]); done |].
  intros deviceMemory _.
  eapply yields_bind; [apply (yields_randomInt 10); simpl; lia |].
  intros nfonts _.
  eapply yields_bind; [apply (yields_randomInt 30 50); lia |].
  intros taskbar _.
  eapply yields_bind; [apply (yields_randomChoice 0%Q); done |].
  intros dpr _.
  eapply yields_bind with
    (P := fun mtp => if includes userAgent "Macintosh"
                     then mtp = 0 else In mtp [0; 5; 10]).
  { destruct (includes userAgent "Macintosh");
      [by apply yields_ret | by apply yields_randomChoice]. }
  intros mtp Hmtp.
  eapply yields_bind; [apply yields_generateCanvasNoise |].
  intros canvas _.
  eapply yields_bind; [apply (yields_randomInt 1 5); lia |].
  intros audio _.
  apply yields_ret.
  unfold fingerprintConsistent, osConsistent. simpl.
  split; [split |]; [| | split].
  - intros Hmac. by rewrite Hmac in *.
  - intros Hwin. by rewrite Hwin in *.
  - intros Hnone. split; [exact (Hua Hnone) |].
    exact (table_user_agents_name_one_system _ (Hua Hnone)).
  - intros Hnone. split; [exact (Htz Hnone) |].
    exact (table_timezones_located _ (Htz Hnone)).
Qed.

Lemma launchFailed_trace a e w : trace (launchFailed a e w).2 = trace w.
Proof.
  unfold launchFailed. destruct (message e) as [m |]; [| done].
  by destruct (includes m "Executable doesn't exist").
Qed.

(** The options handed to [launchPersistentContext] are those derived from
    the account's fingerprint. *)
Lemma launch_passes_fingerprint_options
    (req : LaunchRequest) (env : LaunchEnv) (g : RNG) (w : World) :
  activeBrowsers w !! lr_accountId req = None ->
  let fp := (loadOrCreateFingerprint (lr_accountId req) (le_now env) g
               (ensureProfilesDir w)).1.1 in
  exists dir,
    In (LaunchPersistentContext dir (finalOptions req fp (le_port env)))
       (trace (launchBrowser req env g w).2).
Proof.
  intros Hnone. unfold launchBrowser.
  rewrite ensureProfilesDir_sessions.
  destruct (decide (is_Some (activeBrowsers w !! lr_accountId req))) as [Hsome | _].
  { rewrite Hnone in Hsome. by destruct Hsome. }
  destruct (loadOrCreateFingerprint _ _ _ _) as [[fp g'] w2]. simpl.
  exists (getProfilePath w2 (lr_accountId req)).
  destruct (le_launch env) as [[ctx firstPage] | e].
  - destruct firstPage as [pg |].
    + destruct (le_initScript env) as [[] | e]; simpl.
      * rewrite !in_app_iff. simpl. auto.
      * match goal with |- context [launchFailed ?a ?e ?w0] =>
          pose proof (launchFailed_trace a e w0) as Ht;
          destruct (launchFailed a e w0) as [r w'] end.
        simpl in *. rewrite Ht. simpl. rewrite !in_app_iff. simpl. auto.
    + destruct (le_newPage env) as [pg | e].
      * destruct (le_initScript env) as [[] | e]; simpl.
        -- rewrite !in_app_iff. simpl. auto.
        -- match goal with |- context [launchFailed ?a ?e ?w0] =>
             pose proof (launchFailed_trace a e w0) as Ht;
             destruct (launchFailed a e w0) as [r w'] end.
           simpl in *. rewrite Ht. simpl. rewrite !in_app_iff. simpl. auto.
      * match goal with |- context [launchFailed ?a ?e ?w0] =>
          pose proof (launchFailed_trace a e w0) as Ht;
          destruct (launchFailed a e w0) as [r w'] end.
        simpl in *. rewrite Ht. simpl. rewrite !in_app_iff. simpl. auto.
  - match goal with |- context [launchFailed ?a ?e ?w0] =>
      pose proof (launchFailed_trace a e w0) as Ht;
      destruct (launchFailed a e w0) as [r w'] end.
    simpl in *. rewrite Ht. simpl. rewrite !in_app_iff. simpl. auto.
Qed.


(** ** Traces *)

Lemma trace_log (line : string) (w : World) : trace (log line w) = trace w.
Proof. reflexivity. Qed.

Lemma countEvents_log (p : Event -> bool) (line : string) (w : World) :
  countEvents p (log line w) = countEvents p w.
Proof. reflexivity. Qed.

Lemma countEvents_emit (p : Event -> bool) (evs : list Event) (w : World) :
  countEvents p (emit evs w)
    = (countEvents p w + length (List.filter p evs))%nat.
Proof. unfold countEvents. simpl. by rewrite List.filter_app, length_app. Qed.

(** ** The challenge wait *)

Section Challenge.

Variables (pg : nat) (env : ChallengeEnv).


Lemma isCloudflareChallenge_eq (k : nat) (w : World) :
  isCloudflareChallenge pg (probes env k) w
    = (stillChallenge env k, emit [PageProbe pg] w).
Proof.
  unfold isCloudflareChallenge, stillChallenge. by destruct (probes env k).
Qed.

Lemma simulateHumanBehavior_paced (m : Outcome unit) (w : World) :
  List.filter paced (trace (simulateHumanBehavior pg m w))
    = (List.filter paced (trace w) ++ [MouseMove pg])%list.
Proof. destruct m; simpl; by rewrite List.filter_app. Qed.

Lemma simulateHumanBehavior_probes (m : Outcome unit) (w : World) :
  countEvents isProbe (simulateHumanBehavior pg m w) = countEvents isProbe w.
Proof. destruct m; simpl; rewrite countEvents_emit; simpl; lia. Qed.

(** The trace after one unsuccessful attempt. *)
Lemma waitRound_paced (attempts nmoves : nat) (w : World) :
  List.filter paced
    (trace (emit [Sleep 5000]
       (if (attempts mod 3 =? 0)%nat
        then (S nmoves, simulateHumanBehavior pg (moves env nmoves)
                          (emit [PageProbe pg] w))
        else (nmoves, emit [PageProbe pg] w)).2))
  = (List.filter paced (trace w) ++ waitRound pg attempts)%list.
Proof.
  unfold waitRound. destruct (attempts mod 3 =? 0)%nat; simpl.
  - rewrite List.filter_app, simulateHumanBehavior_paced. simpl.
    rewrite List.filter_app. simpl. by rewrite <- !app_assoc.
  - rewrite !List.filter_app. simpl. by rewrite <- !app_assoc.
Qed.

Lemma challengeLoop_step (remaining attempts nmoves : nat) (w : World) :
  challengeLoop (S remaining) attempts nmoves pg env w =
    if negb (stillChallenge env attempts)
    then (true, emit [HumanDelay 1000 2000]
                  (log "Cloudflare challenge passed" (emit [PageProbe pg] w)))
    else
      let next :=
        if (attempts mod 3 =? 0)%nat
        then (S nmoves, simulateHumanBehavior pg (moves env nmoves)
                          (emit [PageProbe pg] w))
        else (nmoves, emit [PageProbe pg] w) in
      challengeLoop remaining (S attempts) next.1 pg env
        (log ("Waiting for Cloudflare... (" ++ pretty (S attempts) ++ "/"
              ++ pretty maxAttempts ++ ")")
           (emit [Sleep 5000] next.2)).
Proof.
  simpl. rewrite isCloudflareChallenge_eq.
  destruct (stillChallenge env attempts); [| done]. simpl.
  by destruct (Nat.eqb _ _).
Qed.

Lemma challengeLoop_passes (k : nat) :
  forall remaining attempts nmoves w,
    (k < remaining)%nat ->
    (forall j, (j < k)%nat -> stillChallenge env (attempts + j) = true) ->
    stillChallenge env (attempts + k) = false ->
    (challengeLoop remaining attempts nmoves pg env w).1 = true /\
    List.filter paced (trace (challengeLoop remaining attempts nmoves pg env w).2)
      = (List.filter paced (trace w)
         ++ concat (map (waitRound pg) (seq attempts k)) ++ [PageProbe pg])%list.
Proof.
  induction k as [| k IH]; intros remaining attempts nmoves w Hlt Hbefore Hclear.
  - destruct remaining as [| remaining]; [lia |].
    rewrite challengeLoop_step. rewrite Nat.add_0_r in Hclear. rewrite Hclear.
    simpl. split; [done |]. rewrite !List.filter_app. simpl. by rewrite app_nil_r.
  - destruct remaining as [| remaining]; [lia |].
    rewrite challengeLoop_step.
    pose proof (Hbefore 0%nat ltac:(lia)) as Hfirst.
    rewrite Nat.add_0_r in Hfirst. rewrite Hfirst. cbv zeta. simpl negb. cbv iota.
    edestruct (IH remaining (S attempts)) as [Hres Htrace]; [lia | | |].
    + intros j Hj. replace (S attempts + j)%nat with (attempts + S j)%nat by lia.
      apply Hbefore. lia.
    + replace (S attempts + k)%nat with (attempts + S k)%nat by lia. exact Hclear.
    + split; [exact Hres |]. rewrite Htrace, trace_log, waitRound_paced.
      change (seq attempts (S k)) with (attempts :: seq (S attempts) k).
      rewrite map_cons, concat_cons. by rewrite <- !app_assoc.
Qed.

Lemma challengeLoop_gives_up :
  forall remaining attempts nmoves w,
    (forall j, (j < remaining)%nat -> stillChallenge env (attempts + j) = true) ->
    (challengeLoop remaining attempts nmoves pg env w).1 = false /\
    List.filter paced (trace (challengeLoop remaining attempts nmoves pg env w).2)
      = (List.filter paced (trace w)
         ++ concat (map (waitRound pg) (seq attempts remaining)))%list.
Proof.
  induction remaining as [| remaining IH]; intros attempts nmoves w Hall.
  - simpl. by rewrite app_nil_r.
  - rewrite challengeLoop_step.
    pose proof (Hall 0%nat ltac:(lia)) as Hfirst.
    rewrite Nat.add_0_r in Hfirst. rewrite Hfirst. cbv zeta. simpl negb. cbv iota.
    edestruct (IH (S attempts)) as [Hres Htrace].
    + intros j Hj. replace (S attempts + j)%nat with (attempts + S j)%nat by lia.
      apply Hall. lia.
    + split; [exact Hres |]. rewrite Htrace, trace_log, waitRound_paced.
      change (seq attempts (S remaining)) with (attempts :: seq (S attempts) remaining).
      rewrite map_cons, concat_cons. by rewrite <- !app_assoc.
Qed.

Lemma challengeLoop_probes :
  forall remaining attempts nmoves w,
    (countEvents isProbe (challengeLoop remaining attempts nmoves pg env w).2
       <= countEvents isProbe w + remaining)%nat.
Proof.
  induction remaining as [| remaining IH]; intros attempts nmoves w.
  - simpl. lia.
  - rewrite challengeLoop_step.
    destruct (stillChallenge env attempts); simpl negb; cbv iota.
    + cbv zeta. etransitivity; [apply IH |].
      rewrite countEvents_log, countEvents_emit.
      destruct (Nat.eqb _ _); cbn [snd];
        rewrite ?simulateHumanBehavior_probes, countEvents_emit; simpl; lia.
    + cbn [snd]. rewrite countEvents_emit, countEvents_log, countEvents_emit.
      simpl. lia.
Qed.

End Challenge.

(** C6. The challenge wait is bounded.  [handleCloudflareChallenge] probes
    the page at most 12 times.  If the page is still a challenge at the
    probes 0..k-1 and no longer one at probe k < 12, it returns [true], and
    its probes, pointer movements and sleeps are: one opening movement, then
    for each of the k failed attempts a probe, a movement when the attempt
    number is a multiple of three, and a sleep of 5000 ms, then the final
    probe.  If all 12 probes still see a challenge it returns [false] after
    12 such rounds. *)
Theorem challenge_wait_bounded (pg : nat) (env : ChallengeEnv) (w : World) :
  let '(passed, w') := handleCloudflareChallenge pg env w in
  maxAttempts = 12%nat /\
  (countEvents isProbe w' <= countEvents isProbe w + 12)%nat /\
  (forall k, (k < 12)%nat ->
     (forall j, (j < k)%nat -> stillChallenge env j = true) ->
     stillChallenge env k = false ->
     passed = true /\
     List.filter paced (trace w')
       = (List.filter paced (trace w) ++ MouseMove pg
          :: concat (map (waitRound pg) (seq 0 k)) ++ [PageProbe pg])%list) /\
  ((forall j, (j < 12)%nat -> stillChallenge env j = true) ->
     passed = false /\
     List.filter paced (trace w')
       = (List.filter paced (trace w) ++ MouseMove pg
          :: concat (map (waitRound pg) (seq 0 12)))%list).
Proof.
  unfold handleCloudflareChallenge. cbv zeta.
  change (maxAttempts - 0)%nat with 12%nat.
  set (w2 := simulateHumanBehavior pg (moves env 0%nat)
               (log "Cloudflare challenge detected, waiting..." w)).
  assert (Hpaced : List.filter paced (trace w2)
                   = (List.filter paced (trace w) ++ [MouseMove pg])%list)
    by (unfold w2; rewrite simulateHumanBehavior_paced; reflexivity).
  assert (Hprobes : countEvents isProbe w2 = countEvents isProbe w)
    by (unfold w2; rewrite simulateHumanBehavior_probes; reflexivity).
  pose proof (challengeLoop_probes pg env 12 0 1 w2) as Hbound.
  pose proof (fun k => challengeLoop_passes pg env k 12 0 1 w2) as Hpass.
  pose proof (challengeLoop_gives_up pg env 12 0 1 w2) as Hfail.
  destruct (challengeLoop 12 0 1 pg env w2) as [passed w'].
  simpl fst in *. simpl snd in *.
  split; [done |]. split; [lia |]. split.
  - intros k Hk Hbefore Hclear.
    destruct (Hpass k Hk Hbefore Hclear) as [-> Htrace].
    split; [done |]. rewrite Htrace, Hpaced. by rewrite <- app_assoc.
  - intros Hall. destruct (Hfail Hall) as [-> Htrace].
    split; [done |]. rewrite Htrace, Hpaced. by rewrite <- app_assoc.
Qed.

(** ** The watcher registry *)

Section Registry.

Lemma sameTimers_refl (w : World) : sameTimers w w.
Proof. by repeat split. Qed.

Lemma sameTimers_trans (w1 w2 w3 : World) :
  sameTimers w1 w2 -> sameTimers w2 w3 -> sameTimers w1 w3.
Proof. intros (? & ? & ?) (? & ? & ?). repeat split; congruence. Qed.

Lemma sameTimers_ok (w w' : World) :
  sameTimers w w' -> watchers_ok w -> watchers_ok w'.
Proof.
  intros (Hl & Hi & Hn) [H1 H2 H3 H4].
  split; rewrite ?Hl, ?Hi, ?Hn; auto.
Qed.

Lemma saveSession_sameTimers a cookies w : sameTimers w (saveSession a cookies w).2.
Proof.
  unfold saveSession. destruct (activeBrowsers w !! a); [| apply sameTimers_refl].
  destruct cookies; by repeat split.
Qed.

Lemma checkLoginStatus_sameTimers a env w : sameTimers w (checkLoginStatus a env w).2.
Proof.
  unfold checkLoginStatus. destruct (activeBrowsers w !! a); [| apply sameTimers_refl].
  destruct env as [[cs | e] | [b | e]]; by repeat split.
Qed.

Lemma launchFailed_sameTimers a e w : sameTimers w (launchFailed a e w).2.
Proof.
  unfold launchFailed. destruct (message e) as [m |]; [| by repeat split].
  destruct (includes m "Executable doesn't exist"); by repeat split.
Qed.

Lemma loadOrCreateFingerprint_sameTimers a now g w :
  sameTimers w (loadOrCreateFingerprint a now g w).2.
Proof.
  unfold loadOrCreateFingerprint.
  destruct (fingerprintFiles w !! _); [apply sameTimers_refl |].
  destruct (generateFingerprint noOptions now g). by repeat split.
Qed.

Lemma launchBrowser_sameTimers req env g w :
  sameTimers w (launchBrowser req env g w).2.
Proof.
  unfold launchBrowser.
  destruct (decide _); [by repeat split |].
  pose proof (loadOrCreateFingerprint_sameTimers (lr_accountId req) (le_now env) g
                (ensureProfilesDir w)) as Hfp.
  destruct (loadOrCreateFingerprint _ _ _ _) as [[fp g'] w2]. simpl in Hfp.
  assert (Hw2 : sameTimers w w2) by exact Hfp.
  destruct (le_launch env) as [[ctx firstPage] | e].
  - destruct firstPage as [pg |]; [| destruct (le_newPage env) as [pg | e]];
      try (destruct (le_initScript env) as [[] | e]); simpl;
      try (eapply sameTimers_trans; [exact Hw2 |]; by repeat split);
      match goal with |- context [launchFailed ?a ?e ?w0] =>
        pose proof (launchFailed_sameTimers a e w0) as Hf;
        destruct (launchFailed a e w0) as [r w'] end;
      simpl in *; (eapply sameTimers_trans; [exact Hw2 |]);
      (eapply sameTimers_trans; [| exact Hf]); by repeat split.
  - match goal with |- context [launchFailed ?a ?e ?w0] =>
      pose proof (launchFailed_sameTimers a e w0) as Hf;
      destruct (launchFailed a e w0) as [r w'] end.
    simpl in *. eapply sameTimers_trans; [exact Hw2 |].
    eapply sameTimers_trans; [| exact Hf]. by repeat split.
Qed.

Lemma challengeLoop_sameTimers pg env :
  forall remaining attempts nmoves w,
    sameTimers w (challengeLoop remaining attempts nmoves pg env w).2.
Proof.
  induction remaining as [| remaining IH]; intros attempts nmoves w.
  - apply sameTimers_refl.
  - rewrite challengeLoop_step.
    destruct (stillChallenge env attempts); simpl negb; cbv iota; [| by repeat split].
    cbv zeta. eapply sameTimers_trans; [| apply IH].
    destruct (Nat.eqb _ _); [destruct (moves env nmoves) |]; by repeat split.
Qed.

Lemma handleCloudflareChallenge_sameTimers pg env w :
  sameTimers w (handleCloudflareChallenge pg env w).2.
Proof.
  unfold handleCloudflareChallenge. cbv zeta.
  eapply sameTimers_trans; [| apply challengeLoop_sameTimers].
  destruct (moves env 0%nat); by repeat split.
Qed.

(** Clearing the timer of an account keeps the registry consistent and
    leaves the account without registry entry and without live timer. *)
Lemma stopLoginWatcher_ok (a : string) (w : World) :
  watchers_ok w ->
  watchers_ok (stopLoginWatcher a w) /\
  loginWatchers (stopLoginWatcher a w) !! a = None /\
  (forall id wt, intervals (stopLoginWatcher a w) !! id = Some wt ->
     w_accountId wt <> a) /\
  nextInterval (stopLoginWatcher a w) = nextInterval w /\
  activeBrowsers (stopLoginWatcher a w) = activeBrowsers w.
Proof.
  intros Hok. pose proof Hok as [Hreg Hlive Hfresh Hcount].
  unfold stopLoginWatcher.
  destruct (loginWatchers w !! a) as [id |] eqn:Hid.
  - destruct (Hreg a id Hid) as (wt0 & Hwt0 & Hacc0).
    split; [constructor; simpl | simpl; split; [| split; [| done]]].
    + intros a' id' Hl. apply lookup_delete_Some in Hl as [Hne Hl].
      destruct (Hreg a' id' Hl) as (wt & Hwt & Hacc).
      exists wt. split; [| done]. rewrite lookup_delete_ne; [done |].
      intros ->. rewrite Hwt0 in Hwt. injection Hwt as <-. congruence.
    + intros id' wt Hi. apply lookup_delete_Some in Hi as [Hne Hi].
      pose proof (Hlive id' wt Hi) as Hl.
      rewrite lookup_delete_ne; [done |]. intros Heq. rewrite <- Heq in Hl. congruence.
    + intros id' [wt Hi]. apply lookup_delete_Some in Hi as [_ Hi]. apply Hfresh. eauto.
    + intros id' wt Hi. apply lookup_delete_Some in Hi as [_ Hi]. by apply (Hcount id' wt).
    + apply lookup_delete_eq.
    + intros id' wt Hi Hacc. apply lookup_delete_Some in Hi as [Hne Hi].
      pose proof (Hlive id' wt Hi) as Hl. rewrite Hacc in Hl. congruence.
  - split; [done |]. split; [done |]. split; [| done].
    intros id wt Hi Hacc. pose proof (Hlive id wt Hi) as Hl. congruence.
Qed.

(** Starting a watcher keeps the registry consistent; the account ends up
    with exactly the new timer, freshly initialised. *)
Lemma startLoginWatcher_ok (a : string) (cb : bool) (w : World) :
  watchers_ok w ->
  let w' := startLoginWatcher a cb w in
  let id := nextInterval w in
  watchers_ok w' /\
  loginWatchers w' !! a = Some id /\
  intervals w' !! id = Some (mkWatcher a false 0 cb watcherDelay) /\
  (forall id' wt, intervals w' !! id' = Some wt -> w_accountId wt = a -> id' = id) /\
  (forall id0, loginWatchers w !! a = Some id0 -> intervals w' !! id0 = None) /\
  activeBrowsers w' = activeBrowsers w.
Proof.
  intros Hok. cbv zeta.
  destruct (stopLoginWatcher_ok a w Hok) as (Hok1 & Hnone & Hother & Hnext & Hsess).
  pose proof Hok1 as [Hreg Hlive Hfresh Hcount].
  assert (Hold : forall id0, loginWatchers w !! a = Some id0 ->
                   intervals (stopLoginWatcher a w) !! id0 = None).
  { intros id0 Hid0. unfold stopLoginWatcher. rewrite Hid0. simpl.
    apply lookup_delete_eq. }
  unfold startLoginWatcher. cbv zeta.
  set (w1 := stopLoginWatcher a w) in *.
  assert (Hnew : intervals w1 !! nextInterval w = None).
  { destruct (intervals w1 !! nextInterval w) eqn:E; [| done].
    pose proof (Hfresh (nextInterval w) (mk_is_Some _ _ E)). lia. }
  split; [constructor; simpl | simpl]; rewrite ?Hnext.
  - intros a' id' Hl. destruct (decide (a = a')) as [<- | Hne].
    + rewrite lookup_insert_eq in Hl. injection Hl as <-.
      eexists. by rewrite lookup_insert_eq.
    + rewrite lookup_insert_ne in Hl by done.
      destruct (Hreg a' id' Hl) as (wt & Hwt & Hacc).
      exists wt. split; [| done]. rewrite lookup_insert_ne; [done |].
      intros <-. congruence.
  - intros id' wt Hi. destruct (decide (nextInterval w = id')) as [<- | Hne].
    + rewrite lookup_insert_eq in Hi. injection Hi as <-. simpl.
      by rewrite lookup_insert_eq.
    + rewrite lookup_insert_ne in Hi by done.
      rewrite lookup_insert_ne; [by apply Hlive |].
      intros Heq. by apply (Hother id' wt).
  - intros id' [wt Hi]. destruct (decide (nextInterval w = id')) as [<- | Hne]; [lia |].
    rewrite lookup_insert_ne in Hi by done.
    pose proof (Hfresh id' (mk_is_Some _ _ Hi)). lia.
  - intros id' wt Hi. destruct (decide (nextInterval w = id')) as [<- | Hne].
    + rewrite lookup_insert_eq in Hi. injection Hi as <-. simpl.
      split; [lia | done].
    + rewrite lookup_insert_ne in Hi by done. by apply (Hcount id' wt).
  - split; [apply lookup_insert_eq |]. split; [apply lookup_insert_eq |].
    split; [| split; [| exact Hsess]].
    + intros id' wt Hi Hacc.
      destruct (decide (nextInterval w = id')) as [<- | Hne]; [done |].
      rewrite lookup_insert_ne in Hi by done. by destruct (Hother id' wt Hi).
    + intros id0 Hid0.
      destruct (registered_live w Hok a id0 Hid0) as (wt & Hwt & _).
      assert (id0 <> nextInterval w).
      { pose proof (ids_fresh w Hok id0 (mk_is_Some _ _ Hwt)). lia. }
      rewrite lookup_insert_ne by done. by apply Hold.
Qed.

End Registry.

(** ** Ticks of a login watcher *)

Section Ticks.

Lemma tick_cleared (id : nat) (env : TickEnv) (w : World) :
  intervals w !! id = None -> tick id env w = w.
Proof. intros H. unfold tick. by rewrite H. Qed.

Lemma watchers_ok_update (w w' : World) (id : nat) (wt wt' : Watcher) :
  watchers_ok w ->
  intervals w !! id = Some wt ->
  w_accountId wt' = w_accountId wt ->
  (checkCount wt' <= maxChecks)%nat ->
  w_delay wt' = watcherDelay ->
  loginWatchers w' = loginWatchers w ->
  intervals w' = <[id := wt']> (intervals w) ->
  nextInterval w' = nextInterval w ->
  watchers_ok w'.
Proof.
  intros [Hreg Hlive Hfresh Hcount] Hwt Hacc Hc Hd Hl Hi Hn.
  constructor; rewrite ?Hl, ?Hi, ?Hn.
  - intros a id' Ha. destruct (Hreg a id' Ha) as (wt0 & Hwt0 & Hacc0).
    destruct (decide (id = id')) as [<- | Hne].
    + exists wt'. rewrite lookup_insert_eq. split; [done |]. congruence.
    + exists wt0. by rewrite lookup_insert_ne.
  - intros id' wt0 H0. apply lookup_insert_Some in H0 as [[<- <-] | [Hne H0]].
    + rewrite Hacc. by apply Hlive.
    + by apply Hlive.
  - intros id' H0. apply lookup_insert_is_Some in H0 as [<- | [_ H0]]; apply Hfresh; eauto.
  - intros id' wt0 H0. apply lookup_insert_Some in H0 as [[<- <-] | [Hne H0]].
    + done.
    + by apply (Hcount id' wt0).
Qed.

(** A tick that finds its budget spent or its session gone clears the
    timer and does nothing else. *)
Lemma tick_stops (id : nat) (env : TickEnv) (w : World) (wt : Watcher) :
  watchers_ok w ->
  intervals w !! id = Some wt ->
  (maxChecks <= checkCount wt)%nat \/ activeBrowsers w !! w_accountId wt = None ->
  watchers_ok (tick id env w) /\
  intervals (tick id env w) !! id = None /\
  loginWatchers (tick id env w) !! w_accountId wt = None /\
  activeBrowsers (tick id env w) = activeBrowsers w /\
  trace (tick id env w) = (trace w ++ [ClearInterval id])%list.
Proof.
  intros Hok Hwt Hwhy.
  pose proof (live_registered w Hok id wt Hwt) as Hreg.
  destruct (stopLoginWatcher_ok (w_accountId wt) w Hok) as (Hok' & _).
  assert (Hstop : forall line wt1,
    let w' := stopLoginWatcher (w_accountId wt) (log line (setWatcher id wt1 w)) in
    sameTimers (stopLoginWatcher (w_accountId wt) w) w' /\
    intervals w' !! id = None /\
    loginWatchers w' !! w_accountId wt = None /\
    activeBrowsers w' = activeBrowsers w /\
    trace w' = (trace w ++ [ClearInterval id])%list).
  { intros line wt1. unfold stopLoginWatcher. simpl. rewrite Hreg. simpl.
    rewrite delete_insert_eq. repeat split; apply lookup_delete_eq. }
  unfold tick. rewrite Hwt. cbv zeta.
  destruct (maxChecks <? S (checkCount wt))%nat eqn:Hguard.
  - destruct (Hstop ("[BrowserManager] Login watcher timeout for " ++ w_accountId wt)
                (mkWatcher (w_accountId wt) (wasLoggedIn wt) (S (checkCount wt))
                           (w_callback wt) (w_delay wt))) as (Hsame & Hrest).
    split; [by apply (sameTimers_ok _ _ Hsame) | exact Hrest].
  - apply Nat.ltb_ge in Hguard.
    destruct Hwhy as [Hspent | Hgone]; [lia |].
    change (activeBrowsers (setWatcher id ?x w)) with (activeBrowsers w).
    rewrite Hgone.
    destruct (Hstop ("[BrowserManager] Browser closed, stopping watcher for "
                     ++ w_accountId wt)
                (mkWatcher (w_accountId wt) (wasLoggedIn wt) (S (checkCount wt))
                           (w_callback wt) (w_delay wt))) as (Hsame & Hrest).
    split; [by apply (sameTimers_ok _ _ Hsame) | exact Hrest].
Qed.

(** A tick with budget left and its session present performs the check:
    it counts the firing, remembers the reported state, saves the session
    exactly when the state rises, and writes the login flag when the state
    rises or falls.  A failed check changes nothing else and logs
    nothing. *)
Lemma tick_checks (id : nat) (env : TickEnv) (w : World) (wt : Watcher) (s : Session) :
  intervals w !! id = Some wt ->
  (checkCount wt < maxChecks)%nat ->
  activeBrowsers w !! w_accountId wt = Some s ->
  let w' := tick id env w in
  intervals w' = <[id := ticked env wt]> (intervals w) /\
  loginWatchers w' = loginWatchers w /\
  nextInterval w' = nextInterval w /\
  checks (w_accountId wt) w' = S (checks (w_accountId wt) w) /\
  saves (w_accountId wt) w'
    = (saves (w_accountId wt) w + if rising env wt then 1 else 0)%nat /\
  activeBrowsers w' =
    (if rising env wt
     then <[w_accountId wt := setLogin s true (Some (te_now env))]> (activeBrowsers w)
     else if falling env wt
     then <[w_accountId wt := setLogin s false (loginDetectedAt s)]> (activeBrowsers w)
     else activeBrowsers w) /\
  (reported env = None -> console w' = console w).
Proof.
  intros Hwt Hbudget Hsess. cbv zeta.
  assert (Hguard : (maxChecks <? S (checkCount wt))%nat = false)
    by (apply Nat.ltb_ge; lia).
  unfold tick, rising, falling, ticked, remembered, reported, checks, saves.
  rewrite Hwt. cbv zeta. rewrite Hguard.
  change (activeBrowsers (setWatcher id ?x w)) with (activeBrowsers w).
  rewrite Hsess. unfold checkLoginStatus.
  change (activeBrowsers (setWatcher id ?x w)) with (activeBrowsers w).
  rewrite Hsess.
  destruct wt as [a was count cb delay]. simpl in Hsess |- *.
  destruct (te_adapter env) as [[cs | e] | [b | e]];
    try (generalize (5 <? length cs)%nat; intros b);
    try destruct b; destruct was; simpl;
    unfold saveSession; simpl; rewrite ?Hsess;
    destruct (te_cookies env) as [saved | e']; destruct cb;
    destruct (te_callbackThrows env); simpl;
    rewrite ?insert_insert_eq;
    repeat (split; [try done |]); try done;
    rewrite ?countEvents_log, ?countEvents_emit; simpl;
    rewrite ?String.eqb_refl; simpl.
  all: unfold countEvents; simpl; rewrite ?List.filter_app, ?length_app; simpl;
    rewrite ?String.eqb_refl; simpl; lia.
Qed.

Lemma tick_ok (id : nat) (env : TickEnv) (w : World) :
  watchers_ok w -> watchers_ok (tick id env w).
Proof.
  intros Hok.
  destruct (intervals w !! id) as [wt |] eqn:Hwt; [| by rewrite tick_cleared].
  destruct (decide (maxChecks <= checkCount wt)%nat) as [Hspent | Hbudget].
  { by apply (tick_stops id env w wt Hok Hwt); left. }
  destruct (activeBrowsers w !! w_accountId wt) as [s |] eqn:Hsess.
  - destruct (tick_checks id env w wt s Hwt ltac:(lia) Hsess)
      as (Hi & Hl & Hn & _).
    apply (watchers_ok_update w _ id wt (ticked env wt) Hok Hwt); try done.
    + simpl. lia.
    + simpl. by apply (counts_bounded w Hok id wt).
  - by apply (tick_stops id env w wt Hok Hwt); right.
Qed.

Lemma navigateTo_ok a url watch env w :
  watchers_ok w -> watchers_ok (navigateTo a url watch env w).2.
Proof.
  intros Hok. unfold navigateTo.
  destruct (activeBrowsers w !! a) as [s |]; [| done].
  destruct (ne_goto env) as [[] | e]; [| by apply (sameTimers_ok w)].
  cbv zeta.
  destruct (isCloudflareChallenge _ _ _) as [challenged w3] eqn:Hdetect.
  assert (Hw3 : sameTimers w w3).
  { unfold isCloudflareChallenge in Hdetect.
    destruct (ne_detect env); injection Hdetect as _ <-; by repeat split. }
  match goal with |- context [startLoginWatcher a false ?w5] =>
    assert (Hok5 : watchers_ok w5) end.
  { apply (sameTimers_ok w); [| done].
    eapply sameTimers_trans; [exact Hw3 |].
    apply sameTimers_trans with
      (w2 := if challenged
             then (handleCloudflareChallenge (page s) (ne_challenge env) w3).2
             else w3);
      [| destruct (ne_move env); by repeat split].
    destruct challenged; [apply handleCloudflareChallenge_sameTimers
                         | apply sameTimers_refl]. }
  destruct (default true watch); simpl; [| done].
  by apply startLoginWatcher_ok.
Qed.

Lemma closeBrowser_ok a save cookies closing w :
  watchers_ok w -> watchers_ok (closeBrowser a save cookies closing w).2.
Proof.
  intros Hok. unfold closeBrowser.
  destruct (activeBrowsers w !! a) as [s |]; [| done].
  destruct (stopLoginWatcher_ok a w Hok) as (Hok1 & _).
  cbv zeta.
  match goal with |- context [emit [ContextClose _] ?w2] =>
    assert (Hok2 : watchers_ok w2) end.
  { destruct (default true save); [| done].
    by apply (sameTimers_ok _ _ (saveSession_sameTimers a cookies _)). }
  destruct closing as [[] | e]; simpl;
    (eapply sameTimers_ok; [| exact Hok2]); by repeat split.
Qed.

Lemma step_ok (w w' : World) : Step w w' -> watchers_ok w -> watchers_ok w'.
Proof.
  intros Hstep Hok. destruct Hstep.
  - by apply (sameTimers_ok _ _ (launchBrowser_sameTimers req env g w)).
  - by apply navigateTo_ok.
  - by apply (sameTimers_ok _ _ (saveSession_sameTimers a cookies w)).
  - by apply closeBrowser_ok.
  - apply (sameTimers_ok w); [| done]. unfold takeScreenshot.
    destruct (activeBrowsers w !! a); [destruct shot |]; by repeat split.
  - apply (sameTimers_ok w); [| done]. unfold executeScript.
    destruct (activeBrowsers w !! a); [destruct v |]; by repeat split.
  - by apply (sameTimers_ok _ _ (checkLoginStatus_sameTimers a env w)).
  - by apply startLoginWatcher_ok.
  - by apply stopLoginWatcher_ok.
  - by apply tick_ok.
Qed.

Lemma initial_ok (dir : string) : watchers_ok (initial dir).
Proof.
  constructor; simpl.
  - intros a id H. by rewrite lookup_empty in H.
  - intros id wt H. by rewrite lookup_empty in H.
  - intros id [wt H]. by rewrite lookup_empty in H.
  - intros id wt H. by rewrite lookup_empty in H.
Qed.

Lemma reachable_ok (dir : string) (w : World) : Reachable dir w -> watchers_ok w.
Proof.
  unfold Reachable. revert w.
  apply (rtc_ind_r (fun w => watchers_ok w) (initial dir)).
  - apply initial_ok.
  - intros w1 w2 _ Hstep Hok1. by apply (step_ok w1 w2).
Qed.

End Ticks.

(** C10. In every world the manager can reach, an account has at most one
    live timer, and it is the one the registry holds for it.
    [startLoginWatcher] clears the timer registered before, and leaves the
    account with exactly one live timer, the new one, which it registers;
    [stopLoginWatcher] leaves the account with neither a registry entry nor
    a live timer. *)
Theorem one_watcher_per_account (dir : string) (w : World) :
  Reachable dir w ->
  (forall id1 id2 wt1 wt2,
     intervals w !! id1 = Some wt1 -> intervals w !! id2 = Some wt2 ->
     w_accountId wt1 = w_accountId wt2 -> id1 = id2) /\
  (forall id wt, intervals w !! id = Some wt ->
     loginWatchers w !! w_accountId wt = Some id) /\
  (forall a cb,
     let w' := startLoginWatcher a cb w in
     loginWatchers w' !! a = Some (nextInterval w) /\
     is_Some (intervals w' !! nextInterval w) /\
     (forall id wt, intervals w' !! id = Some wt -> w_accountId wt = a ->
        id = nextInterval w) /\
     (forall id0, loginWatchers w !! a = Some id0 -> intervals w' !! id0 = None)) /\
  (forall a,
     let w' := stopLoginWatcher a w in
     loginWatchers w' !! a = None /\
     (forall id wt, intervals w' !! id = Some wt -> w_accountId wt <> a) /\
     (forall id0, loginWatchers w !! a = Some id0 ->
        In (ClearInterval id0) (trace w'))).
Proof.
  intros Hreach. pose proof (reachable_ok dir w Hreach) as Hok.
  split; [| split; [| split]].
  - intros id1 id2 wt1 wt2 H1 H2 Hacc.
    pose proof (live_registered w Hok id1 wt1 H1) as L1.
    pose proof (live_registered w Hok id2 wt2 H2) as L2.
    rewrite Hacc in L1. congruence.
  - apply (live_registered w Hok).
  - intros a cb. cbv zeta.
    destruct (startLoginWatcher_ok a cb w Hok) as (_ & Hl & Hi & Huniq & Hold & _).
    repeat split; eauto.
  - intros a. cbv zeta.
    destruct (stopLoginWatcher_ok a w Hok) as (_ & Hl & Hnone & _).
    repeat split; [done | done |].
    intros id0 Hid0. unfold stopLoginWatcher. rewrite Hid0. simpl.
    apply in_or_app. right. by left.
Qed.

(** ** Runs of one watcher *)

Section Runs.

Variables (a : string) (id : nat).

Lemma maxChecks_eq : maxChecks = 120%nat.
Proof. reflexivity. Qed.

Lemma runTicks_cons (env : TickEnv) (envs : list TickEnv) (w : World) :
  runTicks id (env :: envs) w = runTicks id envs (tick id env w).
Proof. reflexivity. Qed.

Lemma runTicks_cleared (envs : list TickEnv) (w : World) :
  intervals w !! id = None -> runTicks id envs w = w.
Proof.
  induction envs as [| env envs IH]; intros Hdead; [done |].
  rewrite runTicks_cons, tick_cleared by done. by apply IH.
Qed.

Lemma checks_after_clear (w w' : World) (x : nat) :
  trace w' = (trace w ++ [ClearInterval x])%list -> checks a w' = checks a w.
Proof.
  intros Ht. unfold checks, countEvents. rewrite Ht, List.filter_app, length_app.
  simpl. lia.
Qed.

(** A live timer performs at most the checks its budget still allows, and
    is cleared once it has fired more often than that. *)
Lemma run_bounded :
  forall envs w wt,
    watchers_ok w ->
    intervals w !! id = Some wt ->
    w_accountId wt = a ->
    (checks a (runTicks id envs w) + checkCount wt <= checks a w + maxChecks)%nat /\
    ((maxChecks - checkCount wt < length envs)%nat ->
       intervals (runTicks id envs w) !! id = None /\
       loginWatchers (runTicks id envs w) !! a = None).
Proof.
  pose proof maxChecks_eq as Hmax.
  induction envs as [| env envs IH]; intros w wt Hok Hwt Hacc.
  - simpl. destruct (counts_bounded w Hok id wt Hwt) as [Hc _].
    split; [lia |]. intros Hlen. simpl in Hlen. lia.
  - rewrite runTicks_cons.
    destruct (decide (maxChecks <= checkCount wt)%nat) as [Hspent | Hbudget];
      [| destruct (activeBrowsers w !! w_accountId wt) as [s |] eqn:Hsess].
    + destruct (tick_stops id env w wt Hok Hwt (or_introl Hspent))
        as (_ & Hdead & Hunreg & _ & Htrace).
      rewrite runTicks_cleared by done.
      rewrite (checks_after_clear w _ id Htrace).
      destruct (counts_bounded w Hok id wt Hwt) as [Hc _].
      split; [lia |]. intros _. by rewrite <- Hacc.
    + destruct (tick_checks id env w wt s Hwt ltac:(lia) Hsess)
        as (Hi & Hl & Hn & Hchecks & _).
      assert (Hwt' : intervals (tick id env w) !! id = Some (ticked env wt))
        by (rewrite Hi; apply lookup_insert_eq).
      destruct (IH (tick id env w) (ticked env wt) (tick_ok id env w Hok) Hwt' Hacc)
        as [Hcount Hdead].
      rewrite Hacc in Hchecks. cbn [ticked checkCount] in Hcount, Hdead.
      split; [lia |]. intros Hlen. apply Hdead. simpl in Hlen. lia.
    + destruct (tick_stops id env w wt Hok Hwt (or_intror Hsess))
        as (_ & Hdead & Hunreg & _ & Htrace).
      rewrite runTicks_cleared by done.
      rewrite (checks_after_clear w _ id Htrace).
      destruct (counts_bounded w Hok id wt Hwt) as [Hc _].
      split; [lia |]. intros _. by rewrite <- Hacc.
Qed.

Lemma risingTicks_step (env : TickEnv) (wt : Watcher) (n : nat)
    (rest : list (option bool)) :
  risingTicks (wasLoggedIn wt) n (reported env :: rest)
    = ((if rising env wt then [n] else [])
       ++ risingTicks (remembered env wt) (S n) rest)%list.
Proof.
  unfold rising, remembered.
  destruct (reported env) as [[|] |]; simpl; [| done | done].
  by destruct (wasLoggedIn wt).
Qed.

(** While the session is there and the budget lasts, the session is saved
    on exactly the ticks on which the reported state rises, once each. *)
Lemma run_saves :
  forall envs n w wt,
    intervals w !! id = Some wt ->
    w_accountId wt = a ->
    (checkCount wt + length envs <= maxChecks)%nat ->
    is_Some (activeBrowsers w !! a) ->
    saveTicks a id n envs w
      = risingTicks (wasLoggedIn wt) n (map reported envs) /\
    saves a (runTicks id envs w)
      = (saves a w + length (risingTicks (wasLoggedIn wt) n (map reported envs)))%nat.
Proof.
  pose proof maxChecks_eq as Hmax.
  induction envs as [| env envs IH]; intros n w wt Hwt Hacc Hlen [s Hsess].
  - simpl. split; [done | lia].
  - simpl in Hlen. rewrite runTicks_cons. rewrite <- Hacc in Hsess.
    destruct (tick_checks id env w wt s Hwt ltac:(lia) Hsess)
      as (Hi & _ & _ & _ & Hsaves & Hsessions & _).
    rewrite Hacc in Hsaves, Hsess, Hsessions.
    assert (Hwt' : intervals (tick id env w) !! id = Some (ticked env wt))
      by (rewrite Hi; apply lookup_insert_eq).
    assert (Hsess' : is_Some (activeBrowsers (tick id env w) !! a)).
    { rewrite Hsessions.
      destruct (rising env wt); [by rewrite lookup_insert_eq |].
      destruct (falling env wt); [by rewrite lookup_insert_eq | by rewrite Hsess]. }
    destruct (IH (S n) (tick id env w) (ticked env wt) Hwt' Hacc
                 ltac:(cbn [ticked checkCount]; lia) Hsess') as [Hticks Htotal].
    cbn [ticked wasLoggedIn] in Hticks, Htotal.
    cbn [saveTicks map]. rewrite risingTicks_step, Hticks, Htotal, Hsaves.
    rewrite length_app.
    destruct (rising env wt); simpl.
    + replace (saves a w <? saves a w + 1)%nat with true
        by (symmetry; apply Nat.ltb_lt; lia).
      split; [done | lia].
    + replace (saves a w <? saves a w + 0)%nat with false
        by (symmetry; apply Nat.ltb_ge; lia).
      split; [done | lia].
Qed.

End Runs.

(** C5. A login watcher is bounded.  [startLoginWatcher] registers a timer
    with a period of 1000 ms and a budget of 120 checks (120 s in all).
    However often the timer fires, it performs at most 120 checks, and once
    it has fired more than 120 times it has cleared itself and left the
    registry.  On a tick that finds no session for its account the watcher
    clears its timer at once, does nothing else, and leaves the session map
    as it found it. *)
Theorem login_watcher_bounded (a : string) (cb : bool) (w : World) :
  watchers_ok w ->
  let w0 := startLoginWatcher a cb w in
  let id := nextInterval w in
  watcherDelay = 1000 /\
  maxChecks = 120%nat /\
  Z.of_nat maxChecks * watcherDelay = 120000 /\
  intervals w0 !! id = Some (mkWatcher a false 0 cb 1000) /\
  In (SetInterval id 1000) (trace w0) /\
  (forall envs, (checks a (runTicks id envs w0) <= checks a w0 + 120)%nat) /\
  (forall envs, (120 < length envs)%nat ->
     intervals (runTicks id envs w0) !! id = None /\
     loginWatchers (runTicks id envs w0) !! a = None) /\
  (forall w1 id1 wt env,
     watchers_ok w1 ->
     intervals w1 !! id1 = Some wt ->
     activeBrowsers w1 !! w_accountId wt = None ->
     intervals (tick id1 env w1) !! id1 = None /\
     loginWatchers (tick id1 env w1) !! w_accountId wt = None /\
     activeBrowsers (tick id1 env w1) = activeBrowsers w1 /\
     trace (tick id1 env w1) = (trace w1 ++ [ClearInterval id1])%list).
Proof.
  intros Hok. cbv zeta.
  destruct (startLoginWatcher_ok a cb w Hok) as (Hok0 & _ & Hwt & _).
  split; [done |]. split; [done |]. split; [done |]. split; [exact Hwt |].
  split; [| split; [| split]].
  - destruct (stopLoginWatcher_ok a w Hok) as (_ & _ & _ & Hnext & _).
    unfold startLoginWatcher. simpl. rewrite Hnext.
    apply in_or_app. right. by left.
  - intros envs.
    destruct (run_bounded a (nextInterval w) envs _ _ Hok0 Hwt eq_refl) as [Hc _].
    simpl in Hc. unfold maxChecks in Hc. lia.
  - intros envs Hlen.
    destruct (run_bounded a (nextInterval w) envs _ _ Hok0 Hwt eq_refl) as [_ Hd].
    apply Hd. simpl. unfold maxChecks. lia.
  - intros w1 id1 wt env Hok1 Hwt1 Hgone.
    by destruct (tick_stops id1 env w1 wt Hok1 Hwt1 (or_intror Hgone))
      as (_ & ? & ? & ? & ?).
Qed.


(** C9 as amended.  On a tick whose login-status check throws, whether the
    adapter's check or the cookie fallback, the error is caught and
    ignored: nothing is written to the console, nothing is saved, the
    session map and the registry are unchanged, and the timer stays live
    with its count advanced by one, so the loop goes on to the next
    tick. *)
Theorem tick_error_ignored
    (id : nat) (env : TickEnv) (w : World) (wt : Watcher) (s : Session) (e : Exn) :
  intervals w !! id = Some wt ->
  (checkCount wt < maxChecks)%nat ->
  activeBrowsers w !! w_accountId wt = Some s ->
  te_adapter env = HasAdapter (Throws e) \/ te_adapter env = NoAdapter (Throws e) ->
  let w' := tick id env w in
  console w' = console w /\
  saves (w_accountId wt) w' = saves (w_accountId wt) w /\
  activeBrowsers w' = activeBrowsers w /\
  loginWatchers w' = loginWatchers w /\
  intervals w' !! id
    = Some (mkWatcher (w_accountId wt) (wasLoggedIn wt) (S (checkCount wt))
                      (w_callback wt) (w_delay wt)).
Proof.
  intros Hwt Hbudget Hsess Hthrows. cbv zeta.
  assert (Hrep : reported env = None).
  { unfold reported. by destruct Hthrows as [-> | ->]. }
  destruct (tick_checks id env w wt s Hwt Hbudget Hsess)
    as (Hi & Hl & _ & _ & Hsaves & Hsessions & Hconsole).
  unfold rising, falling in Hsaves, Hsessions. rewrite Hrep in Hsaves, Hsessions.
  split; [by apply Hconsole |]. split; [lia |]. split; [done |]. split; [done |].
  rewrite Hi, lookup_insert_eq. unfold ticked, remembered. by rewrite Hrep.
Qed.

(** ** Sample runs *)

Lemma launched_ok : watchers_ok Examples.launched.
Proof. apply (sameTimers_ok (initial "/srv")); [by repeat split | apply initial_ok]. Qed.

Lemma rng_contract : rng_ok Examples.rng.
Proof.
  intros n. unfold Examples.rng, Qle, Qlt. simpl.
  pose proof (Nat.mod_upper_bound n 7 ltac:(lia)). lia.
Qed.

(** C9 fails as first read: the sample watcher meets a throwing check and
    the console stays as it was. *)
Lemma tick_error_is_not_logged : ~ tickErrorIsLogged.
Proof.
  intros Hclaim.
  destruct (Hclaim 0%nat Examples.failing Examples.watched
              (mkWatcher "acct-1" false 0 false 1000) Examples.session
              (mkExn (Some "Target closed")))
    as [Hlogged _]; [reflexivity | unfold maxChecks; simpl; lia
                    | reflexivity | reflexivity |].
  apply Hlogged. reflexivity.
Qed.

(** The scripted run [false, false, true, true, false], evaluated: the
    session is saved once, on the third tick, and ends logged out with the
    time of detection kept. *)
Example scripted_run :
  saveTicks "acct-1" 0 1 Examples.scripted Examples.watched = [3%nat] /\
  saves "acct-1" (runTicks 0 Examples.scripted Examples.watched) = 1%nat /\
  (isLoggedIn <$> activeBrowsers (runTicks 0 Examples.scripted Examples.watched)
                    !! "acct-1") = Some (Some false) /\
  (loginDetectedAt <$> activeBrowsers (runTicks 0 Examples.scripted Examples.watched)
                         !! "acct-1") = Some (Some 1700000005000).
Proof. vm_compute. repeat split. Qed.


Lemma launch_existing_is_idempotent_witness :
  is_Some (activeBrowsers Examples.launched !! lr_accountId Examples.request) /\
  activeBrowsers
    (launchBrowser Examples.request Examples.missingChrome Examples.rng
       Examples.launched).2
  = activeBrowsers Examples.launched.
Proof.
  assert (H : is_Some (activeBrowsers Examples.launched
                         !! lr_accountId Examples.request))
    by (exists Examples.session; reflexivity).
  split; [exact H |].
  pose proof (launch_existing_is_idempotent Examples.request Examples.missingChrome
                Examples.rng Examples.launched H) as T.
  destruct (launchBrowser Examples.request Examples.missingChrome Examples.rng
              Examples.launched) as [[r g'] w'].
  exact (proj1 (proj2 (proj2 (proj2 (proj2 (proj2 T)))))).
Defined.

Lemma launch_failure_reported_witness :
  activeBrowsers (initial "/srv") !! lr_accountId Examples.request = None /\
  r_error (launchBrowser Examples.request Examples.missingChrome Examples.rng
             (initial "/srv")).1.1
  = Some "Chrome not installed. Please install Google Chrome.".
Proof.
  split; [reflexivity |].
  pose proof (launch_failure_reported Examples.request Examples.missingChrome
                Examples.rng (initial "/srv") _ eq_refl eq_refl) as T.
  destruct (launchBrowser Examples.request Examples.missingChrome Examples.rng
              (initial "/srv")) as [[r g'] w'].
  destruct T as (_ & _ & Hmissing & _).
  exact (Hmissing _ eq_refl eq_refl).
Defined.

Lemma login_watcher_bounded_witness :
  watchers_ok Examples.launched /\
  intervals (runTicks 0 (replicate 121 (Examples.answer false)) Examples.watched)
    !! 0%nat = None.
Proof.
  split; [exact launched_ok |].
  destruct (login_watcher_bounded "acct-1" false Examples.launched launched_ok)
    as (_ & _ & _ & _ & _ & _ & Hcleared & _).
  apply (Hcleared (replicate 121 (Examples.answer false))).
  vm_compute. lia.
Defined.

Lemma challenge_wait_bounded_witness :
  (handleCloudflareChallenge 1 (Examples.clearsAt 2) Examples.launched).1 = true.
Proof.
  pose proof (challenge_wait_bounded 1 (Examples.clearsAt 2) Examples.launched) as T.
  destruct (handleCloudflareChallenge 1 (Examples.clearsAt 2) Examples.launched)
    as [passed w'].
  destruct T as (_ & _ & Hpass & _).
  apply (Hpass 2%nat).
  - lia.
  - intros [| [| j]] Hj; [reflexivity | reflexivity | lia].
  - reflexivity.
Defined.


Lemma tick_error_ignored_witness :
  console (tick 0 Examples.failing Examples.watched) = console Examples.watched.
Proof.
  refine (proj1 (tick_error_ignored 0 Examples.failing Examples.watched
                   (mkWatcher "acct-1" false 0 false 1000) Examples.session
                   (mkExn (Some "Target closed")) _ _ _ _)).
  - reflexivity.
  - vm_compute. lia.
  - reflexivity.
  - left. reflexivity.
Defined.

Lemma one_watcher_per_account_witness :
  Reachable "/srv" (startLoginWatcher "acct-1" false (initial "/srv")) /\
  loginWatchers (stopLoginWatcher "acct-1"
                   (startLoginWatcher "acct-1" false (initial "/srv")))
    !! "acct-1" = None.
Proof.
  assert (H : Reachable "/srv" (startLoginWatcher "acct-1" false (initial "/srv")))
    by (apply rtc_once, StepStart).
  split; [exact H |].
  destruct (one_watcher_per_account "/srv" _ H) as (_ & _ & _ & Hstop).
  exact (proj1 (Hstop "acct-1")).
Defined.

(** * Further properties *)

(** ** Draws and generated fingerprints *)

Section MoreDraws.

Lemma always_ret {A} (a : A) (P : A -> Prop) : P a -> always (ret a) P.
Proof. by intros Ha g. Qed.

Lemma always_bind {A B} (m : Rand A) (k : A -> Rand B) (P : A -> Prop) (Q : B -> Prop) :
  always m P -> (forall a, P a -> always (k a) Q) -> always (bind m k) Q.
Proof.
  intros Hm Hk g. unfold bind. pose proof (Hm g) as Ha.
  destruct (m g) as [a g']. by apply Hk.
Qed.

Lemma always_any {A} (m : Rand A) : always m (fun _ => True).
Proof. by intros g. Qed.

Lemma always_orChoice {A} (o : option A) (undef : A) (arr : list A) :
  always (orChoice o undef arr) (fun x => forall v, o = Some v -> x = v).
Proof. intros g v ->. reflexivity. Qed.

Lemma always_orChoiceStr (o : option string) (arr : list string) :
  always (orChoiceStr o arr)
         (fun x => forall s, o = Some s -> truthy s = true -> x = s).
Proof. intros g s -> Hs. simpl. by rewrite Hs. Qed.

Lemma yields_orChoiceStr_unset (o : option string) (arr : list string) :
  arr <> [] -> yields (orChoiceStr o arr) (fun x => unset o -> In x arr).
Proof.
  intros Hne. destruct o as [s |]; simpl.
  - destruct (truthy s) eqn:Hs.
    + apply yields_ret. intros [H | H]; [done |].
      injection H as ->. done.
    + eapply yields_weaken; [by apply yields_randomChoice | done].
  - eapply yields_weaken; [by apply yields_randomChoice | auto].
Qed.

Lemma noise_bounds (n d : Z) (lo hi : Z) :
  lo <= n <= hi ->
  (inject_Z lo / inject_Z (Z.pos (Z.to_pos d)) <= inject_Z n / inject_Z (Z.pos (Z.to_pos d)))%Q /\
  (inject_Z n / inject_Z (Z.pos (Z.to_pos d)) <= inject_Z hi / inject_Z (Z.pos (Z.to_pos d)))%Q.
Proof.
  intros [Hlo Hhi]. unfold Qle, Qdiv, Qmult, Qinv, inject_Z. simpl. nia.
Qed.

Lemma generateFingerprint_in_range (options : Options) (now : Z) :
  yields (generateFingerprint options now) (fingerprintInRange options now).
Proof.
  unfold generateFingerprint.
  eapply yields_bind; [apply (yields_orChoice _ _ SCREEN_RESOLUTIONS); done |].
  intros screen Hscreen.
  eapply yields_bind; [apply (yields_orChoiceStr_unset _ USER_AGENTS); done |].
  intros userAgent Hua.
  eapply yields_bind; [apply (yields_orChoiceStr_unset _ TIMEZONES); done |].
  intros timezone Htz.
  eapply yields_bind; [apply (yields_orChoiceStr_unset _ LOCALES); done |].
  intros locale Hloc.
  eapply yields_bind; [apply (yields_orChoice _ _ WEBGL_CONFIGS); done |].
  intros webgl _. cbv zeta.
  eapply yields_bind with (P := fun _ => True).
  { destruct (includes userAgent "Macintosh");
      (eapply yields_weaken; [by apply yields_randomChoice | done]). }
  intros hc _.
  eapply yields_bind; [apply (yields_randomChoice 0 [4; 8; 16; 32]); done |].
  intros deviceMemory Hmem.
  eapply yields_bind; [apply (yields_randomInt 10); simpl; lia |].
  intros nfonts Hfonts.
  eapply yields_bind; [apply (yields_randomInt 30 50); lia |].
  intros taskbar Htask.
  eapply yields_bind; [apply (yields_randomChoice 0%Q); done |].
  intros dpr Hdpr.
  eapply yields_bind with (P := fun _ => True).
  { destruct (includes userAgent "Macintosh");
      [by apply yields_ret
      | eapply yields_weaken; [by apply yields_randomChoice | done]]. }
  intros mtp _.
  eapply yields_bind with
    (P := fun c => ((1 # 100) <= cv_noise c)%Q /\ (cv_noise c <= (10 # 100))%Q /\
                   (0 <= cv_seed c)%Q /\ (cv_seed c < 1)%Q).
  { unfold generateCanvasNoise.
    eapply yields_bind; [apply (yields_randomInt 1 10); lia |]. intros n Hn.
    eapply yields_bind; [apply yields_random |]. intros sd [Hs0 Hs1].
    apply yields_ret. simpl.
    destruct (noise_bounds n 100 1 10 Hn) as [Hlo Hhi].
    repeat split; assumption. }
  intros canvas Hcanvas.
  eapply yields_bind; [apply (yields_randomInt 1 5); lia |].
  intros audio Haudio.
  apply yields_ret.
  unfold fingerprintInRange. cbn [fp_screen fp_navigator fp_timezone fp_canvas
    fp_audio_noise fp_fonts fp_generatedAt scr_width scr_height scr_availWidth
    scr_availHeight scr_colorDepth scr_pixelDepth scr_devicePixelRatio
    nav_userAgent nav_language nav_languages nav_deviceMemory tz_id tz_offset].
  destruct (noise_bounds audio 1000 1 5 Haudio) as [Halo Hahi].
  destruct Hcanvas as (Hc1 & Hc2 & Hc3 & Hc4).
  cbv beta in Htask, Hfonts, Hmem, Hdpr.
  repeat match goal with |- _ /\ _ => split end; try done; try lia.
  - intros Hnone. destruct screen. by apply Hscreen.
  - exists (Z.to_nat nfonts). simpl in Hfonts.
    split; [lia |]. split; [done |].
    rewrite length_take. simpl. lia.
Qed.

Lemma generateFingerprint_keeps (options : Options) (now : Z) :
  always (generateFingerprint options now) (optionsKept options).
Proof.
  unfold generateFingerprint.
  eapply always_bind; [apply always_orChoice |]. intros screen Hscreen.
  eapply always_bind; [apply always_orChoiceStr |]. intros userAgent Hua.
  eapply always_bind; [apply always_orChoiceStr |]. intros timezone Htz.
  eapply always_bind; [apply always_orChoiceStr |]. intros locale Hloc.
  eapply always_bind; [apply always_orChoice |]. intros webgl Hgl. cbv zeta.
  eapply always_bind; [apply always_any |]. intros hc _.
  eapply always_bind; [apply always_any |]. intros deviceMemory _.
  eapply always_bind; [apply always_any |]. intros nfonts _.
  eapply always_bind; [apply always_any |]. intros taskbar _.
  eapply always_bind; [apply always_any |]. intros dpr _.
  eapply always_bind; [apply always_any |]. intros mtp _.
  eapply always_bind; [apply always_any |]. intros canvas _.
  eapply always_bind; [apply always_any |]. intros audio _.
  apply always_ret. unfold optionsKept. simpl.
  repeat split.
  - by rewrite (Hscreen r).
  - by rewrite (Hscreen r).
  - auto.
  - auto.
  - by rewrite (Htz tz).
  - auto.
  - auto.
Qed.

End MoreDraws.








(** ** Launching and closing sessions *)

Section Sessions.

Lemma loadOrCreateFingerprint_facts (a : string) (now : Z) (g : RNG) (w : World) :
  let r := loadOrCreateFingerprint a now g w in
  cwd r.2 = cwd w /\
  fingerprintFiles r.2 !! fingerprintPath w a = Some r.1.1 /\
  (forall p, p <> fingerprintPath w a ->
     fingerprintFiles r.2 !! p = fingerprintFiles w !! p) /\
  cookieFiles r.2 = cookieFiles w /\
  (forall stored, fingerprintFiles w !! fingerprintPath w a = Some stored ->
     r = (stored, g, w)) /\
  countEvents isClose r.2 = countEvents isClose w.
Proof.
  unfold loadOrCreateFingerprint, fingerprintPath. cbv zeta.
  destruct (fingerprintFiles w !! pathJoin (getProfilePath w a) "fingerprint.json")
    as [stored |] eqn:Hfile.
  - simpl. repeat split; try done. by intros ? [= ->].
  - destruct (generateFingerprint noOptions now g) as [fp g1]. simpl.
    repeat split; try done.
    + apply lookup_insert_eq.
    + intros p Hp. by rewrite lookup_insert_ne.
    + unfold countEvents. simpl. rewrite List.filter_app, length_app. simpl. lia.
Qed.

Lemma launchFailed_facts (a : string) (e : Exn) (w : World) :
  sameDisk w (launchFailed a e w).2 /\
  activeBrowsers (launchFailed a e w).2 = activeBrowsers w /\
  trace (launchFailed a e w).2 = trace w /\
  success (launchFailed a e w).1 = false.
Proof.
  unfold launchFailed. destruct (message e) as [m |]; [| by repeat split].
  destruct (includes m "Executable doesn't exist"); by repeat split.
Qed.

(** What [launchBrowser] does for an account without session, in terms of
    the way its [try] block ends. *)
Lemma launchBrowser_absent (req : LaunchRequest) (env : LaunchEnv) (g : RNG) (w : World) :
  activeBrowsers w !! lr_accountId req = None ->
  let a := lr_accountId req in
  let loaded := loadOrCreateFingerprint a (le_now env) g (ensureProfilesDir w) in
  let fp := loaded.1.1 in
  let r := launchBrowser req env g w in
  r.1.2 = loaded.1.2 /\
  cwd r.2 = cwd w /\
  fingerprintFiles r.2 = fingerprintFiles loaded.2 /\
  cookieFiles r.2 = cookieFiles w /\
  sameTimers w r.2 /\
  countEvents isClose r.2 = countEvents isClose w /\
  match launchOutcome env with
  | Returns (ctx, pg) =>
      r.1.1 = mkReply true (Some a) (Some "Browser launched successfully")
                      None (Some fp) None None None None /\
      activeBrowsers r.2
        = <[a := mkSession ctx pg fp (lr_proxy req) (lr_platformId req)
                           (getProfilePath w a) (le_launchedAt env) None None]>
            (activeBrowsers w)
  | Throws e =>
      r.1.1 = (launchFailed a e w).1 /\
      activeBrowsers r.2 = activeBrowsers w
  end.
Proof.
  intros Hnone. cbv zeta.
  pose proof (launchBrowser_sameTimers req env g w) as Htimers.
  unfold launchBrowser, launchOutcome.
  rewrite ensureProfilesDir_sessions.
  destruct (decide (is_Some (activeBrowsers w !! lr_accountId req))) as [Hsome | _].
  { rewrite Hnone in Hsome. by destruct Hsome. }
  pose proof (loadOrCreateFingerprint_facts (lr_accountId req) (le_now env) g
                (ensureProfilesDir w)) as (Hcwd & _ & _ & Hcookies & _ & Hclose).
  pose proof (loadOrCreateFingerprint_sessions (lr_accountId req) (le_now env) g
                (ensureProfilesDir w)) as Hsess.
  unfold launchBrowser in Htimers.
  rewrite ensureProfilesDir_sessions in Htimers.
  destruct (decide (is_Some (activeBrowsers w !! lr_accountId req))) as [Hsome | _].
  { rewrite Hnone in Hsome. by destruct Hsome. }
  destruct (loadOrCreateFingerprint _ _ _ _) as [[fp g'] w2].
  simpl in Hcwd, Hcookies, Hclose, Hsess.
  assert (Hpath : getProfilePath w2 (lr_accountId req)
                  = getProfilePath w (lr_accountId req)).
  { unfold getProfilePath, PROFILES_DIR. by rewrite Hcwd. }
  assert (Hclose0 : countEvents isClose (ensureProfilesDir w) = countEvents isClose w).
  { unfold countEvents. simpl. rewrite List.filter_app, length_app. simpl. lia. }
  rewrite Hpath in *.
  destruct (le_launch env) as [[ctx firstPage] | e];
    [destruct firstPage as [pg |]; [| destruct (le_newPage env) as [pg | e]];
     try (destruct (le_initScript env) as [[] | e]) |];
    simpl in Htimers |- *;
    try match goal with |- context [launchFailed ?a ?e ?w0] =>
      pose proof (launchFailed_facts a e w0) as ((Hd1 & Hd2 & Hd3) & Hact & Htr & _);
      assert (Hreply : (launchFailed a e w0).1 = (launchFailed a e w).1)
        by (unfold launchFailed; destruct (message e) as [m |];
            [destruct (includes m "Executable doesn't exist") |]; reflexivity);
      destruct (launchFailed a e w0) as [r w'] eqn:Hf
    end;
    simpl in *;
    repeat match goal with |- _ /\ _ => split end;
    try done; try congruence;
    unfold countEvents in *; simpl in *;
    rewrite ?Htr; simpl;
    rewrite ?List.filter_app, ?length_app in *; simpl in *; try lia.
Qed.

Lemma stopLoginWatcher_frame (a : string) (w : World) :
  sameDisk w (stopLoginWatcher a w) /\
  activeBrowsers (stopLoginWatcher a w) = activeBrowsers w /\
  loginWatchers (stopLoginWatcher a w) = delete a (loginWatchers w) /\
  nextInterval (stopLoginWatcher a w) = nextInterval w /\
  intervals (stopLoginWatcher a w)
    = match loginWatchers w !! a with
      | Some id => delete id (intervals w)
      | None => intervals w
      end /\
  countEvents isClose (stopLoginWatcher a w) = countEvents isClose w /\
  countEvents isProbe (stopLoginWatcher a w) = countEvents isProbe w.
Proof.
  unfold stopLoginWatcher.
  destruct (loginWatchers w !! a) as [id |] eqn:Hid.
  - repeat split; unfold countEvents; simpl;
      rewrite ?List.filter_app, ?length_app; simpl; lia.
  - repeat split. by rewrite delete_id.
Qed.

Lemma saveSession_present (a : string) (cookies : Outcome (list Cookie))
    (w : World) (s : Session) :
  activeBrowsers w !! a = Some s ->
  let r := saveSession a cookies w in
  cwd r.2 = cwd w /\
  fingerprintFiles r.2 = fingerprintFiles w /\
  activeBrowsers r.2 = activeBrowsers w /\
  countEvents isClose r.2 = countEvents isClose w /\
  match cookies with
  | Returns cs =>
      r.1 = mkReply true None None None None None (Some (length cs)) None None /\
      cookieFiles r.2 = <[cookiesPath w a := cs]> (cookieFiles w)
  | Throws e =>
      r.1 = failure (message e) /\ cookieFiles r.2 = cookieFiles w
  end.
Proof.
  intros Hs. unfold saveSession. rewrite Hs.
  destruct cookies as [cs | e]; simpl; repeat split;
    unfold countEvents; simpl; rewrite ?List.filter_app, ?length_app; simpl; lia.
Qed.

(** What [closeBrowser] does for an account with a session. *)
Lemma closeBrowser_present (a : string) (save : option bool)
    (cookies : Outcome (list Cookie)) (closing : Outcome unit)
    (w : World) (s : Session) :
  activeBrowsers w !! a = Some s ->
  let r := closeBrowser a save cookies closing w in
  cwd r.2 = cwd w /\
  fingerprintFiles r.2 = fingerprintFiles w /\
  cookieFiles r.2 =
    (if default true save
     then match cookies with
          | Returns cs => <[cookiesPath w a := cs]> (cookieFiles w)
          | Throws _ => cookieFiles w
          end
     else cookieFiles w) /\
  loginWatchers r.2 = delete a (loginWatchers w) /\
  intervals r.2 = intervals (stopLoginWatcher a w) /\
  nextInterval r.2 = nextInterval w /\
  countEvents isClose r.2 = S (countEvents isClose w) /\
  match closing with
  | Returns _ => r.1 = succeeded /\ activeBrowsers r.2 = delete a (activeBrowsers w)
  | Throws e => r.1 = failure (message e) /\ activeBrowsers r.2 = activeBrowsers w
  end.
Proof.
  intros Hs. cbv zeta. unfold closeBrowser. rewrite Hs. cbv zeta.
  destruct (stopLoginWatcher_frame a w)
    as ((Hcwd & Hfp & Hck) & Hact & Hreg & Hnext & _ & Hclose & _).
  set (w1 := stopLoginWatcher a w) in *.
  assert (Hs1 : activeBrowsers w1 !! a = Some s) by (by rewrite Hact).
  assert (Hpath : cookiesPath w1 a = cookiesPath w a).
  { unfold cookiesPath, getProfilePath, PROFILES_DIR. by rewrite Hcwd. }
  destruct (default true save).
  - pose proof (saveSession_present a cookies w1 s Hs1) as (Sc & Sf & Sa & Scl & Sck).
    pose proof (saveSession_sameTimers a cookies w1) as (T1 & T2 & T3).
    destruct (saveSession a cookies w1) as [rs w2]. simpl in *.
    rewrite Hpath in Sck.
    destruct closing as [[] | e]; destruct cookies as [cs | e'];
      destruct Sck as [_ Sck]; simpl;
      repeat match goal with |- _ /\ _ => split end;
      try congruence;
      unfold countEvents in *; simpl;
      rewrite ?List.filter_app, ?length_app; simpl; lia.
  - destruct closing as [[] | e]; simpl;
      repeat match goal with |- _ /\ _ => split end;
      try congruence;
      unfold countEvents in *; simpl;
      rewrite ?List.filter_app, ?length_app; simpl; lia.
Qed.

End Sessions.

Lemma launch_with_stored (req : LaunchRequest) (env : LaunchEnv) (g : RNG)
    (w : World) (fp : Fingerprint) (ctx pg : nat) :
  activeBrowsers w !! lr_accountId req = None ->
  fingerprintFiles w !! fingerprintPath w (lr_accountId req) = Some fp ->
  launchOutcome env = Returns (ctx, pg) ->
  (launchBrowser req env g w).1
    = (mkReply true (Some (lr_accountId req)) (Some "Browser launched successfully")
               None (Some fp) None None None None, g).
Proof.
  intros Hnone Hfile Hout.
  pose proof (launchBrowser_absent req env g w Hnone) as Habs. cbv zeta in Habs.
  destruct Habs as (Hg & _ & _ & _ & _ & _ & Hcase).
  rewrite Hout in Hcase. destruct Hcase as [Hreply _].
  pose proof (loadOrCreateFingerprint_facts (lr_accountId req) (le_now env) g
                (ensureProfilesDir w)) as (_ & _ & _ & _ & Hstored & _).
  specialize (Hstored fp Hfile).
  rewrite Hstored in Hreply, Hg. simpl in Hreply, Hg.
  destruct (launchBrowser req env g w) as [[r g'] w']. simpl in *. congruence.
Qed.

Lemma launch_creates_session_facts
    (req : LaunchRequest) (env : LaunchEnv) (g : RNG) (w : World) (ctx pg : nat) :
  activeBrowsers w !! lr_accountId req = None ->
  launchOutcome env = Returns (ctx, pg) ->
  let a := lr_accountId req in
  let fp := (loadOrCreateFingerprint a (le_now env) g (ensureProfilesDir w)).1.1 in
  let r := launchBrowser req env g w in
  r.1.1 = mkReply true (Some a) (Some "Browser launched successfully")
                  None (Some fp) None None None None /\
  activeBrowsers r.2 !! a
    = Some (mkSession ctx pg fp (lr_proxy req) (lr_platformId req)
                      (getProfilePath w a) (le_launchedAt env) None None) /\
  fingerprintFiles r.2 !! fingerprintPath w a = Some fp /\
  cwd r.2 = cwd w.
Proof.
  intros Hnone Hout. cbv zeta.
  pose proof (launchBrowser_absent req env g w Hnone) as Habs. cbv zeta in Habs.
  destruct Habs as (_ & Hcwd & Hfiles & _ & _ & _ & Hcase).
  rewrite Hout in Hcase. destruct Hcase as [Hreply Hsess].
  pose proof (loadOrCreateFingerprint_facts (lr_accountId req) (le_now env) g
                (ensureProfilesDir w)) as (_ & Hstored & _).
  split; [exact Hreply |]. split; [by rewrite Hsess, lookup_insert_eq |].
  split; [by rewrite Hfiles | exact Hcwd].
Qed.

(** X5. A launch for an account without session whose browser calls all
    succeed answers success with the account's fingerprint, adds exactly
    one session, keyed by the account, holding that fingerprint, the
    requested proxy and platform, the account's profile directory and no
    login state yet; the fingerprint is on disk afterwards, and the
    sessions of other accounts, the watchers and the cookie files are
    untouched. *)
Theorem launch_creates_session
    (req : LaunchRequest) (env : LaunchEnv) (g : RNG) (w : World) (ctx pg : nat) :
  activeBrowsers w !! lr_accountId req = None ->
  launchOutcome env = Returns (ctx, pg) ->
  let a := lr_accountId req in
  let fp := (loadOrCreateFingerprint a (le_now env) g (ensureProfilesDir w)).1.1 in
  let r := launchBrowser req env g w in
  r.1.1 = mkReply true (Some a) (Some "Browser launched successfully")
                  None (Some fp) None None None None /\
  activeBrowsers r.2 !! a
    = Some (mkSession ctx pg fp (lr_proxy req) (lr_platformId req)
                      (getProfilePath w a) (le_launchedAt env) None None) /\
  (forall b, b <> a -> activeBrowsers r.2 !! b = activeBrowsers w !! b) /\
  fingerprintFiles r.2 !! fingerprintPath w a = Some fp /\
  sameTimers w r.2 /\
  cookieFiles r.2 = cookieFiles w.
Proof.
  intros Hnone Hout. cbv zeta.
  pose proof (launchBrowser_absent req env g w Hnone) as Habs. cbv zeta in Habs.
  destruct Habs as (_ & _ & Hfiles & Hck & Htimers & _ & Hcase).
  rewrite Hout in Hcase. destruct Hcase as [Hreply Hsess].
  pose proof (loadOrCreateFingerprint_facts (lr_accountId req) (le_now env) g
                (ensureProfilesDir w)) as (_ & Hstored & _).
  split; [exact Hreply |]. split; [by rewrite Hsess, lookup_insert_eq |].
  split; [intros b Hb; by rewrite Hsess, lookup_insert_ne |].
  split; [by rewrite Hfiles | by split].
Qed.

Lemma launch_creates_session_witness :
  activeBrowsers (initial "/srv") !! lr_accountId Examples.request = None /\
  launchOutcome Samples.launchOk = Returns (1%nat, 1%nat) /\
  is_Some (activeBrowsers Samples.afterLaunch !! "acct-1").
Proof.
  split; [reflexivity |]. split; [reflexivity |].
  destruct (launch_creates_session Examples.request Samples.launchOk Examples.rng
              (initial "/srv") 1%nat 1%nat eq_refl eq_refl) as (_ & Hs & _).
  eexists. exact Hs.
Defined.

(** X6. When [launchPersistentContext], [newPage] or [addInitScript]
    throws, the launch answers failure and adds no session, yet the
    account's fingerprint has been stored and the browser context, if one
    was opened, is not closed.  A later launch of the account that succeeds
    presents that stored fingerprint and draws nothing. *)
Theorem launch_failure_keeps_fingerprint
    (req : LaunchRequest) (env : LaunchEnv) (g : RNG) (w : World) (e : Exn) :
  activeBrowsers w !! lr_accountId req = None ->
  launchOutcome env = Throws e ->
  let a := lr_accountId req in
  let fp := (loadOrCreateFingerprint a (le_now env) g (ensureProfilesDir w)).1.1 in
  let r := launchBrowser req env g w in
  success r.1.1 = false /\
  activeBrowsers r.2 = activeBrowsers w /\
  fingerprintFiles r.2 !! fingerprintPath w a = Some fp /\
  countEvents isClose r.2 = countEvents isClose w /\
  (forall env2 g2 ctx pg, launchOutcome env2 = Returns (ctx, pg) ->
     r_fingerprint (launchBrowser req env2 g2 r.2).1.1 = Some fp /\
     (launchBrowser req env2 g2 r.2).1.2 = g2).
Proof.
  intros Hnone Hout. cbv zeta.
  pose proof (launchBrowser_absent req env g w Hnone) as Habs. cbv zeta in Habs.
  destruct Habs as (_ & Hcwd & Hfiles & _ & _ & Hclose & Hcase).
  rewrite Hout in Hcase. destruct Hcase as [Hreply Hsess].
  pose proof (loadOrCreateFingerprint_facts (lr_accountId req) (le_now env) g
                (ensureProfilesDir w)) as (_ & Hstored & _).
  assert (Hfile : fingerprintFiles (launchBrowser req env g w).2
                    !! fingerprintPath w (lr_accountId req)
                  = Some (loadOrCreateFingerprint (lr_accountId req) (le_now env) g
                            (ensureProfilesDir w)).1.1)
    by (by rewrite Hfiles).
  split; [rewrite Hreply; apply launchFailed_facts |].
  split; [exact Hsess |]. split; [exact Hfile |]. split; [exact Hclose |].
  intros env2 g2 ctx pg Hout2.
  assert (Hpath : fingerprintPath (launchBrowser req env g w).2 (lr_accountId req)
                  = fingerprintPath w (lr_accountId req)).
  { unfold fingerprintPath, getProfilePath, PROFILES_DIR. by rewrite Hcwd. }
  rewrite (launch_with_stored req env2 g2 (launchBrowser req env g w).2
             (loadOrCreateFingerprint (lr_accountId req) (le_now env) g
                (ensureProfilesDir w)).1.1 ctx pg); [done | | | done].
  - by rewrite Hsess.
  - by rewrite Hpath.
Qed.

Lemma launch_failure_keeps_fingerprint_witness :
  activeBrowsers (initial "/srv") !! lr_accountId Examples.request = None /\
  launchOutcome Samples.scriptFails
    = Throws (mkExn (Some "Target page, context or browser has been closed")) /\
  success (launchBrowser Examples.request Samples.scriptFails Examples.rng
             (initial "/srv")).1.1 = false.
Proof.
  split; [reflexivity |]. split; [reflexivity |].
  exact (proj1 (launch_failure_keeps_fingerprint Examples.request Samples.scriptFails
                  Examples.rng (initial "/srv") _ eq_refl eq_refl)).
Defined.

(** X7. Launch, close, launch again: when all three succeed, the second
    launch presents the fingerprint of the first, whatever its clock and
    random tape, and draws nothing. *)
Theorem relaunch_keeps_fingerprint
    (req : LaunchRequest) (env1 env2 : LaunchEnv) (g1 g2 : RNG) (w : World)
    (save : option bool) (cookies : Outcome (list Cookie))
    (ctx1 pg1 ctx2 pg2 : nat) :
  activeBrowsers w !! lr_accountId req = None ->
  launchOutcome env1 = Returns (ctx1, pg1) ->
  launchOutcome env2 = Returns (ctx2, pg2) ->
  let first := launchBrowser req env1 g1 w in
  let closed := closeBrowser (lr_accountId req) save cookies (Returns tt) first.2 in
  let second := launchBrowser req env2 g2 closed.2 in
  closed.1 = succeeded /\
  success second.1.1 = true /\
  r_fingerprint second.1.1 = r_fingerprint first.1.1 /\
  second.1.2 = g2.
Proof.
  intros Hnone Hout1 Hout2. cbv zeta.
  destruct (launch_creates_session_facts req env1 g1 w ctx1 pg1 Hnone Hout1)
    as (Hreply1 & Hsess1 & Hfile1 & Hcwd1).
  set (w1 := (launchBrowser req env1 g1 w).2) in *.
  pose proof (closeBrowser_present (lr_accountId req) save cookies (Returns tt)
                w1 _ Hsess1) as Hclose. cbv zeta in Hclose.
  destruct Hclose as (Hcwd2 & Hfiles2 & _ & _ & _ & _ & _ & Hr & Hdel).
  set (w2 := (closeBrowser (lr_accountId req) save cookies (Returns tt) w1).2) in *.
  assert (Hnone2 : activeBrowsers w2 !! lr_accountId req = None)
    by (rewrite Hdel; apply lookup_delete_eq).
  assert (Hfile2 : fingerprintFiles w2 !! fingerprintPath w2 (lr_accountId req)
                   = Some (loadOrCreateFingerprint (lr_accountId req) (le_now env1) g1
                             (ensureProfilesDir w)).1.1).
  { rewrite Hfiles2. unfold fingerprintPath, getProfilePath, PROFILES_DIR.
    rewrite Hcwd2, Hcwd1. exact Hfile1. }
  rewrite (launch_with_stored req env2 g2 w2 _ ctx2 pg2 Hnone2 Hfile2 Hout2).
  rewrite Hreply1. by repeat split.
Qed.

Lemma relaunch_keeps_fingerprint_witness :
  activeBrowsers (initial "/srv") !! lr_accountId Examples.request = None /\
  launchOutcome Samples.launchOk = Returns (1%nat, 1%nat) /\
  r_fingerprint
    (launchBrowser Examples.request Samples.launchOk (mkRNG (fun _ => 0%Q) 0)
       (closeBrowser "acct-1" None (Returns Samples.cookies) (Returns tt)
          Samples.afterLaunch).2).1.1
  = r_fingerprint
      (launchBrowser Examples.request Samples.launchOk Examples.rng (initial "/srv")).1.1.
Proof.
  split; [reflexivity |]. split; [reflexivity |].
  exact (proj1 (proj2 (proj2
           (relaunch_keeps_fingerprint Examples.request Samples.launchOk
              Samples.launchOk Examples.rng (mkRNG (fun _ => 0%Q) 0) (initial "/srv")
              None (Returns Samples.cookies) 1%nat 1%nat 1%nat 1%nat
              eq_refl eq_refl eq_refl)))).
Defined.

Lemma cookiesPath_cwd (w w' : World) (a : string) :
  cwd w' = cwd w -> cookiesPath w' a = cookiesPath w a.
Proof. intros H. unfold cookiesPath, getProfilePath, PROFILES_DIR. by rewrite H. Qed.

Lemma loadCookies_lookup (a : string) (w : World) :
  loadCookies a w = default [] (cookieFiles w !! cookiesPath w a).
Proof. unfold loadCookies, cookiesPath. by destruct (cookieFiles w !! _). Qed.

(** X8. Closing the session of an account, when the browser context
    closes, answers success, removes the session and the watcher of that
    account and of no other, and, unless the caller passed [false], leaves
    the cookies the context returned in the account's cookie file.  Closing
    the account again answers not-found. *)
Theorem close_removes_session
    (a : string) (save : option bool) (cookies : Outcome (list Cookie))
    (w : World) (s : Session) :
  activeBrowsers w !! a = Some s ->
  let r := closeBrowser a save cookies (Returns tt) w in
  r.1 = succeeded /\
  activeBrowsers r.2 !! a = None /\
  (forall b, b <> a -> activeBrowsers r.2 !! b = activeBrowsers w !! b) /\
  loginWatchers r.2 !! a = None /\
  (forall b, b <> a -> loginWatchers r.2 !! b = loginWatchers w !! b) /\
  (forall id, loginWatchers w !! a = Some id -> intervals r.2 !! id = None) /\
  (forall cs, save <> Some false -> cookies = Returns cs -> loadCookies a r.2 = cs) /\
  (save = Some false -> cookieFiles r.2 = cookieFiles w) /\
  (forall save' cookies' closing',
     closeBrowser a save' cookies' closing' r.2 = (notFound, r.2)).
Proof.
  intros Hs. cbv zeta.
  pose proof (closeBrowser_present a save cookies (Returns tt) w s Hs) as H.
  cbv zeta in H.
  destruct H as (Hcwd & _ & Hck & Hreg & Hint & _ & _ & Hr & Hdel).
  set (r := closeBrowser a save cookies (Returns tt) w) in *.
  assert (Hgone : activeBrowsers r.2 !! a = None)
    by (rewrite Hdel; apply lookup_delete_eq).
  split; [exact Hr |]. split; [exact Hgone |].
  split; [intros b Hb; by rewrite Hdel, lookup_delete_ne |].
  split; [rewrite Hreg; apply lookup_delete_eq |].
  split; [intros b Hb; by rewrite Hreg, lookup_delete_ne |].
  split.
  { intros id Hid. rewrite Hint.
    destruct (stopLoginWatcher_frame a w) as (_ & _ & _ & _ & Hi & _).
    rewrite Hi, Hid. apply lookup_delete_eq. }
  split.
  { intros cs Hsave ->. rewrite loadCookies_lookup, (cookiesPath_cwd w _ a Hcwd), Hck.
    destruct save as [[|] |]; simpl; try done; by rewrite lookup_insert_eq. }
  split.
  { intros ->. exact Hck. }
  intros save' cookies' closing'. unfold closeBrowser. by rewrite Hgone.
Qed.

Lemma close_removes_session_witness :
  is_Some (activeBrowsers Examples.watched !! "acct-1") /\
  activeBrowsers
    (closeBrowser "acct-1" None (Returns Samples.cookies) (Returns tt)
       Examples.watched).2 !! "acct-1" = None.
Proof.
  split; [exists Examples.session; reflexivity |].
  exact (proj1 (proj2 (close_removes_session "acct-1" None (Returns Samples.cookies)
                         Examples.watched Examples.session eq_refl))).
Defined.

(** X9. When closing the browser context throws, [closeBrowser] answers
    failure with the error's message and the session stays in the map, but
    its watcher has already been stopped and, unless the caller passed
    [false], its cookies have already been saved. *)
Theorem close_failure_keeps_session
    (a : string) (save : option bool) (cookies : Outcome (list Cookie))
    (w : World) (s : Session) (e : Exn) :
  activeBrowsers w !! a = Some s ->
  let r := closeBrowser a save cookies (Throws e) w in
  r.1 = failure (message e) /\
  activeBrowsers r.2 = activeBrowsers w /\
  loginWatchers r.2 !! a = None /\
  (forall id, loginWatchers w !! a = Some id -> intervals r.2 !! id = None) /\
  (forall cs, save <> Some false -> cookies = Returns cs -> loadCookies a r.2 = cs).
Proof.
  intros Hs. cbv zeta.
  pose proof (closeBrowser_present a save cookies (Throws e) w s Hs) as H.
  cbv zeta in H.
  destruct H as (Hcwd & _ & Hck & Hreg & Hint & _ & _ & Hr & Hsame).
  set (r := closeBrowser a save cookies (Throws e) w) in *.
  split; [exact Hr |]. split; [exact Hsame |].
  split; [rewrite Hreg; apply lookup_delete_eq |].
  split.
  { intros id Hid. rewrite Hint.
    destruct (stopLoginWatcher_frame a w) as (_ & _ & _ & _ & Hi & _).
    rewrite Hi, Hid. apply lookup_delete_eq. }
  intros cs Hsave ->. rewrite loadCookies_lookup, (cookiesPath_cwd w _ a Hcwd), Hck.
  destruct save as [[|] |]; simpl; try done; by rewrite lookup_insert_eq.
Qed.

Lemma close_failure_keeps_session_witness :
  is_Some (activeBrowsers Examples.watched !! "acct-1") /\
  loginWatchers
    (closeBrowser "acct-1" None (Returns Samples.cookies)
       (Throws (mkExn (Some "Target closed"))) Examples.watched).2 !! "acct-1" = None.
Proof.
  split; [exists Examples.session; reflexivity |].
  exact (proj1 (proj2 (proj2
           (close_failure_keeps_session "acct-1" None (Returns Samples.cookies)
              Examples.watched Examples.session (mkExn (Some "Target closed"))
              eq_refl)))).
Defined.

(** X10. Saving a session whose context returns its cookies answers
    success with their count, and [loadCookies] then returns exactly those
    cookies; when reading the cookies throws, the answer is a failure with
    the error's message and the stored cookies are unchanged.  Sessions,
    watchers and fingerprints are untouched either way, and an account
    with no cookie file loads the empty list. *)
Theorem save_then_load_cookies
    (a : string) (cookies : Outcome (list Cookie)) (w : World) (s : Session) :
  activeBrowsers w !! a = Some s ->
  let r := saveSession a cookies w in
  match cookies with
  | Returns cs =>
      success r.1 = true /\ r_cookieCount r.1 = Some (length cs) /\
      loadCookies a r.2 = cs
  | Throws e =>
      r.1 = failure (message e) /\ loadCookies a r.2 = loadCookies a w
  end /\
  activeBrowsers r.2 = activeBrowsers w /\
  fingerprintFiles r.2 = fingerprintFiles w /\
  sameTimers w r.2 /\
  (cookieFiles w !! cookiesPath w a = None -> loadCookies a w = []).
Proof.
  intros Hs. cbv zeta.
  pose proof (saveSession_present a cookies w s Hs) as H. cbv zeta in H.
  destruct H as (Hcwd & Hfp & Hact & _ & Hcase).
  pose proof (saveSession_sameTimers a cookies w) as Htimers.
  set (r := saveSession a cookies w) in *.
  split; [| split; [done | split; [done | split; [done |]]]].
  - destruct cookies as [cs | e]; destruct Hcase as [Hr Hck].
    + rewrite Hr. split; [done |]. split; [done |].
      by rewrite loadCookies_lookup, (cookiesPath_cwd w _ a Hcwd), Hck, lookup_insert_eq.
    + split; [done |].
      by rewrite !loadCookies_lookup, (cookiesPath_cwd w _ a Hcwd), Hck.
  - intros Hnone. by rewrite loadCookies_lookup, Hnone.
Qed.

Lemma save_then_load_cookies_witness :
  is_Some (activeBrowsers Examples.launched !! "acct-1") /\
  loadCookies "acct-1"
    (saveSession "acct-1" (Returns Samples.cookies) Examples.launched).2
  = Samples.cookies.
Proof.
  split; [exists Examples.session; reflexivity |].
  exact (proj2 (proj2 (proj1
           (save_then_load_cookies "acct-1" (Returns Samples.cookies)
              Examples.launched Examples.session eq_refl)))).
Defined.

(** ** Navigation *)

Section Navigation.

Lemma challengeLoop_frame (pg : nat) (env : ChallengeEnv) :
  forall remaining attempts nmoves w,
    sameDisk w (challengeLoop remaining attempts nmoves pg env w).2 /\
    activeBrowsers (challengeLoop remaining attempts nmoves pg env w).2
      = activeBrowsers w.
Proof.
  induction remaining as [| remaining IH]; intros attempts nmoves w.
  - by repeat split.
  - rewrite challengeLoop_step.
    destruct (stillChallenge env attempts); simpl negb; cbv iota; [| by repeat split].
    cbv zeta.
    match goal with |- context [challengeLoop remaining ?x ?y pg env ?w0] =>
      destruct (IH x y w0) as ((H1 & H2 & H3) & H4);
      assert (Hw0 : sameDisk w w0 /\ activeBrowsers w0 = activeBrowsers w)
    end.
    { destruct (Nat.eqb _ _); [destruct (moves env nmoves) |]; by repeat split. }
    destruct Hw0 as ((G1 & G2 & G3) & G4).
    repeat split; congruence.
Qed.

Lemma startLoginWatcher_frame (a : string) (cb : bool) (w : World) :
  sameDisk w (startLoginWatcher a cb w) /\
  activeBrowsers (startLoginWatcher a cb w) = activeBrowsers w /\
  countEvents isProbe (startLoginWatcher a cb w) = countEvents isProbe w.
Proof.
  destruct (stopLoginWatcher_frame a w)
    as ((Hcwd & Hfp & Hck) & Hact & _ & _ & _ & _ & Hprobe).
  unfold startLoginWatcher. cbv zeta. simpl.
  repeat split; try done.
  rewrite <- Hprobe. unfold countEvents. simpl.
  rewrite List.filter_app, length_app. simpl. lia.
Qed.

(** What [navigateTo] does for an account with a session: [mid] is the
    world before the watcher is started. *)
Lemma navigateTo_present (a url : string) (watch : option bool) (env : NavEnv)
    (w : World) (s : Session) :
  activeBrowsers w !! a = Some s ->
  let r := navigateTo a url watch env w in
  match ne_goto env with
  | Throws e =>
      r.1 = failure (message e) /\
      sameTimers w r.2 /\ sameDisk w r.2 /\
      activeBrowsers r.2 = activeBrowsers w /\
      trace r.2 = (trace w ++ [SetTimeouts (page s); Goto (page s) url])%list
  | Returns _ =>
      r.1 = mkReply true None None None None (Some url) None None None /\
      exists mid,
        sameTimers w mid /\ sameDisk w mid /\
        activeBrowsers mid = activeBrowsers w /\
        (countEvents isProbe mid <= countEvents isProbe w + 13)%nat /\
        r.2 = if default true watch then startLoginWatcher a false mid else mid
  end.
Proof.
  intros Hs. cbv zeta. unfold navigateTo. rewrite Hs.
  destruct (ne_goto env) as [[] | e]; [| by repeat split].
  cbv zeta.
  set (w2 := emit [HumanDelay 1000 2000]
               (emit [SetTimeouts (page s); Goto (page s) url] w)).
  destruct (isCloudflareChallenge (page s) (ne_detect env) w2)
    as [challenged w3] eqn:Hdetect.
  assert (Hw3 : w3 = emit [PageProbe (page s)] w2).
  { unfold isCloudflareChallenge in Hdetect.
    destruct (ne_detect env); by injection Hdetect as _ <-. }
  clear Hdetect. subst w3. unfold w2. clear w2.
  set (w3 := emit [PageProbe (page s)]
               (emit [HumanDelay 1000 2000]
                  (emit [SetTimeouts (page s); Goto (page s) url] w))).
  set (w4 := if challenged
             then (handleCloudflareChallenge (page s) (ne_challenge env) w3).2
             else w3).
  assert (Hw4 : sameTimers w w4 /\ sameDisk w w4 /\
                activeBrowsers w4 = activeBrowsers w /\
                (countEvents isProbe w4 <= countEvents isProbe w + 13)%nat).
  { subst w4. destruct challenged.
    - pose proof (handleCloudflareChallenge_sameTimers (page s) (ne_challenge env) w3)
        as (T1 & T2 & T3).
      unfold handleCloudflareChallenge in *. cbv zeta in *.
      match goal with |- context [challengeLoop ?n ?x ?y _ _ ?w0] =>
        destruct (challengeLoop_frame (page s) (ne_challenge env) n x y w0)
          as ((F1 & F2 & F3) & F4);
        pose proof (challengeLoop_probes (page s) (ne_challenge env) n x y w0) as Hp;
        assert (Hw0 : countEvents isProbe w0 = S (countEvents isProbe w)
                      /\ cwd w0 = cwd w /\ fingerprintFiles w0 = fingerprintFiles w
                      /\ cookieFiles w0 = cookieFiles w
                      /\ activeBrowsers w0 = activeBrowsers w)
      end.
      { rewrite simulateHumanBehavior_probes.
        destruct (moves (ne_challenge env) 0%nat);
          repeat split; try reflexivity; unfold countEvents; simpl;
          rewrite ?List.filter_app, ?length_app; simpl; lia. }
      destruct Hw0 as (P0 & C0 & D0 & E0 & A0).
      change (maxAttempts - 0)%nat with 12%nat in *.
      split; [split; [exact T1 | split; [exact T2 | exact T3]] |].
      split; [repeat split; congruence |].
      split; [congruence | lia].
    - repeat split.
      unfold countEvents. simpl. rewrite ?List.filter_app, ?length_app. simpl. lia. }
  destruct Hw4 as (T4 & D4 & A4 & P4).
  split; [done |].
  exists (simulateHumanBehavior (page s) (ne_move env) w4).
  assert (Hsim : forall m, sameTimers w4 (simulateHumanBehavior (page s) m w4) /\
                           sameDisk w4 (simulateHumanBehavior (page s) m w4) /\
                           activeBrowsers (simulateHumanBehavior (page s) m w4)
                             = activeBrowsers w4).
  { intros m. destruct m; by repeat split. }
  destruct (Hsim (ne_move env)) as (T5 & (D5a & D5b & D5c) & A5).
  destruct D4 as (D4a & D4b & D4c).
  split; [by apply (sameTimers_trans w w4) |].
  split; [repeat split; congruence |].
  split; [congruence |].
  split; [by rewrite simulateHumanBehavior_probes |].
  reflexivity.
Qed.

End Navigation.

(** X11. A navigation whose [goto] throws answers failure with the error's
    message; it probes for no challenge, starts no watcher and leaves the
    sessions, the registry and the files as they were. *)
Theorem navigation_failure_starts_no_watcher
    (a url : string) (watch : option bool) (env : NavEnv) (w : World)
    (s : Session) (e : Exn) :
  activeBrowsers w !! a = Some s ->
  ne_goto env = Throws e ->
  let r := navigateTo a url watch env w in
  r.1 = failure (message e) /\
  sameTimers w r.2 /\
  sameDisk w r.2 /\
  activeBrowsers r.2 = activeBrowsers w /\
  trace r.2 = (trace w ++ [SetTimeouts (page s); Goto (page s) url])%list.
Proof.
  intros Hs Hgoto. cbv zeta.
  pose proof (navigateTo_present a url watch env w s Hs) as H. cbv zeta in H.
  by rewrite Hgoto in H.
Qed.

Lemma navigation_failure_starts_no_watcher_witness :
  is_Some (activeBrowsers Examples.launched !! "acct-1") /\
  loginWatchers (navigateTo "acct-1" "https://mp.163.com/" None Samples.navFails
                   Examples.launched).2
  = loginWatchers Examples.launched.
Proof.
  split; [exists Examples.session; reflexivity |].
  exact (proj1 (proj1 (proj2
           (navigation_failure_starts_no_watcher "acct-1" "https://mp.163.com/" None
              Samples.navFails Examples.launched Examples.session _
              eq_refl eq_refl)))).
Defined.

(** X12. A navigation whose [goto] succeeds answers success with the url,
    probes the page at most 13 times and leaves sessions and files as they
    were.  Unless the caller opted out, the account ends up with a fresh
    watcher (nothing remembered, no check counted, period 1000 ms) under a
    new timer id, and the timer it had before is cleared; with
    [watchLogin = false] the registry is untouched. *)
Theorem navigation_starts_watcher
    (a url : string) (watch : option bool) (env : NavEnv) (w : World) (s : Session) :
  watchers_ok w ->
  activeBrowsers w !! a = Some s ->
  ne_goto env = Returns tt ->
  let r := navigateTo a url watch env w in
  r.1 = mkReply true None None None None (Some url) None None None /\
  activeBrowsers r.2 = activeBrowsers w /\
  sameDisk w r.2 /\
  (countEvents isProbe r.2 <= countEvents isProbe w + 13)%nat /\
  (watch <> Some false ->
     loginWatchers r.2 !! a = Some (nextInterval w) /\
     intervals r.2 !! nextInterval w = Some (mkWatcher a false 0 false 1000) /\
     (forall id0, loginWatchers w !! a = Some id0 -> intervals r.2 !! id0 = None)) /\
  (watch = Some false -> sameTimers w r.2).
Proof.
  intros Hok Hs Hgoto. cbv zeta.
  pose proof (navigateTo_present a url watch env w s Hs) as H. cbv zeta in H.
  rewrite Hgoto in H. destruct H as (Hr & mid & Ht & Hd & Ha & Hp & Hw').
  rewrite Hw'. clear Hw'.
  pose proof (sameTimers_ok w mid Ht Hok) as Hokm.
  destruct Ht as (Tl & Ti & Tn).
  destruct (startLoginWatcher_frame a false mid) as ((F1 & F2 & F3) & F4 & F5).
  destruct (startLoginWatcher_ok a false mid Hokm)
    as (_ & Sl & Si & _ & Sold & _).
  destruct Hd as (D1 & D2 & D3).
  split; [exact Hr |].
  destruct (decide (watch = Some false)) as [-> | Hne].
  - change (default true (Some false)) with false. cbv iota.
    split; [done |]. split; [done |]. split; [done |]. split; [done |]. done.
  - assert (Hdef : default true watch = true) by (by destruct watch as [[|] |]).
    rewrite Hdef.
    split; [congruence |]. split; [repeat split; congruence |]. split; [lia |].
    split; [| done]. intros _. rewrite <- Tn.
    split; [done |]. split; [done |]. intros id0 Hid0. apply Sold. by rewrite Tl.
Qed.

Lemma navigation_starts_watcher_witness :
  watchers_ok Examples.launched /\
  is_Some (activeBrowsers Examples.launched !! "acct-1") /\
  loginWatchers (navigateTo "acct-1" "https://mp.163.com/" None Samples.navOk
                   Examples.launched).2 !! "acct-1" = Some 0%nat.
Proof.
  split; [exact launched_ok |].
  split; [exists Examples.session; reflexivity |].
  destruct (navigation_starts_watcher "acct-1" "https://mp.163.com/" None
              Samples.navOk Examples.launched Examples.session launched_ok
              eq_refl eq_refl) as (_ & _ & _ & _ & Hwatch & _).
  apply Hwatch. discriminate.
Defined.



(** ** What a tick leaves alone *)

Section TickFrame.

Lemma tick_disk (id : nat) (env : TickEnv) (w : World) :
  cwd (tick id env w) = cwd w /\
  fingerprintFiles (tick id env w) = fingerprintFiles w /\
  (forall wt p, intervals w !! id = Some wt ->
     p <> cookiesPath w (w_accountId wt) ->
     cookieFiles (tick id env w) !! p = cookieFiles w !! p) /\
  (intervals w !! id = None -> cookieFiles (tick id env w) = cookieFiles w).
Proof.
  unfold tick.
  destruct (intervals w !! id) as [wt |] eqn:Hwt; [| done]. cbv zeta.
  assert (Hstop : forall line wt1,
    let w' := stopLoginWatcher (w_accountId wt) (log line (setWatcher id wt1 w)) in
    cwd w' = cwd w /\ fingerprintFiles w' = fingerprintFiles w /\
    cookieFiles w' = cookieFiles w).
  { intros line wt1.
    by destruct (stopLoginWatcher_frame (w_accountId wt)
                   (log line (setWatcher id wt1 w))) as ((? & ? & ?) & _). }
  destruct (maxChecks <? S (checkCount wt))%nat.
  { match goal with |- context [stopLoginWatcher _ (log ?l (setWatcher id ?x w))] =>
      destruct (Hstop l x) as (H1 & H2 & H3) end.
    repeat split; try done. intros wt0 p _ _. by rewrite H3. }
  change (activeBrowsers (setWatcher id ?x w)) with (activeBrowsers w).
  destruct (activeBrowsers w !! w_accountId wt) as [s |] eqn:Hs.
  2:{ match goal with |- context [stopLoginWatcher _ (log ?l (setWatcher id ?x w))] =>
        destruct (Hstop l x) as (H1 & H2 & H3) end.
      repeat split; try done. intros wt0 p _ _. by rewrite H3. }
  unfold checkLoginStatus.
  change (activeBrowsers (setWatcher id ?x w)) with (activeBrowsers w).
  rewrite Hs.
  destruct wt as [a was count cb delay]. simpl in Hs |- *.
  destruct (te_adapter env) as [[cs | e] | [b | e]];
    try (generalize (5 <? length cs)%nat; intros b);
    try destruct b; destruct was; simpl;
    unfold saveSession; simpl; rewrite ?Hs;
    destruct (te_cookies env) as [saved | e']; destruct cb;
    destruct (te_callbackThrows env); simpl;
    (split; [reflexivity |]); (split; [reflexivity |]);
    (split; [| done]); intros wt0 p [= <-]; simpl; intros Hp;
    try reflexivity; by rewrite lookup_insert_ne.
Qed.

Lemma setLogin_sameButLogin (s : Session) (flag : bool) (t : option Z) :
  sameButLogin s (setLogin s flag t).
Proof. by repeat split. Qed.

Lemma tick_sessions (id : nat) (env : TickEnv) (w : World) :
  forall b,
    match activeBrowsers (tick id env w) !! b with
    | Some s' =>
        exists s, activeBrowsers w !! b = Some s /\ sameButLogin s s' /\
                  ((forall wt, intervals w !! id = Some wt -> w_accountId wt <> b) ->
                   s' = s)
    | None => activeBrowsers w !! b = None
    end.
Proof.
  intros b.
  assert (Hsame : activeBrowsers (tick id env w) = activeBrowsers w ->
    match activeBrowsers (tick id env w) !! b with
    | Some s' =>
        exists s, activeBrowsers w !! b = Some s /\ sameButLogin s s' /\
                  ((forall wt, intervals w !! id = Some wt -> w_accountId wt <> b) ->
                   s' = s)
    | None => activeBrowsers w !! b = None
    end).
  { intros ->. destruct (activeBrowsers w !! b) as [s |]; [| done].
    exists s. by repeat split. }
  destruct (intervals w !! id) as [wt |] eqn:Hwt.
  2:{ apply Hsame. by rewrite tick_cleared. }
  destruct (decide (maxChecks <= checkCount wt)%nat) as [Hspent | Hbudget].
  { apply Hsame. unfold tick. rewrite Hwt. cbv zeta.
    replace (maxChecks <? S (checkCount wt))%nat with true
      by (symmetry; apply Nat.ltb_lt; lia).
    match goal with |- activeBrowsers (stopLoginWatcher ?a ?w0) = _ =>
      by destruct (stopLoginWatcher_frame a w0) as (_ & -> & _) end. }
  destruct (activeBrowsers w !! w_accountId wt) as [s |] eqn:Hs.
  2:{ apply Hsame. unfold tick. rewrite Hwt. cbv zeta.
      replace (maxChecks <? S (checkCount wt))%nat with false
        by (symmetry; apply Nat.ltb_ge; lia).
      change (activeBrowsers (setWatcher id ?x w)) with (activeBrowsers w).
      rewrite Hs.
      match goal with |- activeBrowsers (stopLoginWatcher ?a ?w0) = _ =>
        by destruct (stopLoginWatcher_frame a w0) as (_ & -> & _) end. }
  destruct (tick_checks id env w wt s Hwt ltac:(lia) Hs)
    as (_ & _ & _ & _ & _ & Hsess & _).
  destruct (rising env wt); [| destruct (falling env wt); [| by apply Hsame]].
  - rewrite Hsess. destruct (decide (w_accountId wt = b)) as [<- | Hne].
    + rewrite lookup_insert_eq. exists s.
      split; [done |]. split; [apply setLogin_sameButLogin |].
      intros Hother. by destruct (Hother wt).
    + rewrite lookup_insert_ne by done.
      destruct (activeBrowsers w !! b) as [sb |]; [| done].
      exists sb. by repeat split.
  - rewrite Hsess. destruct (decide (w_accountId wt = b)) as [<- | Hne].
    + rewrite lookup_insert_eq. exists s.
      split; [done |]. split; [apply setLogin_sameButLogin |].
      intros Hother. by destruct (Hother wt).
    + rewrite lookup_insert_ne by done.
      destruct (activeBrowsers w !! b) as [sb |]; [| done].
      exists sb. by repeat split.
Qed.

End TickFrame.

(** X14. [getLoginState] reports what the watcher last wrote.  After a
    tick on which the reported state rises it answers logged in, with the
    tick's time as detection time (or null when that time is 0); after a
    tick on which the state falls it answers logged out and still carries
    the earlier detection time; after any other tick that performed its
    check it answers as before. *)
Theorem login_state_follows_watcher
    (id : nat) (env : TickEnv) (w : World) (wt : Watcher) (s : Session) :
  intervals w !! id = Some wt ->
  (checkCount wt < maxChecks)%nat ->
  activeBrowsers w !! w_accountId wt = Some s ->
  let a := w_accountId wt in
  let w' := tick id env w in
  (rising env wt = true ->
     getLoginState a w'
       = mkLoginState true (Some a) (Some true)
           (if Z.eqb (te_now env) 0 then None else Some (te_now env)) None) /\
  (falling env wt = true ->
     gs_isLoggedIn (getLoginState a w') = Some false /\
     gs_loginDetectedAt (getLoginState a w') = gs_loginDetectedAt (getLoginState a w)) /\
  (rising env wt = false -> falling env wt = false ->
     getLoginState a w' = getLoginState a w).
Proof.
  intros Hwt Hbudget Hs. cbv zeta.
  destruct (tick_checks id env w wt s Hwt Hbudget Hs)
    as (_ & _ & _ & _ & _ & Hsess & _).
  unfold getLoginState. rewrite Hsess, Hs.
  split; [| split].
  - intros ->. by rewrite lookup_insert_eq.
  - intros Hfall. assert (Hrise : rising env wt = false).
    { unfold rising, falling in *. by destruct (reported env) as [[|] |]. }
    rewrite Hrise, Hfall, lookup_insert_eq. by simpl.
  - intros -> ->. by rewrite Hs.
Qed.

Lemma login_state_follows_watcher_witness :
  getLoginState "acct-1" (tick 0 (Examples.answer true) Examples.watched)
  = mkLoginState true (Some "acct-1") (Some true) (Some 1700000005000) None.
Proof.
  refine (proj1 (login_state_follows_watcher 0 (Examples.answer true) Examples.watched
                   (mkWatcher "acct-1" false 0 false 1000) Examples.session
                   _ _ _) _).
  - reflexivity.
  - vm_compute. lia.
  - reflexivity.
  - reflexivity.
Defined.

(** X15. A tick never adds or removes a session and never touches a
    fingerprint file or the working directory.  In the session of its own
    account it changes at most [isLoggedIn] and [loginDetectedAt]; the
    sessions of all other accounts, and every cookie file but its own
    account's, are exactly as before. *)
Theorem tick_touches_only_login_fields (id : nat) (env : TickEnv) (w : World) :
  let w' := tick id env w in
  cwd w' = cwd w /\
  fingerprintFiles w' = fingerprintFiles w /\
  (forall b, is_Some (activeBrowsers w' !! b) <-> is_Some (activeBrowsers w !! b)) /\
  (forall b s', activeBrowsers w' !! b = Some s' ->
     exists s, activeBrowsers w !! b = Some s /\ sameButLogin s s' /\
               ((forall wt, intervals w !! id = Some wt -> w_accountId wt <> b) ->
                s' = s)) /\
  (forall wt p, intervals w !! id = Some wt ->
     p <> cookiesPath w (w_accountId wt) ->
     cookieFiles w' !! p = cookieFiles w !! p).
Proof.
  cbv zeta.
  destruct (tick_disk id env w) as (Hcwd & Hfp & Hck & _).
  split; [done |]. split; [done |]. split; [| split; [| done]].
  - intros b. pose proof (tick_sessions id env w b) as H.
    destruct (activeBrowsers (tick id env w) !! b) as [s' |].
    + destruct H as (s & -> & _). by split; eexists.
    + rewrite H. by split; intros [].
  - intros b s' Hb. pose proof (tick_sessions id env w b) as H.
    by rewrite Hb in H.
Qed.

(** ** Closing every session *)

Section CloseAll.

Variable env : string -> CloseEnv.

Lemma closeAllBrowsers_spec :
  forall keys w,
    NoDup keys ->
    (forall a, a ∈ keys -> ce_closing (env a) = Returns tt) ->
    let r := closeAllBrowsers keys env w in
    (forall a, a ∈ keys -> activeBrowsers r.2 !! a = None) /\
    (forall a, a ∉ keys -> activeBrowsers r.2 !! a = activeBrowsers w !! a) /\
    (forall a id, loginWatchers r.2 !! a = Some id -> loginWatchers w !! a = Some id) /\
    (forall a, a ∈ keys -> is_Some (activeBrowsers w !! a) ->
       loginWatchers r.2 !! a = None) /\
    Forall (fun reply => success reply = true) r.1 /\
    List.map r_accountId r.1 = List.map Some (List.filter (present w) keys).
Proof.
  induction keys as [| a rest IH]; intros w Hnodup Hclosing; cbv zeta.
  - simpl. repeat split; try done; intros a Ha; by apply elem_of_nil in Ha.
  - apply NoDup_cons in Hnodup as [Hfresh Hnodup].
    assert (Hrest : forall b, b ∈ rest -> ce_closing (env b) = Returns tt).
    { intros b Hb. apply Hclosing. by right. }
    cbn [closeAllBrowsers List.filter]. unfold present at 1.
    destruct (decide (is_Some (activeBrowsers w !! a))) as [[s Hs] | Habsent].
    + rewrite bool_decide_eq_true_2 by eauto.
      pose proof (closeBrowser_present a None (ce_cookies (env a)) (ce_closing (env a))
                    w s Hs) as Hc. cbv zeta in Hc.
      rewrite (Hclosing a ltac:(by left)) in Hc.
      rewrite (Hclosing a ltac:(by left)).
      destruct Hc as (_ & _ & _ & Hreg & _ & _ & _ & Hr & Hdel).
      destruct (closeBrowser a None (ce_cookies (env a)) (Returns tt) w) as [r1 w1].
      simpl in Hreg, Hr, Hdel.
      destruct (IH w1 Hnodup Hrest) as (I1 & I2 & I3 & I4 & I5 & I6).
      destruct (closeAllBrowsers rest env w1) as [rs w2]. simpl in *.
      assert (Hfilter : List.filter (present w1) rest = List.filter (present w) rest).
      { apply List.filter_ext_in. intros b Hb. unfold present.
        rewrite Hdel, lookup_delete_ne; [done |].
        intros ->. apply Hfresh. by apply list_elem_of_In. }
      split; [| split; [| split; [| split; [| split]]]].
      * intros b Hb. apply elem_of_cons in Hb as [-> | Hb]; [| by apply I1].
        rewrite (I2 a Hfresh), Hdel. apply lookup_delete_eq.
      * intros b Hb. apply not_elem_of_cons in Hb as [Hne Hb].
        rewrite (I2 b Hb), Hdel. by rewrite lookup_delete_ne.
      * intros b id Hb. apply I3 in Hb. rewrite Hreg in Hb.
        by apply lookup_delete_Some in Hb as [_ Hb].
      * intros b Hb Hsome. apply elem_of_cons in Hb as [-> | Hb].
        -- destruct (loginWatchers w2 !! a) as [id |] eqn:E; [| done].
           apply I3 in E. rewrite Hreg, lookup_delete_eq in E. done.
        -- apply I4; [done |]. rewrite Hdel, lookup_delete_ne; [done |].
           intros ->. by apply Hfresh.
      * constructor; [by rewrite Hr | done].
      * rewrite Hr. simpl. by rewrite I6, Hfilter.
    + rewrite bool_decide_eq_false_2 by done.
      destruct (IH w Hnodup Hrest) as (I1 & I2 & I3 & I4 & I5 & I6).
      assert (Hnone : activeBrowsers w !! a = None).
      { destruct (activeBrowsers w !! a) eqn:E; [| done]. destruct Habsent. eauto. }
      split; [| split; [| split; [| split; [| split]]]]; try done.
      * intros b Hb. apply elem_of_cons in Hb as [-> | Hb]; [| by apply I1].
        by rewrite (I2 a Hfresh).
      * intros b Hb. apply not_elem_of_cons in Hb as [_ Hb]. by apply I2.
      * intros b Hb Hsome. apply elem_of_cons in Hb as [-> | Hb]; [| by apply I4].
        rewrite Hnone in Hsome. by destruct Hsome.
Qed.

End CloseAll.

(** X16. [closeAllBrowsers], run over the keys of the session map while
    every browser context closes, leaves no session at all, leaves no
    watcher for any account that had a session, starts no watcher, and
    returns one successful reply per session, labelled with its account,
    in key order. *)
Theorem close_all_closes_everything
    (keys : list string) (env : string -> CloseEnv) (w : World) :
  NoDup keys ->
  (forall a, is_Some (activeBrowsers w !! a) <-> a ∈ keys) ->
  (forall a, a ∈ keys -> ce_closing (env a) = Returns tt) ->
  let r := closeAllBrowsers keys env w in
  activeBrowsers r.2 = ∅ /\
  (forall a, a ∈ keys -> loginWatchers r.2 !! a = None) /\
  (forall a id, loginWatchers r.2 !! a = Some id -> loginWatchers w !! a = Some id) /\
  Forall (fun reply => success reply = true) r.1 /\
  List.map r_accountId r.1 = List.map Some keys.
Proof.
  intros Hnodup Hkeys Hclosing. cbv zeta.
  destruct (closeAllBrowsers_spec env keys w Hnodup Hclosing)
    as (H1 & H2 & H3 & H4 & H5 & H6).
  split; [| split; [| split; [done | split; [done |]]]].
  - apply map_eq. intros a. rewrite lookup_empty.
    destruct (decide (a ∈ keys)) as [Hin | Hout]; [by apply H1 |].
    rewrite (H2 a Hout).
    destruct (activeBrowsers w !! a) eqn:E; [| done].
    destruct Hout. apply Hkeys. eauto.
  - intros a Ha. apply H4; [done |]. by apply Hkeys.
  - rewrite H6. f_equal.
    rewrite List.forallb_filter_id; [done |].
    apply List.forallb_forall. intros a Ha. unfold present.
    apply bool_decide_eq_true_2, Hkeys. by apply list_elem_of_In.
Qed.

Lemma close_all_closes_everything_witness :
  NoDup ["acct-1"] /\
  activeBrowsers (closeAllBrowsers ["acct-1"] Samples.closeOk Examples.watched).2 = ∅.
Proof.
  assert (Hnodup : NoDup ["acct-1"]) by (apply NoDup_singleton).
  split; [exact Hnodup |].
  refine (proj1 (close_all_closes_everything ["acct-1"] Samples.closeOk
                   Examples.watched Hnodup _ _)).
  - intros a. rewrite list_elem_of_singleton. split.
    + intros Hsome. destruct (decide (a = "acct-1")) as [-> | Hne]; [done |].
      exfalso. unfold Examples.watched in Hsome.
      destruct (startLoginWatcher_frame "acct-1" false Examples.launched)
        as (_ & Hact & _).
      rewrite Hact in Hsome. unfold Examples.launched in Hsome. simpl in Hsome.
      rewrite lookup_singleton_ne in Hsome by done. by destruct Hsome.
    + intros ->. exists Examples.session. reflexivity.
  - intros a _. reflexivity.
Defined.

(** ** Watchers of different accounts *)

(** X17. Starting or stopping the watcher of one account leaves the
    registry entry and the live timer of every other account as they are,
    and stopping a watcher twice is the same as stopping it once. *)
Theorem watcher_operations_are_per_account
    (a b : string) (cb : bool) (w : World) :
  watchers_ok w ->
  a <> b ->
  loginWatchers (startLoginWatcher a cb w) !! b = loginWatchers w !! b /\
  loginWatchers (stopLoginWatcher a w) !! b = loginWatchers w !! b /\
  (forall id wt, intervals w !! id = Some wt -> w_accountId wt = b ->
     intervals (startLoginWatcher a cb w) !! id = Some wt /\
     intervals (stopLoginWatcher a w) !! id = Some wt) /\
  stopLoginWatcher a (stopLoginWatcher a w) = stopLoginWatcher a w.
Proof.
  intros Hok Hne.
  destruct (stopLoginWatcher_frame a w) as (_ & _ & Hreg & Hnext & Hint & _).
  assert (Hstopped : forall id wt, intervals w !! id = Some wt -> w_accountId wt = b ->
            intervals (stopLoginWatcher a w) !! id = Some wt).
  { intros id wt Hwt Hacc. rewrite Hint.
    destruct (loginWatchers w !! a) as [id0 |] eqn:Hid0; [| done].
    rewrite lookup_delete_ne; [done |]. intros <-.
    pose proof (live_registered w Hok id0 wt Hwt) as Hl.
    rewrite Hacc in Hl. destruct (registered_live w Hok a id0 Hid0) as (wt0 & Hwt0 & Ha0).
    congruence. }
  split; [| split; [| split]].
  - unfold startLoginWatcher. cbv zeta. simpl.
    by rewrite lookup_insert_ne, Hreg, lookup_delete_ne.
  - by rewrite Hreg, lookup_delete_ne.
  - intros id wt Hwt Hacc. split; [| by apply Hstopped].
    unfold startLoginWatcher. cbv zeta. simpl. rewrite Hnext.
    rewrite lookup_insert_ne; [by apply Hstopped |].
    pose proof (ids_fresh w Hok id (mk_is_Some _ _ Hwt)). lia.
  - assert (Hnone : loginWatchers (stopLoginWatcher a w) !! a = None)
      by (rewrite Hreg; apply lookup_delete_eq).
    unfold stopLoginWatcher at 1. by rewrite Hnone.
Qed.

Lemma watcher_operations_are_per_account_witness :
  watchers_ok Examples.watched /\
  loginWatchers (startLoginWatcher "acct-2" false Examples.watched) !! "acct-1"
  = loginWatchers Examples.watched !! "acct-1".
Proof.
  assert (Hok : watchers_ok Examples.watched)
    by (apply startLoginWatcher_ok, launched_ok).
  split; [exact Hok |].
  refine (proj1 (watcher_operations_are_per_account "acct-2" "acct-1" false
                   Examples.watched Hok _)).
  discriminate.
Defined.



(** ** Platforms and publishing *)

Section Platforms.
Import Adapters.

Lemma sameId_true (i : string) (a : Adapter) : sameId i a = true <-> ad_id a = i.
Proof. unfold sameId. apply String.eqb_eq. Qed.

Lemma sameId_false (i : string) (a : Adapter) : sameId i a = false <-> ad_id a <> i.
Proof. unfold sameId. apply String.eqb_neq. Qed.

Lemma find_replace_other (m : list Adapter) (a : Adapter) (i : string) :
  sameId i a = false ->
  List.find (sameId i) (List.map (fun b => if sameId (ad_id a) b then a else b) m)
    = List.find (sameId i) m.
Proof.
  intros Hia. induction m as [| b m IH]; [done |]. simpl.
  destruct (sameId (ad_id a) b) eqn:Hab.
  - assert (Hib : sameId i b = false).
    { apply sameId_false. apply sameId_true in Hab. apply sameId_false in Hia.
      congruence. }
    by rewrite Hia, Hib.
  - destruct (sameId i b); [done | exact IH].
Qed.

Lemma find_replace_same (m : list Adapter) (a : Adapter) :
  existsb (sameId (ad_id a)) m = true ->
  List.find (sameId (ad_id a))
            (List.map (fun b => if sameId (ad_id a) b then a else b) m)
    = Some a.
Proof.
  induction m as [| b m IH]; [done |]. simpl. intros Hex.
  assert (Haa : sameId (ad_id a) a = true) by (by apply sameId_true).
  destruct (sameId (ad_id a) b) eqn:Hab.
  - by rewrite Haa.
  - rewrite Hab. apply IH. exact Hex.
Qed.

Lemma find_app_one (m : list Adapter) (a : Adapter) (i : string) :
  List.find (sameId i) (m ++ [a])
    = match List.find (sameId i) m with
      | Some x => Some x
      | None => if sameId i a then Some a else None
      end.
Proof.
  induction m as [| b m IH]; simpl; [done |].
  by destruct (sameId i b).
Qed.

Lemma find_none_of_existsb (m : list Adapter) (i : string) :
  existsb (sameId i) m = false -> List.find (sameId i) m = None.
Proof.
  induction m as [| b m IH]; [done |]. simpl.
  destruct (sameId i b); [done | exact IH].
Qed.

Lemma getAdapter_setAdapter (m : list Adapter) (a : Adapter) (i : string) :
  getAdapter (setAdapter m a) i
    = if sameId i a then Some a else getAdapter m i.
Proof.
  unfold getAdapter, setAdapter.
  destruct (sameId i a) eqn:Hia.
  - apply sameId_true in Hia. subst i.
    destruct (existsb (sameId (ad_id a)) m) eqn:Hex.
    + by apply find_replace_same.
    + rewrite find_app_one, (find_none_of_existsb m _ Hex).
      by rewrite (proj2 (sameId_true (ad_id a) a) eq_refl).
  - destruct (existsb (sameId (ad_id a)) m) eqn:Hex.
    + by apply find_replace_other.
    + rewrite find_app_one, Hia. by destruct (List.find (sameId i) m).
Qed.

Lemma setAdapter_ids (m : list Adapter) (a : Adapter) :
  NoDup (List.map ad_id m) -> NoDup (List.map ad_id (setAdapter m a)).
Proof.
  intros Hnodup. unfold setAdapter.
  destruct (existsb (sameId (ad_id a)) m) eqn:Hex.
  - replace (List.map ad_id (List.map (fun b => if sameId (ad_id a) b then a else b) m))
      with (List.map ad_id m); [done |].
    rewrite List.map_map. apply List.map_ext. intros b.
    destruct (sameId (ad_id a) b) eqn:Hab; [| done].
    by apply sameId_true in Hab.
  - rewrite List.map_app. simpl. apply NoDup_app. split; [done |].
    split; [| apply NoDup_singleton].
    intros x Hx Hxa. apply list_elem_of_singleton in Hxa. subst x.
    apply list_elem_of_In, List.in_map_iff in Hx as (b & Hb & Hin).
    assert (Hcontra : existsb (sameId (ad_id a)) m = true).
    { apply List.existsb_exists. exists b. split; [done |]. by apply sameId_true. }
    congruence.
Qed.

Lemma fold_setAdapter_lookup (l m : list Adapter) (i : string) :
  getAdapter (fold_left setAdapter l m) i
    = match List.find (sameId i) (rev l) with
      | Some a => Some a
      | None => getAdapter m i
      end.
Proof.
  revert m. induction l as [| a l IH]; intros m; [done |].
  simpl fold_left. rewrite IH, getAdapter_setAdapter.
  change (rev (a :: l)) with (rev l ++ [a])%list. rewrite find_app_one.
  destruct (List.find (sameId i) (rev l)); [done |].
  by destruct (sameId i a).
Qed.

Lemma fold_setAdapter_ids (l m : list Adapter) :
  NoDup (List.map ad_id m) -> NoDup (List.map ad_id (fold_left setAdapter l m)).
Proof.
  revert m. induction l as [| a l IH]; intros m Hm; [done |].
  simpl. apply IH. by apply setAdapter_ids.
Qed.

Lemma platform_lists_length (adapters : list Adapter) :
  (length (getContentPlatforms adapters) + length (getAIPlatforms adapters)
   = length (getAllPlatforms adapters))%nat.
Proof.
  unfold getContentPlatforms, getAIPlatforms, getAllPlatforms.
  induction adapters as [| p ps IH]; [done |]. simpl.
  destruct (ad_type p); simpl; lia.
Qed.

End Platforms.

(** X19. [getAdapter] on the registry built by the registration loop
    returns, for every id, the last registered instance with that id (an
    earlier instance with the same id is replaced); an id nobody
    registered gives null; the adapter returned carries the id asked for;
    and no two entries of the registry share an id. *)
Theorem registry_lookup (instances : list Adapters.Adapter) (i : string) :
  Adapters.getAdapter (Adapters.register instances) i
    = List.find (Adapters.sameId i) (rev instances) /\
  (forall a, Adapters.getAdapter (Adapters.register instances) i = Some a ->
     Adapters.ad_id a = i /\ In a instances) /\
  ((forall a, In a instances -> Adapters.ad_id a <> i) ->
     Adapters.getAdapter (Adapters.register instances) i = None) /\
  NoDup (List.map Adapters.ad_id (Adapters.register instances)).
Proof.
  assert (Hlookup : Adapters.getAdapter (Adapters.register instances) i
                    = List.find (Adapters.sameId i) (rev instances)).
  { unfold Adapters.register. rewrite fold_setAdapter_lookup.
    by destruct (List.find (Adapters.sameId i) (rev instances)). }
  split; [exact Hlookup |]. split; [| split].
  - intros a Ha. rewrite Hlookup in Ha. apply List.find_some in Ha as [Hin Hid].
    split; [by apply sameId_true |]. by apply List.in_rev.
  - intros Hnone. rewrite Hlookup.
    destruct (List.find (Adapters.sameId i) (rev instances)) as [a |] eqn:E; [| done].
    apply List.find_some in E as [Hin Hid].
    destruct (Hnone a); [by apply List.in_rev | by apply sameId_true].
  - unfold Adapters.register. apply fold_setAdapter_ids. simpl. apply NoDup_nil_2.
Qed.

(** X20. The platform lists split the registry: every platform is either
    in the content list (types content and social) or in the AI list (type
    AI chat), never in both, and the two lengths add up to the length of
    the full list. *)
Theorem platform_lists_partition (adapters : list Adapters.Adapter) :
  (forall p, In p (Adapters.getAllPlatforms adapters) ->
     (In p (Adapters.getContentPlatforms adapters)
      /\ ~ In p (Adapters.getAIPlatforms adapters)
      /\ Adapters.ad_type p <> Adapters.AI_CHAT)
     \/ (In p (Adapters.getAIPlatforms adapters)
         /\ ~ In p (Adapters.getContentPlatforms adapters)
         /\ Adapters.ad_type p = Adapters.AI_CHAT)) /\
  (length (Adapters.getContentPlatforms adapters)
   + length (Adapters.getAIPlatforms adapters)
   = length (Adapters.getAllPlatforms adapters))%nat.
Proof.
  split; [| apply platform_lists_length].
  intros p Hp. unfold Adapters.getContentPlatforms, Adapters.getAIPlatforms.
  rewrite !List.filter_In.
  destruct (Adapters.ad_type p) eqn:Ht; simpl.
  - left. split; [done |]. split; [by intros [_ ?] | done].
  - right. split; [done |]. split; [by intros [_ ?] | done].
  - left. split; [done |]. split; [by intros [_ ?] | done].
Qed.

(** X21. [publishContent] publishes only through an adapter of type
    content.  For a session whose platform is of type social, which
    [getContentPlatforms] lists among the content platforms, or of type AI
    chat, it answers 'Not a content platform' and the adapter's [publish]
    is not called; for a platform without adapter it answers 'Unknown
    platform'.  Through a content adapter it returns what [publish]
    returns, or a failure with the message of what [publish] throws. *)
Theorem publish_requires_content_platform
    (adapters : list Adapters.Adapter) (a : string) (publish : Outcome Reply)
    (w : World) (s : Session) :
  activeBrowsers w !! a = Some s ->
  let r := publishContent adapters a publish w in
  (Adapters.getAdapter adapters (platformOf s a) = None ->
     r = (failure (Some "Unknown platform"), w)) /\
  (forall adapter,
     Adapters.getAdapter adapters (platformOf s a) = Some adapter ->
     (Adapters.ad_type adapter = Adapters.SOCIAL ->
        In adapter (Adapters.getContentPlatforms adapters) /\
        r = (failure (Some "Not a content platform"), w)) /\
     (Adapters.ad_type adapter = Adapters.AI_CHAT ->
        r = (failure (Some "Not a content platform"), w)) /\
     (Adapters.ad_type adapter = Adapters.CONTENT ->
        r.1 = match publish with
              | Returns result => result
              | Throws e => failure (message e)
              end /\
        activeBrowsers r.2 = activeBrowsers w /\ sameTimers w r.2)).
Proof.
  intros Hs. cbv zeta. unfold publishContent. rewrite Hs.
  split.
  - by intros ->.
  - intros adapter Hget. rewrite Hget.
    split; [| split]; intros Ht; rewrite Ht; simpl.
    + split; [| done]. unfold Adapters.getContentPlatforms.
      apply List.filter_In. apply List.find_some in Hget as [Hin _].
      split; [done |]. by rewrite Ht.
    + done.
    + by destruct publish.
Qed.

Lemma publish_requires_content_platform_witness :
  activeBrowsers Samples.socialWorld !! "acct-2" = Some Samples.socialSession /\
  publishContent [Samples.netease; Samples.xiaohongshu] "acct-2"
    (Returns succeeded) Samples.socialWorld
  = (failure (Some "Not a content platform"), Samples.socialWorld).
Proof.
  split; [reflexivity |].
  destruct (publish_requires_content_platform [Samples.netease; Samples.xiaohongshu]
              "acct-2" (Returns succeeded) Samples.socialWorld Samples.socialSession
              eq_refl) as (_ & H).
  destruct (H Samples.xiaohongshu eq_refl) as (Hsocial & _).
  exact (proj2 (Hsocial eq_refl)).
Defined.


(** ** The routes and the profile files *)

Section Routes.
Import Server.

Lemma append_assoc (a b c : string) : (a ++ b) ++ c = a ++ (b ++ c).
Proof.
  induction a as [| x a IH]; [reflexivity |].
  change (String x ((a ++ b) ++ c) = String x (a ++ (b ++ c))). by f_equal.
Qed.

Lemma resolve_cookies (w : World) (i : string) :
  resolve w ("profiles/" ++ i ++ "/cookies.json") = cookiesPath w i.
Proof.
  unfold resolve, cookiesPath, getProfilePath, PROFILES_DIR, pathJoin.
  by rewrite !append_assoc.
Qed.

Lemma resolve_fingerprint (w : World) (i : string) :
  resolve w ("profiles/" ++ i ++ "/fingerprint.json") = fingerprintPath w i.
Proof.
  unfold resolve, fingerprintPath, getProfilePath, PROFILES_DIR, pathJoin.
  by rewrite !append_assoc.
Qed.

Lemma resolve_joined (w : World) (i file : string) :
  resolve w (pathJoin ("profiles/" ++ i) file)
    = pathJoin (getProfilePath w i) file.
Proof.
  unfold resolve, getProfilePath, PROFILES_DIR, pathJoin.
  by rewrite !append_assoc.
Qed.

Lemma getCookies_loadCookies (i : string) (w : World) :
  getCookies i w = loadCookies i w.
Proof. unfold getCookies, loadCookies. by rewrite resolve_cookies. Qed.

Lemma postRestore_facts (i : string) (cookies : option (list Cookie))
    (fingerprint : option Fingerprint) (w : World) :
  let r := postRestore i cookies fingerprint w in
  r.1 = mkResponse 200 succeeded /\
  cwd r.2 = cwd w /\
  activeBrowsers r.2 = activeBrowsers w /\
  sameTimers w r.2 /\
  cookieFiles r.2 = match cookies with
                    | Some cs => <[cookiesPath w i := cs]> (cookieFiles w)
                    | None => cookieFiles w
                    end /\
  fingerprintFiles r.2 = match fingerprint with
                         | Some fp => <[fingerprintPath w i := fp]> (fingerprintFiles w)
                         | None => fingerprintFiles w
                         end.
Proof.
  cbv zeta. unfold postRestore. cbv zeta.
  destruct cookies as [cs |]; destruct fingerprint as [fp |]; simpl;
    rewrite ?resolve_joined; by repeat split.
Qed.

End Routes.

(** X22. The routes refuse incomplete requests before they reach the
    browser manager: a launch without account id, a navigation without
    account id or url and a script execution without script answer 400 and
    change nothing.  A complete launch request is answered 200 with the
    reply of [launchBrowser], called with [headless] defaulting to false;
    whatever the request, the launch route creates no session under the
    empty account id. *)
Theorem routes_validate_requests :
  (forall b env g w, truthyOpt (Server.lb_accountId b) = false ->
     Server.postLaunch b env g w
       = (Server.mkResponse 400 (failure (Some "accountId is required")), g, w)) /\
  (forall a url env w, truthyOpt a = false \/ truthyOpt url = false ->
     Server.postNavigate a url env w
       = (Server.mkResponse 400 (failure (Some "accountId and url are required")), w)) /\
  (forall a script v w, truthyOpt script = false ->
     Server.postExecute a script v w
       = (Server.mkResponse 400 (failure (Some "script is required")), w)) /\
  (forall b env g w a, Server.lb_accountId b = Some a -> truthy a = true ->
     Server.postLaunch b env g w
       = let r := launchBrowser
                    (mkLaunchRequest a (Server.lb_platformId b) (Server.lb_proxy b)
                       (Some (default false (Server.lb_headless b)))) env g w in
         (Server.mkResponse 200 r.1.1, r.1.2, r.2)) /\
  (forall b env g w,
     activeBrowsers (Server.postLaunch b env g w).2 !! ""
       = activeBrowsers w !! "").
Proof.
  assert (Hvalid : forall b env g w a,
    Server.lb_accountId b = Some a -> truthy a = true ->
    Server.postLaunch b env g w
      = let r := launchBrowser
                   (mkLaunchRequest a (Server.lb_platformId b) (Server.lb_proxy b)
                      (Some (default false (Server.lb_headless b)))) env g w in
        (Server.mkResponse 200 r.1.1, r.1.2, r.2)).
  { intros b env g w a Ha Ht. unfold Server.postLaunch. rewrite Ha. simpl.
    rewrite Ht. simpl. by destruct (launchBrowser _ _ _ _) as [[r g'] w']. }
  assert (Hbad : forall b env g w, truthyOpt (Server.lb_accountId b) = false ->
    Server.postLaunch b env g w
      = (Server.mkResponse 400 (failure (Some "accountId is required")), g, w)).
  { intros b env g w Hb. unfold Server.postLaunch. by rewrite Hb. }
  split; [exact Hbad |]. split; [| split; [| split; [exact Hvalid |]]].
  - intros a url env w Hbad'. unfold Server.postNavigate.
    by destruct Hbad' as [-> | ->]; [| rewrite orb_true_r].
  - intros a script v w Hbad'. unfold Server.postExecute. by rewrite Hbad'.
  - intros b env g w.
    destruct (truthyOpt (Server.lb_accountId b)) eqn:Ht; [| by rewrite Hbad].
    destruct (Server.lb_accountId b) as [a |] eqn:Ha; [| done]. simpl in Ht.
    rewrite (Hvalid b env g w a Ha Ht). cbv zeta. simpl.
    assert (Hne : a <> "") by (intros ->; done).
    set (req := mkLaunchRequest a _ _ _).
    destruct (activeBrowsers w !! a) as [s |] eqn:Hs.
    + unfold launchBrowser. rewrite ensureProfilesDir_sessions.
      destruct (decide (is_Some (activeBrowsers w !! lr_accountId req))) as [_ | Hno];
        [done |].
      destruct Hno. simpl. eauto.
    + pose proof (launchBrowser_absent req env g w Hs) as Habs. cbv zeta in Habs.
      destruct Habs as (_ & _ & _ & _ & _ & _ & Hcase).
      destruct (launchOutcome env) as [[ctx pg] | e]; destruct Hcase as [_ ->];
        [by rewrite lookup_insert_ne | done].
Qed.




(** ** Sessions and stored fingerprints *)

Section SessionsOnDisk.

Lemma sessions_ok_transfer (w w' : World) :
  cwd w' = cwd w ->
  (forall p x, fingerprintFiles w !! p = Some x -> fingerprintFiles w' !! p = Some x) ->
  (forall b s', activeBrowsers w' !! b = Some s' ->
     exists s, activeBrowsers w !! b = Some s /\
               fingerprint s' = fingerprint s /\ userDataDir s' = userDataDir s) ->
  sessions_ok w -> sessions_ok w'.
Proof.
  intros Hcwd Hfiles Hsess Hok b s' Hb.
  destruct (Hsess b s' Hb) as (s & Hs & Hfp & Hdir).
  destruct (Hok b s Hs) as [Hfile Hud].
  assert (Hpath : getProfilePath w' b = getProfilePath w b).
  { unfold getProfilePath, PROFILES_DIR. by rewrite Hcwd. }
  unfold fingerprintPath. rewrite Hpath, Hfp, Hdir. split; [| done].
  by apply Hfiles.
Qed.

Lemma sessions_ok_same (w w' : World) :
  cwd w' = cwd w ->
  fingerprintFiles w' = fingerprintFiles w ->
  activeBrowsers w' = activeBrowsers w ->
  sessions_ok w -> sessions_ok w'.
Proof.
  intros Hcwd Hfp Hact. apply sessions_ok_transfer; [done | | ].
  - intros p x. by rewrite Hfp.
  - intros b s'. rewrite Hact. intros Hb. by exists s'.
Qed.

Lemma launchBrowser_sessions_ok req env g w :
  sessions_ok w -> sessions_ok (launchBrowser req env g w).2.
Proof.
  intros Hok.
  destruct (activeBrowsers w !! lr_accountId req) as [s |] eqn:Hs.
  - apply (sessions_ok_same w); [| | | done];
      unfold launchBrowser; rewrite ensureProfilesDir_sessions;
      (destruct (decide (is_Some (activeBrowsers w !! lr_accountId req))) as [_ | Hno];
       [done | destruct Hno; eauto]).
  - pose proof (launchBrowser_absent req env g w Hs) as Habs. cbv zeta in Habs.
    destruct Habs as (_ & Hcwd & Hfiles & _ & _ & _ & Hcase).
    pose proof (loadOrCreateFingerprint_facts (lr_accountId req) (le_now env) g
                  (ensureProfilesDir w)) as (_ & Hstored & Hother & _ & Hkept & _).
    assert (Hmono : forall p x, fingerprintFiles w !! p = Some x ->
              fingerprintFiles (launchBrowser req env g w).2 !! p = Some x).
    { intros p x Hp. rewrite Hfiles.
      destruct (decide (p = fingerprintPath (ensureProfilesDir w) (lr_accountId req)))
        as [-> | Hne].
      - by rewrite (Hkept x Hp).
      - by rewrite (Hother p Hne). }
    destruct (launchOutcome env) as [[ctx pg] | e]; destruct Hcase as [_ Hsess].
    + intros b s' Hb. rewrite Hsess in Hb.
      assert (Hpath : getProfilePath (launchBrowser req env g w).2 b
                      = getProfilePath w b).
      { unfold getProfilePath, PROFILES_DIR. by rewrite Hcwd. }
      unfold fingerprintPath. rewrite Hpath.
      destruct (decide (lr_accountId req = b)) as [<- | Hne].
      * rewrite lookup_insert_eq in Hb. injection Hb as <-. simpl.
        split; [| done]. by rewrite Hfiles.
      * rewrite lookup_insert_ne in Hb by done.
        destruct (Hok b s' Hb) as [Hfile Hud]. split; [| done]. by apply Hmono.
    + apply (sessions_ok_transfer w); [done | done | | done].
      intros b s'. rewrite Hsess. intros Hb. by exists s'.
Qed.

Lemma step_sessions_ok (w w' : World) : Step w w' -> sessions_ok w -> sessions_ok w'.
Proof.
  intros Hstep Hok. destruct Hstep.
  - by apply launchBrowser_sessions_ok.
  - destruct (activeBrowsers w !! a) as [s |] eqn:Hs.
    + pose proof (navigateTo_present a url watch env w s Hs) as H. cbv zeta in H.
      destruct (ne_goto env) as [[] | e].
      * destruct H as (_ & mid & _ & (D1 & D2 & _) & Ha & _ & ->).
        destruct (startLoginWatcher_frame a false mid) as ((F1 & F2 & _) & F4 & _).
        destruct (default true watch);
          (apply (sessions_ok_same w); [congruence | congruence | congruence | done]).
      * destruct H as (_ & _ & (D1 & D2 & _) & Ha & _).
        by apply (sessions_ok_same w).
    + unfold navigateTo. by rewrite Hs.
  - destruct (activeBrowsers w !! a) as [s |] eqn:Hs.
    + pose proof (saveSession_present a cookies w s Hs) as H. cbv zeta in H.
      destruct H as (H1 & H2 & H3 & _). by apply (sessions_ok_same w).
    + unfold saveSession. by rewrite Hs.
  - destruct (activeBrowsers w !! a) as [s |] eqn:Hs.
    + pose proof (closeBrowser_present a save cookies closing w s Hs) as H.
      cbv zeta in H. destruct H as (H1 & H2 & _ & _ & _ & _ & _ & Hcase).
      apply (sessions_ok_transfer w); [done | by intros p x; rewrite H2 | | done].
      intros b s' Hb. exists s'. split; [| done].
      destruct closing as [[] | e]; destruct Hcase as [_ Hact]; rewrite Hact in Hb;
        [by apply lookup_delete_Some in Hb as [_ Hb] | done].
    + unfold closeBrowser. by rewrite Hs.
  - apply (sessions_ok_same w); [| | | done]; unfold takeScreenshot;
      destruct (activeBrowsers w !! a); try destruct shot; reflexivity.
  - apply (sessions_ok_same w); [| | | done]; unfold executeScript;
      destruct (activeBrowsers w !! a); try destruct v; reflexivity.
  - apply (sessions_ok_same w); [| | | done]; unfold checkLoginStatus;
      destruct (activeBrowsers w !! a); try destruct env as [[|] | [|]]; reflexivity.
  - destruct (startLoginWatcher_frame a cb w) as ((F1 & F2 & _) & F4 & _).
    by apply (sessions_ok_same w).
  - destruct (stopLoginWatcher_frame a w) as ((F1 & F2 & _) & F4 & _).
    by apply (sessions_ok_same w).
  - destruct (tick_disk id env w) as (H1 & H2 & _).
    apply (sessions_ok_transfer w); [done | by intros p x; rewrite H2 | | done].
    intros b s' Hb. pose proof (tick_sessions id env w b) as H. rewrite Hb in H.
    destruct H as (s & Hs & (_ & _ & Hfp & _ & _ & Hud & _) & _).
    by exists s.
Qed.

Lemma step_cwd (w w' : World) : Step w w' -> cwd w' = cwd w.
Proof.
  intros Hstep. destruct Hstep.
  - destruct (activeBrowsers w !! lr_accountId req) as [s |] eqn:Hs.
    + unfold launchBrowser. rewrite ensureProfilesDir_sessions.
      destruct (decide (is_Some (activeBrowsers w !! lr_accountId req))) as [_ | Hno];
        [done | destruct Hno; eauto].
    + by destruct (launchBrowser_absent req env g w Hs) as (_ & ? & _).
  - destruct (activeBrowsers w !! a) as [s |] eqn:Hs.
    + pose proof (navigateTo_present a url watch env w s Hs) as H. cbv zeta in H.
      destruct (ne_goto env) as [[] | e].
      * destruct H as (_ & mid & _ & (D1 & _) & _ & _ & ->).
        destruct (startLoginWatcher_frame a false mid) as ((F1 & _) & _).
        destruct (default true watch); congruence.
      * by destruct H as (_ & _ & (D1 & _) & _).
    + unfold navigateTo. by rewrite Hs.
  - destruct (activeBrowsers w !! a) as [s |] eqn:Hs.
    + by destruct (saveSession_present a cookies w s Hs) as (? & _).
    + unfold saveSession. by rewrite Hs.
  - destruct (activeBrowsers w !! a) as [s |] eqn:Hs.
    + by destruct (closeBrowser_present a save cookies closing w s Hs) as (? & _).
    + unfold closeBrowser. by rewrite Hs.
  - unfold takeScreenshot. destruct (activeBrowsers w !! a); try destruct shot; reflexivity.
  - unfold executeScript. destruct (activeBrowsers w !! a); try destruct v; reflexivity.
  - unfold checkLoginStatus.
    destruct (activeBrowsers w !! a); try destruct env as [[|] | [|]]; reflexivity.
  - by destruct (startLoginWatcher_frame a cb w) as ((F1 & _) & _).
  - by destruct (stopLoginWatcher_frame a w) as ((F1 & _) & _).
  - by destruct (tick_disk id env w) as (H1 & _).
Qed.

End SessionsOnDisk.


